(** * Hotel booking system: the booking engine, embedded from the C sources

    The program keeps its records in colon-delimited text files and reads
    them back with [fgets] and [sscanf].  The embedding keeps that level:
    a file is its text, a record is what [sscanf] stores for a line, and a
    variable that [sscanf] does not reach keeps what it held before.

    Conventions of the model.
    - C strings are [string]s without the NUL character; [strcmp] is the
      byte-wise lexicographic comparison.
    - [int] values read by [%d] are mathematical integers; a number that
      does not fit an [int] is outside the model (C leaves it undefined):
      the statements about the integers that a text holds are made for
      integers that fit ([fits_int]).
    - [float] is IEEE binary32 with round-to-nearest-even ([SpecFloat] at
      precision 24), and [float] expressions are evaluated in [float];
      of the numbers that [%f] reads, hexadecimal literals and the
      parenthesised payload of a NaN are left out.
    - The character arrays of the source are not bounded: a field longer
      than its array is outside the model.  The arrays of records are
      bounded: a store past their end has no defined behaviour.
    - A local variable read before it is written has an indeterminate
      value: every function that has such locals takes their initial
      contents as an argument.
    - [fopen] fails to open a file for reading when the file does not
      exist; opening a file for writing or for appending succeeds.
    - The clock is an argument.  [mktime] is that of a time zone whose
      standard time has a fixed offset from UTC; [strftime] is modelled
      for the years 1000 to 9999, which [%Y] writes in four digits. *)

From Stdlib Require Import ZArith List Bool String Ascii Lia.
From Stdlib Require Import Permutation Sorting.Sorted.
From Stdlib Require Import Floats.SpecFloat.
Import ListNotations.

Local Open Scope string_scope.
Local Open Scope Z_scope.

(** ** The C library, as far as the program uses it *)

Module C.

(** *** <ctype.h> and <string.h> *)

Definition code (c : ascii) : Z := Z.of_N (N_of_ascii c).

Definition isdigit (c : ascii) : bool := (48 <=? code c) && (code c <=? 57).

(** The C locale: space, and the controls from tab to carriage return. *)
Definition isspace (c : ascii) : bool :=
  (code c =? 32) || ((9 <=? code c) && (code c <=? 13)).

Definition digit_val (c : ascii) : Z := code c - 48.

Definition digit_char (n : Z) : ascii := ascii_of_N (Z.to_N (48 + n)).

Definition strcmp (a b : string) : Z :=
  match String.compare a b with Lt => -1 | Eq => 0 | Gt => 1 end.

Definition strlen (s : string) : Z := Z.of_nat (String.length s).

(** [strncmp a b n]: the comparison of the first [n] characters. *)
Definition strncmp (a b : string) (n : nat) : Z :=
  strcmp (String.substring 0 n a) (String.substring 0 n b).

(** [strncpy dst src n] followed by [dst[n] = 0]. *)
Definition strncpy_term (src : string) (n : nat) : string :=
  String.substring 0 n src.

(** [strstr hay needle != NULL]. *)
Fixpoint strstr (hay needle : string) : bool :=
  String.prefix needle hay ||
  match hay with
  | EmptyString => false
  | String _ hay' => strstr hay' needle
  end.

Arguments isdigit : simpl never.
Arguments isspace : simpl never.
Arguments digit_val : simpl never.

(** *** <stdio.h>: reading *)

(** [fgets] with a buffer of [size] characters reads at most [size - 1]
    characters and stops after a newline; [take_line (size - 1)] is one
    call, [fgets_lines] the lines a [while (fgets (...))] loop sees. *)
Fixpoint take_line (k : nat) (s : string) : string * string :=
  match k, s with
  | O, _ => (EmptyString, s)
  | _, EmptyString => (EmptyString, EmptyString)
  | S k', String c r =>
      if Ascii.eqb c "010" then (String c EmptyString, r)
      else let (l, r') := take_line k' r in (String c l, r')
  end.

Fixpoint fgets_loop (fuel : nat) (size : nat) (s : string) : list string :=
  match fuel, s with
  | O, _ => []
  | _, EmptyString => []
  | S fuel', _ =>
      let (l, r) := take_line (size - 1) s in l :: fgets_loop fuel' size r
  end.

(** Every call consumes a character (for [size >= 2]), so the length of
    the text is fuel enough. *)
Definition fgets_lines (size : nat) (s : string) : list string :=
  fgets_loop (String.length s) size s.

(** *** <stdio.h>: [sscanf] *)

Fixpoint skip_space (s : string) : string :=
  match s with
  | String c r => if isspace c then skip_space r else s
  | EmptyString => s
  end.

Fixpoint scan_digits (acc : Z) (s : string) : Z * string :=
  match s with
  | String c r =>
      if isdigit c then scan_digits (10 * acc + digit_val c) r else (acc, s)
  | EmptyString => (acc, s)
  end.

Definition scan_unsigned (s : string) : option (Z * string) :=
  match s with
  | String c _ => if isdigit c then Some (scan_digits 0 s) else None
  | EmptyString => None
  end.

(** [%d]: white space, an optional sign, at least one digit.  The value
    is the integer that the digits denote; the source stores it in an
    [int], so the model follows it where the value fits one. *)
Definition scan_d (s : string) : option (Z * string) :=
  match skip_space s with
  | String "-" r =>
      match scan_unsigned r with
      | Some (v, r') => Some (- v, r')
      | None => None
      end
  | String "+" r => scan_unsigned r
  | s' => scan_unsigned s'
  end.

(** [%[^c]]: a non-empty run of characters other than [c]; no white space
    is skipped. *)
Fixpoint span_not (c : ascii) (s : string) : string * string :=
  match s with
  | String a r =>
      if Ascii.eqb a c then (EmptyString, s)
      else let (t, r') := span_not c r in (String a t, r')
  | EmptyString => (EmptyString, EmptyString)
  end.

Definition scan_not (c : ascii) (s : string) : option (string * string) :=
  match span_not c s with
  | (EmptyString, _) => None
  | (t, r) => Some (t, r)
  end.

(** A format is a list of directives over the variables [V] that the
    argument pointers designate: a literal character, or a conversion with
    the store through its pointer. *)
Inductive directive (V : Type) : Type :=
| Lit (c : ascii)
| Conv {A : Type} (scan : string -> option (A * string)) (store : A -> V -> V).
Arguments Lit {V} c.
Arguments Conv {V A} scan store.

(** [sscanf] goes through the format and stops at the first directive that
    does not match: the variables of the later conversions keep their
    values.  The result is the number of conversions stored; the program
    compares it with 3 or ignores it, so that [EOF], which C returns when
    the input ends before the first conversion, is not told apart from
    0. *)
Fixpoint sscanf {V : Type} (fmt : list (directive V)) (input : string)
    (vars : V) : Z * V :=
  match fmt with
  | [] => (0, vars)
  | Lit c :: fmt' =>
      match input with
      | String c' r =>
          if Ascii.eqb c c' then sscanf fmt' r vars else (0, vars)
      | EmptyString => (0, vars)
      end
  | Conv scan store :: fmt' =>
      match scan input with
      | Some (a, r) =>
          let (n, vars') := sscanf fmt' r (store a vars) in (n + 1, vars')
      | None => (0, vars)
      end
  end.

(** *** <stdio.h>: writing integers *)

Fixpoint dec_loop (fuel : nat) (n : Z) (acc : string) : string :=
  match fuel with
  | O => acc
  | S fuel' =>
      let acc' := String (digit_char (n mod 10)) acc in
      if n <? 10 then acc' else dec_loop fuel' (n / 10) acc'
  end.

(** The decimal digits of [n >= 0]. *)
Definition dec (n : Z) : string :=
  dec_loop (S (Z.to_nat (Z.log2 n))) n EmptyString.

Fixpoint zeros (k : nat) : string :=
  match k with O => EmptyString | S k' => String "0" (zeros k') end.

(** [%d] *)
Definition fmt_d (n : Z) : string :=
  if n <? 0 then String "-" (dec (- n)) else dec n.

(** [%0wd]: the sign counts in the width. *)
Definition fmt_0d (w : nat) (n : Z) : string :=
  if n <? 0 then
    let ds := dec (- n) in
    String "-" (zeros (w - 1 - String.length ds) ++ ds)
  else
    let ds := dec n in zeros (w - String.length ds) ++ ds.

(** *** [float]: IEEE binary32 *)

Definition float : Type := spec_float.

Definition prec : Z := 24.
Definition emax : Z := 128.

Definition fzero : float := S754_zero false.
Definition fadd : float -> float -> float := SFadd prec emax.
Definition fmul : float -> float -> float := SFmul prec emax.
Definition flt : float -> float -> bool := SFltb.

(** The conversion of an [int] to [float]. *)
Definition float_of_int (n : Z) : float := binary_normalize prec emax n 0 false.

(** The decimal number [(-1)^neg * n * 10^scale], correctly rounded. *)
Definition float_of_decimal (neg : bool) (n scale : Z) : float :=
  if n =? 0 then S754_zero neg
  else if 0 <=? scale then
    binary_normalize prec emax ((if neg then - n else n) * 10 ^ scale) 0 false
  else
    SFdiv prec emax (S754_finite neg (Z.to_pos n) 0)
                    (S754_finite false (Z.to_pos (10 ^ (- scale))) 0).

(** *** [%f] of [sscanf] *)

(** The digits of a fraction: the number continued, and how many digits. *)
Fixpoint scan_fraction (acc : Z) (k : Z) (s : string) : Z * Z * string :=
  match s with
  | String c r =>
      if isdigit c then scan_fraction (10 * acc + digit_val c) (k + 1) r
      else (acc, k, s)
  | EmptyString => (acc, k, s)
  end.

Definition starts_with_digit (s : string) : bool :=
  match s with String c _ => isdigit c | EmptyString => false end.

Definition lower (c : ascii) : ascii :=
  if (65 <=? code c) && (code c <=? 90)
  then ascii_of_N (Z.to_N (code c + 32)) else c.

Fixpoint lower_string (s : string) : string :=
  match s with
  | String c r => String (lower c) (lower_string r)
  | EmptyString => EmptyString
  end.

(** Does [s] start with the word [w], in either case?  The rest if so. *)
Definition scan_word (w : string) (s : string) : option string :=
  let n := String.length w in
  if String.eqb (lower_string (String.substring 0 n s)) w
  then Some (String.substring n (String.length s - n) s) else None.

(** The exponent part: [e], an optional sign, digits.  An [e] that no digit
    follows makes the item a strict prefix of a number: the conversion
    fails. *)
Definition scan_exponent (s : string) : option (Z * string) :=
  match s with
  | String c r =>
      if Ascii.eqb (lower c) "e" then
        match r with
        | String "-" r' =>
            match scan_unsigned r' with
            | Some (v, r'') => Some (- v, r'')
            | None => None
            end
        | String "+" r' => scan_unsigned r'
        | _ => scan_unsigned r
        end
      else Some (0, s)
  | EmptyString => Some (0, s)
  end.

(** A decimal number: digits with an optional point, at least one digit,
    an optional exponent. *)
Definition scan_decimal (neg : bool) (s : string) : option (float * string) :=
  let (n1, r1) := scan_digits 0 s in
  let '(n, k, r2) :=
    match r1 with
    | String "." r => scan_fraction n1 0 r
    | _ => (n1, 0, r1)
    end in
  let has_digit :=
    starts_with_digit s ||
    match r1 with String "." r => starts_with_digit r | _ => false end in
  if has_digit then
    match scan_exponent r2 with
    | Some (e, r3) => Some (float_of_decimal neg n (e - k), r3)
    | None => None
    end
  else None.

Definition scan_unsigned_float (neg : bool) (s : string)
  : option (float * string) :=
  match scan_word "infinity" s with
  | Some r => Some (S754_infinity neg, r)
  | None =>
      match scan_word "inf" s with
      | Some r => Some (S754_infinity neg, r)
      | None =>
          match scan_word "nan" s with
          | Some r => Some (S754_nan, r)
          | None => scan_decimal neg s
          end
      end
  end.

(** [%f]: white space, an optional sign, a number. *)
Definition scan_f (s : string) : option (float * string) :=
  match skip_space s with
  | String "-" r => scan_unsigned_float true r
  | String "+" r => scan_unsigned_float false r
  | s' => scan_unsigned_float false s'
  end.

(** *** [%.2f] of [printf] *)

(** [p / q] rounded to the nearest integer, ties to even ([q > 0]). *)
Definition round_half_even (p q : Z) : Z :=
  let n := p / q in
  let r := p mod q in
  if (q <? 2 * r) || ((q =? 2 * r) && Z.odd n) then n + 1 else n.

(** The hundredths in the magnitude of a finite float, rounded. *)
Definition hundredths (m : positive) (e : Z) : Z :=
  if 0 <=? e then 100 * Zpos m * 2 ^ e
  else round_half_even (100 * Zpos m) (2 ^ (- e)).

Definition fmt_hundredths (neg : bool) (h : Z) : string :=
  (if neg then "-" else "") ++ dec (h / 100) ++ "." ++ fmt_0d 2 (h mod 100).

Definition fmt_2f (x : float) : string :=
  match x with
  | S754_zero neg => fmt_hundredths neg 0
  | S754_infinity neg => (if neg then "-" else "") ++ "inf"
  | S754_nan => "nan"
  | S754_finite neg m e => fmt_hundredths neg (hundredths m e)
  end.

(** *** <time.h> *)

(** The fields of [struct tm] that the program sets or reads; the hour,
    minute and second are zero wherever the program calls [mktime], and
    [tm_isdst] is zero: the time is read as standard time. *)
Record tm : Type :=
  { tm_mday : Z; tm_mon : Z; tm_year : Z; tm_wday : Z }.

Definition is_leap (y : Z) : bool :=
  ((y mod 4 =? 0) && negb (y mod 100 =? 0)) || (y mod 400 =? 0).

(** Days from 0001-01-01 to the first day of year [y]. *)
Definition days_before_year (y : Z) : Z :=
  365 * (y - 1) + (y - 1) / 4 - (y - 1) / 100 + (y - 1) / 400.

(** Days from the first day of a common year to the first day of month
    [m] (from 0 to 11). *)
Definition mon_yday (m : Z) : Z :=
  nth (Z.to_nat m) [0; 31; 59; 90; 120; 151; 181; 212; 243; 273; 304; 334] 0.

Definition days_before_month (y m : Z) : Z :=
  mon_yday m + (if is_leap y && (2 <=? m) then 1 else 0).

(** Days from 1970-01-01 to the day that [tm_year], [tm_mon] and [tm_mday]
    designate, whatever their ranges: months beyond the year carry into the
    year, days beyond the month into the following months. *)
Definition tm_days (t : tm) : Z :=
  let months := 12 * (tm_year t + 1900) + tm_mon t in
  let y := months / 12 in
  let m := months mod 12 in
  days_before_year y + days_before_month y m + (tm_mday t - 1) - 719162.

(** The calendar date of a day number (year, month from 1, day). *)
Definition civil_from_days (z : Z) : Z * Z * Z :=
  let z := z + 719468 in
  let era := z / 146097 in
  let doe := z - era * 146097 in
  let yoe := (doe - doe / 1460 + doe / 36524 - doe / 146096) / 365 in
  let doy := doe - (365 * yoe + yoe / 4 - yoe / 100) in
  let mp := (5 * doy + 2) / 153 in
  let d := doy - (153 * mp + 2) / 5 + 1 in
  let m := if mp <? 10 then mp + 3 else mp - 9 in
  (yoe + era * 400 + (if m <=? 2 then 1 else 0), m, d).

(** [mktime] in a time zone whose standard time is [utc_offset] seconds
    ahead of UTC at both ends: the seconds since the epoch, and the
    structure normalised, with its day of the week (0 is Sunday). *)
Definition mktime (utc_offset : Z) (t : tm) : Z * tm :=
  let days := tm_days t in
  let '(y, m, d) := civil_from_days days in
  (days * 86400 - utc_offset,
   {| tm_mday := d; tm_mon := m - 1; tm_year := y - 1900;
      tm_wday := (days + 4) mod 7 |}).

(** [strftime] with ["%Y-%m-%d"]; the year is written in four digits,
    which is what every implementation does from the year 1000 on: the
    model follows the source for the years 1000 to 9999. *)
Definition strftime_date (t : tm) : string :=
  fmt_0d 4 (tm_year t + 1900) ++ "-" ++ fmt_0d 2 (tm_mon t + 1) ++ "-"
  ++ fmt_0d 2 (tm_mday t).

(** The conversion of a [long] to [int]. *)
Definition to_int (n : Z) : Z := (n + 2 ^ 31) mod 2 ^ 32 - 2 ^ 31.

End C.

(** ** date_utilities.c *)

(** The three [int] variables that the date formats fill. *)
Record ymd : Type := { yy : Z; mm : Z; dd : Z }.

Definition set_yy (v : Z) (t : ymd) : ymd := {| yy := v; mm := mm t; dd := dd t |}.
Definition set_mm (v : Z) (t : ymd) : ymd := {| yy := yy t; mm := v; dd := dd t |}.
Definition set_dd (v : Z) (t : ymd) : ymd := {| yy := yy t; mm := mm t; dd := v |}.

(** ["%d-%d-%d"] into [&y, &m, &d] and ["%d/%d/%d"] into [&d, &m, &y]. *)
Definition fmt_ymd_dash : list (C.directive ymd) :=
  [C.Conv C.scan_d set_yy; C.Lit "-"; C.Conv C.scan_d set_mm; C.Lit "-";
   C.Conv C.scan_d set_dd].

Definition fmt_dmy_slash : list (C.directive ymd) :=
  [C.Conv C.scan_d set_dd; C.Lit "/"; C.Conv C.scan_d set_mm; C.Lit "/";
   C.Conv C.scan_d set_yy].

(** [sprintf (output, "%04d-%02d-%02d", y, m, d)] *)
Definition sprintf_date (t : ymd) : string :=
  C.fmt_0d 4 (yy t) ++ "-" ++ C.fmt_0d 2 (mm t) ++ "-" ++ C.fmt_0d 2 (dd t).

(** [validate_date]; [u] is what [y], [m], [d] hold before the call. *)
Definition validate_date (u : ymd) (date : string) : bool :=
  let (n, t) := C.sscanf fmt_ymd_dash date u in
  if negb (n =? 3) then false
  else (2024 <=? yy t) && (1 <=? mm t) && (mm t <=? 12)
       && (1 <=? dd t) && (dd t <=? 31).

(** [parse_date]: the text left in [output]. *)
Definition parse_date (u : ymd) (input : string) : string :=
  let (n, t) := C.sscanf fmt_ymd_dash input u in
  if n =? 3 then sprintf_date t
  else
    let (n', t') := C.sscanf fmt_dmy_slash input t in
    if n' =? 3 then sprintf_date t'
    else "invalid".

(** [calculate_duration]: the two structures start from zero, the
    result of [sscanf] is not looked at. *)
Definition tm_zero : C.tm :=
  {| C.tm_mday := 0; C.tm_mon := 0; C.tm_year := 0; C.tm_wday := 0 |}.

Definition set_tm_year (v : Z) (t : C.tm) : C.tm :=
  {| C.tm_mday := C.tm_mday t; C.tm_mon := C.tm_mon t; C.tm_year := v;
     C.tm_wday := C.tm_wday t |}.
Definition set_tm_mon (v : Z) (t : C.tm) : C.tm :=
  {| C.tm_mday := C.tm_mday t; C.tm_mon := v; C.tm_year := C.tm_year t;
     C.tm_wday := C.tm_wday t |}.
Definition set_tm_mday (v : Z) (t : C.tm) : C.tm :=
  {| C.tm_mday := v; C.tm_mon := C.tm_mon t; C.tm_year := C.tm_year t;
     C.tm_wday := C.tm_wday t |}.

Definition fmt_tm_dash : list (C.directive C.tm) :=
  [C.Conv C.scan_d set_tm_year; C.Lit "-"; C.Conv C.scan_d set_tm_mon;
   C.Lit "-"; C.Conv C.scan_d set_tm_mday].

Definition calculate_duration (utc_offset : Z) (check_in check_out : string)
  : Z :=
  let tm1 := snd (C.sscanf fmt_tm_dash check_in tm_zero) in
  let tm2 := snd (C.sscanf fmt_tm_dash check_out tm_zero) in
  let tm1 := set_tm_mon (C.tm_mon tm1 - 1) (set_tm_year (C.tm_year tm1 - 1900) tm1) in
  let tm2 := set_tm_mon (C.tm_mon tm2 - 1) (set_tm_year (C.tm_year tm2 - 1900) tm2) in
  let t1 := fst (C.mktime utc_offset tm1) in
  let t2 := fst (C.mktime utc_offset tm2) in
  C.to_int (Z.quot (t2 - t1) (60 * 60 * 24)).

(** [is_date_in_future]; [today] is the local date of the call, as
    [strftime] writes it with ["%Y-%m-%d"]. *)
Definition is_date_in_future (today : string) (date : string) : bool :=
  0 <=? C.strcmp date today.

(** [get_week_range]: the texts left in [start_date] and [end_date]; [u] is
    what [year], [month] and [day] hold before [sscanf]. *)
Definition get_week_range (utc_offset : Z) (u : ymd) (date : string)
  : string * string :=
  let t := snd (C.sscanf fmt_ymd_dash date u) in
  let tm0 := {| C.tm_mday := dd t; C.tm_mon := mm t - 1;
                C.tm_year := yy t - 1900; C.tm_wday := 0 |} in
  let tm0 := snd (C.mktime utc_offset tm0) in
  let days_to_monday :=
    if C.tm_wday tm0 =? 0 then -6 else 1 - C.tm_wday tm0 in
  let monday := set_tm_mday (C.tm_mday tm0 + days_to_monday) tm0 in
  let monday := snd (C.mktime utc_offset monday) in
  let sunday := set_tm_mday (C.tm_mday monday + 6) monday in
  let sunday := snd (C.mktime utc_offset sunday) in
  (C.strftime_date monday, C.strftime_date sunday).

(** ** The records and their lines (room_management.h, booking_operations.h) *)

Definition MAX_LEN : nat := 100.
Definition MAX_ROOMS : Z := 100.
Definition MAX_BOOKINGS : Z := 100.

Record Room : Type :=
  { room_number : Z; type : string; price : C.float; status : string;
    facilities : string }.

Record RoomFilter : Type :=
  { min_price : C.float; max_price : C.float; filter_type : string;
    filter_facilities : string }.

Record Booking : Type :=
  { booking_id : Z; booked_room : Z; username : string;
    booking_date : string; check_in_date : string; check_out_date : string;
    total_price : C.float; booking_status : string }.

Definition set_room_number (v : Z) (r : Room) : Room :=
  {| room_number := v; type := type r; price := price r; status := status r;
     facilities := facilities r |}.
Definition set_type (v : string) (r : Room) : Room :=
  {| room_number := room_number r; type := v; price := price r;
     status := status r; facilities := facilities r |}.
Definition set_price (v : C.float) (r : Room) : Room :=
  {| room_number := room_number r; type := type r; price := v;
     status := status r; facilities := facilities r |}.
Definition set_status (v : string) (r : Room) : Room :=
  {| room_number := room_number r; type := type r; price := price r;
     status := v; facilities := facilities r |}.
Definition set_facilities (v : string) (r : Room) : Room :=
  {| room_number := room_number r; type := type r; price := price r;
     status := status r; facilities := v |}.

Definition set_booking_id (v : Z) (b : Booking) : Booking :=
  {| booking_id := v; booked_room := booked_room b; username := username b;
     booking_date := booking_date b; check_in_date := check_in_date b;
     check_out_date := check_out_date b; total_price := total_price b;
     booking_status := booking_status b |}.
Definition set_booked_room (v : Z) (b : Booking) : Booking :=
  {| booking_id := booking_id b; booked_room := v; username := username b;
     booking_date := booking_date b; check_in_date := check_in_date b;
     check_out_date := check_out_date b; total_price := total_price b;
     booking_status := booking_status b |}.
Definition set_username (v : string) (b : Booking) : Booking :=
  {| booking_id := booking_id b; booked_room := booked_room b; username := v;
     booking_date := booking_date b; check_in_date := check_in_date b;
     check_out_date := check_out_date b; total_price := total_price b;
     booking_status := booking_status b |}.
Definition set_booking_date (v : string) (b : Booking) : Booking :=
  {| booking_id := booking_id b; booked_room := booked_room b;
     username := username b; booking_date := v;
     check_in_date := check_in_date b; check_out_date := check_out_date b;
     total_price := total_price b; booking_status := booking_status b |}.
Definition set_check_in_date (v : string) (b : Booking) : Booking :=
  {| booking_id := booking_id b; booked_room := booked_room b;
     username := username b; booking_date := booking_date b;
     check_in_date := v; check_out_date := check_out_date b;
     total_price := total_price b; booking_status := booking_status b |}.
Definition set_check_out_date (v : string) (b : Booking) : Booking :=
  {| booking_id := booking_id b; booked_room := booked_room b;
     username := username b; booking_date := booking_date b;
     check_in_date := check_in_date b; check_out_date := v;
     total_price := total_price b; booking_status := booking_status b |}.
Definition set_total_price (v : C.float) (b : Booking) : Booking :=
  {| booking_id := booking_id b; booked_room := booked_room b;
     username := username b; booking_date := booking_date b;
     check_in_date := check_in_date b; check_out_date := check_out_date b;
     total_price := v; booking_status := booking_status b |}.
Definition set_booking_status (v : string) (b : Booking) : Booking :=
  {| booking_id := booking_id b; booked_room := booked_room b;
     username := username b; booking_date := booking_date b;
     check_in_date := check_in_date b; check_out_date := check_out_date b;
     total_price := total_price b; booking_status := v |}.

(** ["%[^:]:%d:%[^:]:%[^:]:%[^:]:%f:%[^:]:%d"], the format with which every
    reader of the booking file takes a line apart. *)
Definition fmt_booking : list (C.directive Booking) :=
  [C.Conv (C.scan_not ":") set_username; C.Lit ":";
   C.Conv C.scan_d set_booked_room; C.Lit ":";
   C.Conv (C.scan_not ":") set_booking_date; C.Lit ":";
   C.Conv (C.scan_not ":") set_check_in_date; C.Lit ":";
   C.Conv (C.scan_not ":") set_check_out_date; C.Lit ":";
   C.Conv C.scan_f set_total_price; C.Lit ":";
   C.Conv (C.scan_not ":") set_booking_status; C.Lit ":";
   C.Conv C.scan_d set_booking_id].

(** ["%d:%[^:]:%f:%[^:]:%[^\n]"], the format of the readers of the room
    file. *)
Definition fmt_room : list (C.directive Room) :=
  [C.Conv C.scan_d set_room_number; C.Lit ":";
   C.Conv (C.scan_not ":") set_type; C.Lit ":";
   C.Conv C.scan_f set_price; C.Lit ":";
   C.Conv (C.scan_not ":") set_status; C.Lit ":";
   C.Conv (C.scan_not "010") set_facilities].

Definition nl : string := String "010" EmptyString.

(** ["%s:%d:%s:%s:%s:%.2f:%s:%d\n"] *)
Definition booking_line (b : Booking) : string :=
  username b ++ ":" ++ C.fmt_d (booked_room b) ++ ":" ++ booking_date b
  ++ ":" ++ check_in_date b ++ ":" ++ check_out_date b ++ ":"
  ++ C.fmt_2f (total_price b) ++ ":" ++ booking_status b ++ ":"
  ++ C.fmt_d (booking_id b) ++ nl.

(** ["%d:%s:%.2f:%s:%s\n"] *)
Definition room_line (r : Room) : string :=
  C.fmt_d (room_number r) ++ ":" ++ type r ++ ":" ++ C.fmt_2f (price r)
  ++ ":" ++ status r ++ ":" ++ facilities r ++ nl.

(** ** The data files (file_operations.h) *)

(** The text of each file, or [None] where the file does not exist and
    [fopen (..., "r")] returns [NULL].  Opening a file for writing or for
    appending is taken to succeed. *)
Record files : Type :=
  { ROOM_FILE : option string; BOOKING_FILE : option string;
    USER_PROFILE_FILE : option string }.

Definition set_ROOM_FILE (t : string) (fs : files) : files :=
  {| ROOM_FILE := Some t; BOOKING_FILE := BOOKING_FILE fs;
     USER_PROFILE_FILE := USER_PROFILE_FILE fs |}.
Definition set_BOOKING_FILE (t : string) (fs : files) : files :=
  {| ROOM_FILE := ROOM_FILE fs; BOOKING_FILE := Some t;
     USER_PROFILE_FILE := USER_PROFILE_FILE fs |}.

(** [fopen (f, "a")], one [fprintf], [fclose]. *)
Definition append_text (old : option string) (line : string) : string :=
  match old with Some t => t ++ line | None => line end.

(** ** validation.c *)

(** The loop of [is_room_available] over the lines that [fgets] delivers;
    [v] holds the locals that [sscanf] fills. *)
Fixpoint is_room_available_loop (lines : list string) (v : Booking)
    (room : Z) (check_in check_out : string) : bool :=
  match lines with
  | [] => true
  | line :: lines' =>
      let v := snd (C.sscanf fmt_booking line v) in
      if (booked_room v =? room)
         && (C.strcmp (booking_status v) "active" =? 0) then
        if negb ((C.strcmp check_out (check_in_date v) <=? 0)
                 || (0 <=? C.strcmp check_in (check_out_date v)))
        then false
        else is_room_available_loop lines' v room check_in check_out
      else is_room_available_loop lines' v room check_in check_out
  end.

(** [is_room_available]; [u] is what its locals hold on entry. *)
Definition is_room_available (fs : files) (u : Booking) (room : Z)
    (check_in check_out : string) : bool :=
  match BOOKING_FILE fs with
  | None => true
  | Some text =>
      is_room_available_loop (C.fgets_lines (MAX_LEN * 3) text) u room
        check_in check_out
  end.

(** ** booking_operations.c *)

Fixpoint daily_revenue_loop (lines : list string) (v : Booking)
    (date : string) (revenue : C.float) : C.float :=
  match lines with
  | [] => revenue
  | line :: lines' =>
      let v := snd (C.sscanf fmt_booking line v) in
      if (C.strncmp (booking_date v) date 10 =? 0)
         && (C.strcmp (booking_status v) "active" =? 0)
      then daily_revenue_loop lines' v date (C.fadd revenue (total_price v))
      else daily_revenue_loop lines' v date revenue
  end.

Definition calculate_daily_revenue (fs : files) (u : Booking) (date : string)
  : C.float :=
  match BOOKING_FILE fs with
  | None => C.fzero
  | Some text =>
      daily_revenue_loop (C.fgets_lines (MAX_LEN * 3) text) u date C.fzero
  end.

Fixpoint weekly_revenue_loop (lines : list string) (v : Booking)
    (start_date end_date : string) (revenue : C.float) : C.float :=
  match lines with
  | [] => revenue
  | line :: lines' =>
      let v := snd (C.sscanf fmt_booking line v) in
      let booking_date_only := C.strncpy_term (booking_date v) 10 in
      if (0 <=? C.strcmp booking_date_only start_date)
         && (C.strcmp booking_date_only end_date <=? 0)
         && (C.strcmp (booking_status v) "active" =? 0)
      then weekly_revenue_loop lines' v start_date end_date
             (C.fadd revenue (total_price v))
      else weekly_revenue_loop lines' v start_date end_date revenue
  end.

(** [calculate_weekly_revenue]; [w] is what the locals of [get_week_range]
    hold on entry, [u] what its own do. *)
Definition calculate_weekly_revenue (utc_offset : Z) (fs : files) (w : ymd)
    (u : Booking) (date : string) : C.float :=
  let (start_date, end_date) := get_week_range utc_offset w date in
  match BOOKING_FILE fs with
  | None => C.fzero
  | Some text =>
      weekly_revenue_loop (C.fgets_lines (MAX_LEN * 3) text) u start_date
        end_date C.fzero
  end.

(** ** file_operations.c: [get_user_profile] *)

(** An argument of type [char *]: [NULL], or an array with its contents. *)
Definition buffer : Type := option string.

(** The local [current_username], the five output arguments, and whether a
    character was stored through a [NULL] argument. *)
Record profile_vars : Type :=
  { current_username : string; full_name : buffer; id_number : buffer;
    email : buffer; address : buffer; phone : buffer; null_store : bool }.

Definition set_current_username (s : string) (v : profile_vars) :=
  {| current_username := s; full_name := full_name v;
     id_number := id_number v; email := email v; address := address v;
     phone := phone v; null_store := null_store v |}.

(** A store through an argument: into the array, or through [NULL]. *)
Definition through (b : buffer) (s : string) : buffer * bool :=
  match b with Some _ => (Some s, false) | None => (None, true) end.

Definition set_full_name (s : string) (v : profile_vars) :=
  let (b, f) := through (full_name v) s in
  {| current_username := current_username v; full_name := b;
     id_number := id_number v; email := email v; address := address v;
     phone := phone v; null_store := null_store v || f |}.
Definition set_id_number (s : string) (v : profile_vars) :=
  let (b, f) := through (id_number v) s in
  {| current_username := current_username v; full_name := full_name v;
     id_number := b; email := email v; address := address v;
     phone := phone v; null_store := null_store v || f |}.
Definition set_email (s : string) (v : profile_vars) :=
  let (b, f) := through (email v) s in
  {| current_username := current_username v; full_name := full_name v;
     id_number := id_number v; email := b; address := address v;
     phone := phone v; null_store := null_store v || f |}.
Definition set_address (s : string) (v : profile_vars) :=
  let (b, f) := through (address v) s in
  {| current_username := current_username v; full_name := full_name v;
     id_number := id_number v; email := email v; address := b;
     phone := phone v; null_store := null_store v || f |}.
Definition set_phone (s : string) (v : profile_vars) :=
  let (b, f) := through (phone v) s in
  {| current_username := current_username v; full_name := full_name v;
     id_number := id_number v; email := email v; address := address v;
     phone := b; null_store := null_store v || f |}.

(** ["%[^:]:%[^:]:%[^:]:%[^:]:%[^:]:%[^\n]"] *)
Definition fmt_profile : list (C.directive profile_vars) :=
  [C.Conv (C.scan_not ":") set_current_username; C.Lit ":";
   C.Conv (C.scan_not ":") set_full_name; C.Lit ":";
   C.Conv (C.scan_not ":") set_id_number; C.Lit ":";
   C.Conv (C.scan_not ":") set_email; C.Lit ":";
   C.Conv (C.scan_not ":") set_address; C.Lit ":";
   C.Conv (C.scan_not "010") set_phone].

(** The five [strcpy (..., "")] of the paths that find no profile. *)
Definition clear_profile (v : profile_vars) : profile_vars :=
  set_phone "" (set_address "" (set_email "" (set_id_number ""
    (set_full_name "" v)))).

(** The result of a call: the arguments as the call leaves them, or
    [None] when it stores through [NULL], where C defines no behaviour. *)
Definition checked (v : profile_vars) : option profile_vars :=
  if null_store v then None else Some v.

Fixpoint get_user_profile_loop (lines : list string) (user : string)
    (v : profile_vars) : option profile_vars :=
  match lines with
  | [] => checked (clear_profile v)
  | line :: lines' =>
      let v := snd (C.sscanf fmt_profile line v) in
      if null_store v then None
      else if C.strcmp user (current_username v) =? 0 then Some v
      else get_user_profile_loop lines' user v
  end.

Definition get_user_profile (fs : files) (user : string) (v : profile_vars)
  : option profile_vars :=
  match USER_PROFILE_FILE fs with
  | None => checked (clear_profile v)
  | Some text =>
      get_user_profile_loop (C.fgets_lines (MAX_LEN * 4) text) user v
  end.

(** ** gui_management.c: booking and cancelling *)

(** What [update_status] is called with.  The constructors are named after
    the error kinds; the texts of the source are, in this order:
    "Please login first to book a room.",
    "Invalid date format. Use YYYY-MM-DD or DD/MM/YYYY.",
    "Check-out date must be after check-in.",
    "Check-in date must be today or in the future.",
    "Room is already booked for those dates.",
    "Please complete your profile before booking.",
    "Error updating room status.",
    "Booking confirmed! ID: %d, Total: $%.2f for %d nights.",
    "Please select a room to book.",
    "Error opening booking file.", "Error opening room file.",
    "Booking %d canceled successfully.",
    "Please select a booking to cancel." *)
Inductive message : Type :=
| LoginFirst
| InvalidDateFormat
| CheckoutNotAfterCheckin
| CheckinInPast
| RoomUnavailable
| ProfileIncomplete
| ErrorUpdatingRoomStatus
| BookingConfirmed (id : Z) (total : C.float) (nights : Z)
| SelectRoom
| ErrorOpeningBookingFile
| ErrorOpeningRoomFile
| BookingCanceled (id : Z)
| SelectBooking.

(** How a callback ends: with a status message and the files as it leaves
    them, or in a step for which C defines no behaviour (a store through
    [NULL], a store past the end of [rooms] or [bookings]). *)
Inductive outcome : Type :=
| Status (msg : message) (fs : files)
| Undefined.

(** What the clock gives during one booking: the local date, [time (NULL)],
    and the local date and time as ["%Y-%m-%d %H:%M:%S"]; and the offset of
    the time zone, for [mktime]. *)
Record clock : Type :=
  { today : string; now : Z; timestamp : string; utc_offset : Z }.

(** The locals of [on_book_room_clicked] and of the functions it calls that
    are read before they are written. *)
Record book_locals : Type :=
  { in_ymd : ymd; out_ymd : ymd; available_vars : Booking;
    profile_username : string; profile_full_name : string;
    profile_id_number : string; price_room : Room; rooms_array : nat -> Room }.

(** The loop that looks the price up. *)
Fixpoint find_price_loop (lines : list string) (room : Room) (number : Z)
    (nights : Z) (price0 : C.float) : C.float :=
  match lines with
  | [] => price0
  | line :: lines' =>
      let room := snd (C.sscanf fmt_room line room) in
      if room_number room =? number
      then C.fmul (price room) (C.float_of_int nights)
      else find_price_loop lines' room number nights price0
  end.

(** The loops that read the room file into [rooms]: element [i] starts
    from what the array holds there, [f] is what the loop body does to the
    element after [sscanf]. *)
Fixpoint read_rooms (lines : list string) (array : nat -> Room) (i : nat)
    (f : Room -> Room) : list Room :=
  match lines with
  | [] => []
  | line :: lines' =>
      f (snd (C.sscanf fmt_room line (array i)))
      :: read_rooms lines' array (S i) f
  end.

Definition mark (number : Z) (s : string) (r : Room) : Room :=
  if room_number r =? number then set_status s r else r.

(** The text that a loop of [fprintf] leaves in a file opened with ["w"]. *)
Fixpoint written (lines : list string) : string :=
  match lines with
  | [] => EmptyString
  | line :: lines' => line ++ written lines'
  end.

Definition write_rooms (rooms : list Room) : string :=
  written (map room_line rooms).

Definition write_bookings (bookings : list Booking) : string :=
  written (map booking_line bookings).

(** [on_book_room_clicked]: [current_user] is the global, [selected] the
    room number of the selected row of the room list, if any, [checkin] and
    [checkout] the texts of the two entries. *)
Definition on_book_room_clicked (fs : files) (ck : clock) (l : book_locals)
    (current_user : string) (selected : option Z) (checkin checkout : string)
  : outcome :=
  if C.strlen current_user =? 0 then Status LoginFirst fs else
  match selected with
  | None => Status SelectRoom fs
  | Some number =>
      let formatted_in := parse_date (in_ymd l) checkin in
      let formatted_out := parse_date (out_ymd l) checkout in
      if (C.strcmp formatted_in "invalid" =? 0)
         || (C.strcmp formatted_out "invalid" =? 0)
      then Status InvalidDateFormat fs
      else if 0 <=? C.strcmp formatted_in formatted_out
      then Status CheckoutNotAfterCheckin fs
      else if negb (is_date_in_future (today ck) formatted_in)
      then Status CheckinInPast fs
      else if negb (is_room_available fs (available_vars l) number
                      formatted_in formatted_out)
      then Status RoomUnavailable fs
      else
        match get_user_profile fs current_user
                {| current_username := profile_username l;
                   full_name := Some (profile_full_name l);
                   id_number := Some (profile_id_number l);
                   email := None; address := None; phone := None;
                   null_store := false |} with
        | None => Undefined
        | Some p =>
            let full_name := match full_name p with Some s => s | None => "" end in
            let id_number := match id_number p with Some s => s | None => "" end in
            if (C.strlen full_name =? 0) || (C.strlen id_number =? 0)
            then Status ProfileIncomplete fs
            else
              let nights :=
                calculate_duration (utc_offset ck) formatted_in formatted_out in
              let price :=
                match ROOM_FILE fs with
                | Some text =>
                    find_price_loop (C.fgets_lines MAX_LEN text)
                      (price_room l) number nights C.fzero
                | None => C.fzero
                end in
              let booking_id := Z.rem (now ck) 1000000 in
              let fs1 :=
                set_BOOKING_FILE
                  (append_text (BOOKING_FILE fs)
                     (booking_line
                        {| booking_id := booking_id; booked_room := number;
                           username := current_user;
                           booking_date := timestamp ck;
                           check_in_date := formatted_in;
                           check_out_date := formatted_out;
                           total_price := price;
                           booking_status := "active" |})) fs in
              match ROOM_FILE fs1 with
              | None => Status ErrorUpdatingRoomStatus fs1
              | Some text =>
                  let lines := C.fgets_lines MAX_LEN text in
                  if MAX_ROOMS <? Z.of_nat (List.length lines) then Undefined
                  else
                    let rooms :=
                      read_rooms lines (rooms_array l) 0 (mark number "Booked") in
                    Status (BookingConfirmed booking_id price nights)
                      (set_ROOM_FILE (write_rooms rooms) fs1)
              end
        end
  end.

(** The locals of [on_cancel_booking_clicked] that are read before they
    are written: the two arrays. *)
Record cancel_locals : Type :=
  { bookings_array : nat -> Booking; cancel_rooms_array : nat -> Room }.

Fixpoint read_bookings (lines : list string) (array : nat -> Booking)
    (i : nat) (id : Z) : list Booking :=
  match lines with
  | [] => []
  | line :: lines' =>
      let b := snd (C.sscanf fmt_booking line (array i)) in
      (if booking_id b =? id then set_booking_status "canceled" b else b)
      :: read_bookings lines' array (S i) id
  end.

(** The loop that finds the room of the cancelled booking, from [-1]. *)
Fixpoint find_room (bookings : list Booking) (id : Z) : Z :=
  match bookings with
  | [] => -1
  | b :: bookings' =>
      if booking_id b =? id then booked_room b else find_room bookings' id
  end.

(** [on_cancel_booking_clicked]: [selected] is the booking id of the
    selected row of the booking list, if any. *)
Definition on_cancel_booking_clicked (fs : files) (l : cancel_locals)
    (selected : option Z) : outcome :=
  match selected with
  | None => Status SelectBooking fs
  | Some id =>
      match BOOKING_FILE fs with
      | None => Status ErrorOpeningBookingFile fs
      | Some text =>
          let lines := C.fgets_lines (MAX_LEN * 3) text in
          if MAX_BOOKINGS <? Z.of_nat (List.length lines) then Undefined
          else
            let bookings := read_bookings lines (bookings_array l) 0 id in
            let fs1 := set_BOOKING_FILE (write_bookings bookings) fs in
            match ROOM_FILE fs1 with
            | None => Status ErrorOpeningRoomFile fs1
            | Some rtext =>
                let rlines := C.fgets_lines (MAX_LEN * 3) rtext in
                if MAX_ROOMS <? Z.of_nat (List.length rlines) then Undefined
                else
                  let rooms :=
                    read_rooms rlines (cancel_rooms_array l) 0 (fun r => r) in
                  let number := find_room bookings id in
                  if negb (number =? -1) then
                    Status (BookingCanceled id)
                      (set_ROOM_FILE
                         (write_rooms (map (mark number "Available") rooms))
                         fs1)
                  else Status (BookingCanceled id) fs1
            end
      end
  end.

(** ** gui_management.c and room_management.c: the room list *)

(** [compare_rooms_by_price] *)
Definition compare_rooms_by_price (a b : Room) : Z :=
  if C.flt (price a) (price b) then -1
  else if C.flt (price b) (price a) then 1
  else 0.

(** The tests of [load_rooms_into_store] that end in [continue], negated:
    the room is kept. *)
Definition passes_filter (filter : option RoomFilter) (room : Room) : bool :=
  match filter with
  | None => true
  | Some f =>
      negb (C.flt C.fzero (min_price f) && C.flt (price room) (min_price f))
      && negb (C.flt C.fzero (max_price f) && C.flt (max_price f) (price room))
      && negb ((0 <? C.strlen (filter_type f))
               && negb (C.strcmp (type room) (filter_type f) =? 0))
      && negb ((0 <? C.strlen (filter_facilities f))
               && negb (C.strstr (facilities room) (filter_facilities f)))
  end.

(** The reading loop: [rooms] is the part of the array filled so far, in
    order; [room] is the variable of the loop body, which keeps its place
    on the stack from one line to the next. *)
Fixpoint load_rooms_loop (lines : list string) (room : Room)
    (filter : option RoomFilter) (rooms : list Room) : list Room :=
  match lines with
  | [] => rooms
  | line :: lines' =>
      if Z.of_nat (List.length rooms) <? MAX_ROOMS then
        let room := snd (C.sscanf fmt_room line room) in
        if passes_filter filter room
        then load_rooms_loop lines' room filter (rooms ++ [room])
        else load_rooms_loop lines' room filter rooms
      else rooms
  end.

(** What C promises of [qsort]: the array holds the same elements, and no
    element compares greater than one that comes after it.  The order of
    elements that compare equal is not specified. *)
Definition qsort_result {A : Type} (compar : A -> A -> Z)
    (base result : list A) : Prop :=
  Permutation base result
  /\ StronglySorted (fun a b => compar a b <= 0) result.

(** [load_rooms_into_store]: [rows] are the rows appended to the list
    store; [u] is what [room] holds on entry. *)
Definition load_rooms_into_store (fs : files) (u : Room)
    (filter : option RoomFilter) (rows : list Room) : Prop :=
  match ROOM_FILE fs with
  | None => rows = []
  | Some text =>
      qsort_result compare_rooms_by_price
        (load_rooms_loop (C.fgets_lines MAX_LEN text) u filter []) rows
  end.

(** ** Notions that the statements use *)

(** *** Decimal notation *)

Fixpoint all_digits (s : string) : bool :=
  match s with
  | EmptyString => true
  | String c r => C.isdigit c && all_digits r
  end.

Fixpoint all_space (s : string) : bool :=
  match s with
  | EmptyString => true
  | String c r => C.isspace c && all_space r
  end.

(** The number that the digits of [s] denote, continuing [acc]. *)
Fixpoint decimal_from (acc : Z) (s : string) : Z :=
  match s with
  | EmptyString => acc
  | String c r => decimal_from (10 * acc + C.digit_val c) r
  end.

Definition decimal (s : string) : Z := decimal_from 0 s.

(** White space, an optional sign, digits: the text of an integer. *)
Inductive int_text : string -> Z -> Prop :=
| int_plain ws ds :
    all_space ws = true -> all_digits ds = true -> ds <> "" ->
    int_text (ws ++ ds) (decimal ds)
| int_plus ws ds :
    all_space ws = true -> all_digits ds = true -> ds <> "" ->
    int_text (ws ++ "+" ++ ds) (decimal ds)
| int_minus ws ds :
    all_space ws = true -> all_digits ds = true -> ds <> "" ->
    int_text (ws ++ "-" ++ ds) (- decimal ds).

(** An integer that an [int] of 32 bits holds. *)
Definition fits_int (n : Z) : Prop := - 2 ^ 31 <= n < 2 ^ 31.

(** [s] begins with three integers separated by [sep]; [rest], which
    follows the third, does not continue its digits. *)
Definition begins_with_three (sep : ascii) (s : string) (a b c : Z) : Prop :=
  exists ta tb tc rest,
    int_text ta a /\ int_text tb b /\ int_text tc c
    /\ C.starts_with_digit rest = false
    /\ s = ta ++ String sep (tb ++ String sep (tc ++ rest)).

(** The shapes YYYY-MM-DD and DD/MM/YYYY read strictly: three runs of
    digits with the separator between them, and nothing else. *)
Definition exactly_three (sep : ascii) (s : string) : Prop :=
  exists a b c,
    all_digits a = true /\ a <> "" /\ all_digits b = true /\ b <> ""
    /\ all_digits c = true /\ c <> ""
    /\ s = a ++ String sep (b ++ String sep c).

(** Three [%d] with a separator between them, whatever the variables. *)
Definition three_d {V : Type} (sep : ascii) (f1 f2 f3 : Z -> V -> V)
  : list (C.directive V) :=
  [C.Conv C.scan_d f1; C.Lit sep; C.Conv C.scan_d f2; C.Lit sep;
   C.Conv C.scan_d f3].

(** *** The calendar *)

Definition days_in_month (y m : Z) : Z :=
  if m =? 2 then (if C.is_leap y then 29 else 28)
  else if (m =? 4) || (m =? 6) || (m =? 9) || (m =? 11) then 30
  else 31.

(** A date of the calendar, from year 1 on. *)
Definition well_formed (t : ymd) : Prop :=
  1 <= yy t /\ 1 <= mm t <= 12 /\ 1 <= dd t <= days_in_month (yy t) (mm t).

(** A date of the calendar that ["%04d-%02d-%02d"] writes in ten
    characters. *)
Definition calendar_date (t : ymd) : Prop :=
  well_formed t /\ yy t <= 9999.

Definition next_day (t : ymd) : ymd :=
  if dd t <? days_in_month (yy t) (mm t) then set_dd (dd t + 1) t
  else if mm t <? 12 then {| yy := yy t; mm := mm t + 1; dd := 1 |}
  else {| yy := yy t + 1; mm := 1; dd := 1 |}.

(** [days_later t n t']: [t'] is the [n]-th day after [t]. *)
Inductive days_later (t : ymd) : nat -> ymd -> Prop :=
| later_O : days_later t O t
| later_S n t' : days_later t n t' -> days_later t (S n) (next_day t').

(** The order of the calendar. *)
Definition date_before (t t' : ymd) : Prop :=
  yy t < yy t'
  \/ (yy t = yy t' /\ mm t < mm t')
  \/ (yy t = yy t' /\ mm t = mm t' /\ dd t < dd t').

(** A rank that grows with the order of the calendar. *)
Definition rank (t : ymd) : Z := 372 * yy t + 31 * mm t + dd t.

Definition tm_of (t : ymd) : C.tm :=
  {| C.tm_mday := dd t; C.tm_mon := mm t - 1; C.tm_year := yy t - 1900;
     C.tm_wday := 0 |}.

(** *** Records that are read back as they were written *)

(** [line] is what one [fgets] with a buffer of [size] characters reads,
    whatever follows it in the file. *)
Definition is_line (size : nat) (line : string) : Prop :=
  line <> "" /\ forall rest, C.take_line (size - 1) (line ++ rest) = (line, rest).

(** [sscanf] stores all eight fields of the line of [b], and they make up
    [b] again. *)
Definition reads_back_booking (b : Booking) : Prop :=
  forall u, C.sscanf fmt_booking (booking_line b) u = (8, b).

Definition reads_back_room (r : Room) : Prop :=
  forall u, C.sscanf fmt_room (room_line r) u = (5, r).

(** A booking file, or a room file, that holds the lines of [bs], or of
    [rs], each read by one [fgets] of [size] characters and read back in
    full. *)
Definition booking_file_of (size : nat) (bs : list Booking) (text : string)
  : Prop :=
  text = write_bookings bs
  /\ Forall reads_back_booking bs
  /\ Forall (is_line size) (map booking_line bs).

Definition room_file_of (size : nat) (rs : list Room) (text : string) : Prop :=
  text = write_rooms rs
  /\ Forall reads_back_room rs
  /\ Forall (is_line size) (map room_line rs).

(** What a callback leaves behind, when it ends with a message. *)
Definition message_of (o : outcome) : option message :=
  match o with Status msg _ => Some msg | Undefined => None end.

Definition files_of (o : outcome) : option files :=
  match o with Status _ fs => Some fs | Undefined => None end.

(** *** The room list *)

(** The values that [room] takes, line after line. *)
Fixpoint rooms_seen (lines : list string) (room : Room) : list Room :=
  match lines with
  | [] => []
  | line :: lines' =>
      let room := snd (C.sscanf fmt_room line room) in
      room :: rooms_seen lines' room
  end.

(** The filter as the specification words it: a price bound applies when
    it is not zero. *)
Definition nonzero (x : C.float) : bool := negb (SFeqb x C.fzero).

Definition passes_as_specified (filter : option RoomFilter) (room : Room)
  : bool :=
  match filter with
  | None => true
  | Some f =>
      negb (nonzero (min_price f) && C.flt (price room) (min_price f))
      && negb (nonzero (max_price f) && C.flt (max_price f) (price room))
      && negb ((0 <? C.strlen (filter_type f))
               && negb (C.strcmp (type room) (filter_type f) =? 0))
      && negb ((0 <? C.strlen (filter_facilities f))
               && negb (C.strstr (facilities room) (filter_facilities f)))
  end.

(** The stable sort by price: a room goes before the first room of the
    sorted rest that is not cheaper. *)
Fixpoint insert_by_price (r : Room) (l : list Room) : list Room :=
  match l with
  | [] => [r]
  | r' :: l' =>
      if C.flt (price r') (price r) then r' :: insert_by_price r l'
      else r :: l
  end.

Definition stable_sort_by_price (l : list Room) : list Room :=
  fold_right insert_by_price [] l.

(** The listing as the specification words it. *)
Definition listing_as_specified (rooms : list Room)
    (filter : option RoomFilter) : list Room :=
  stable_sort_by_price (List.filter (passes_as_specified filter) rooms).

(** Every character of [s] satisfies [p]. *)
Fixpoint string_forall (p : ascii -> bool) (s : string) : bool :=
  match s with
  | EmptyString => true
  | String c r => p c && string_forall p r
  end.

(** *** Bookings *)

(** The test of [is_room_available] on a booking: it is of the room, it is
    active, and the window from [check_in] to [check_out] meets its own. *)
Definition blocks (room : Z) (check_in check_out : string) (b : Booking)
  : bool :=
  (booked_room b =? room)
  && (C.strcmp (booking_status b) "active" =? 0)
  && negb ((C.strcmp check_out (check_in_date b) <=? 0)
           || (0 <=? C.strcmp check_in (check_out_date b))).

(** The test of [calculate_daily_revenue] on a booking. *)
Definition counts_on (date : string) (b : Booking) : bool :=
  (C.strncmp (booking_date b) date 10 =? 0)
  && (C.strcmp (booking_status b) "active" =? 0).

(** The sum of the totals, in the order of the file. *)
Definition sum_totals (bs : list Booking) : C.float :=
  fold_left (fun sum b => C.fadd sum (total_price b)) bs C.fzero.

(** The messages with which [on_book_room_clicked] refuses a booking. *)
Definition is_refusal (msg : message) : bool :=
  match msg with
  | LoginFirst | SelectRoom | InvalidDateFormat | CheckoutNotAfterCheckin
  | CheckinInPast | RoomUnavailable | ProfileIncomplete => true
  | _ => false
  end.

(** ** Fixtures: the files of a small hotel *)

(** The room file that [initialize_files] writes. *)
Definition seed_rooms : string :=
  "101:Single:100.00:Available:WiFi,TV,AC
102:Double:150.00:Available:WiFi,TV,AC,Meal Service
103:Suite:300.00:Available:WiFi,TV,AC,Meal Service,Jacuzzi
104:Single:120.00:Available:WiFi,TV,AC,Balcony
105:Double:180.00:Available:WiFi,TV,AC,Meal Service,Balcony
".

(** The same with room 101 booked. *)
Definition rooms_101_booked : string :=
  "101:Single:100.00:Booked:WiFi,TV,AC
102:Double:150.00:Available:WiFi,TV,AC,Meal Service
103:Suite:300.00:Available:WiFi,TV,AC,Meal Service,Jacuzzi
104:Single:120.00:Available:WiFi,TV,AC,Balcony
105:Double:180.00:Available:WiFi,TV,AC,Meal Service,Balcony
".

(** Profiles as [save_user_profile] writes them when the e-mail, address
    and phone entries are left empty; bob has also left his name empty. *)
Definition profiles : string :=
  "alice:Alice A:ID1:::
bob:Bob B:ID2:::
".

Definition profiles_bob_unnamed : string :=
  "alice:Alice A:ID1:::
bob::ID2:::
".

(** A profile with every field filled in. *)
Definition profiles_with_email : string :=
  "alice:Alice A:ID1:alice@example.org:1 Main St:5551234567
".

Definition fresh_files : files :=
  {| ROOM_FILE := Some seed_rooms; BOOKING_FILE := Some "";
     USER_PROFILE_FILE := Some profiles |}.

(** 2025-06-02 10:00:00 and a minute later, UTC; the date of the day is
    taken a month earlier so that June dates are in the future. *)
Definition clock_1 : clock :=
  {| today := "2025-05-01"; now := 1748858400;
     timestamp := "2025-06-02 10:00:00"; utc_offset := 0 |}.

Definition clock_2 : clock :=
  {| today := "2025-05-01"; now := 1748858460;
     timestamp := "2025-06-02 10:01:00"; utc_offset := 0 |}.

(** The line that [on_book_room_clicked] appends for alice, room 101,
    2025-06-01 to 2025-06-03. *)
Definition alice_line : string :=
  "alice:101:2025-06-02 10:00:00:2025-06-01:2025-06-03:200.00:active:858400
".

(** The same booking as a record. *)
Definition alice_booking : Booking :=
  {| booking_id := 858400; booked_room := 101; username := "alice";
     booking_date := "2025-06-02 10:00:00"; check_in_date := "2025-06-01";
     check_out_date := "2025-06-03"; total_price := C.float_of_int 200;
     booking_status := "active" |}.

Definition bob_line : string :=
  "bob:101:2025-06-02 10:01:00:2025-06-02:2025-06-04:200.00:active:858460
".

Definition files_alice_booked : files :=
  {| ROOM_FILE := Some rooms_101_booked; BOOKING_FILE := Some alice_line;
     USER_PROFILE_FILE := Some profiles |}.

Definition files_both_booked : files :=
  {| ROOM_FILE := Some rooms_101_booked;
     BOOKING_FILE := Some (alice_line ++ bob_line);
     USER_PROFILE_FILE := Some profiles |}.

Definition f200 : C.float := C.float_of_int 200.

Definition f2025 : C.float := C.float_of_int 2025.

(** What [sscanf] stores for the line of alice: six of the eight fields;
    the status and the id stay what they were in [u]. *)
Definition alice_as_read (u : Booking) : Booking :=
  {| booking_id := booking_id u; booked_room := 101; username := "alice";
     booking_date := "2025-06-02 10"; check_in_date := "00";
     check_out_date := "00"; total_price := f2025;
     booking_status := booking_status u |}.

Definition bob_as_read (u : Booking) : Booking :=
  {| booking_id := booking_id u; booked_room := 101; username := "bob";
     booking_date := "2025-06-02 10"; check_in_date := "01";
     check_out_date := "00"; total_price := f2025;
     booking_status := booking_status u |}.

(** The line of alice with nothing but the status changed. *)
Definition alice_line_canceled : string :=
  "alice:101:2025-06-02 10:00:00:2025-06-01:2025-06-03:200.00:canceled:858400
".

(** The booking of alice as a cancellation leaves it in the file when
    [bookings] happens to hold her id. *)
Definition alice_rewritten : Booking :=
  {| booking_id := 858400; booked_room := 101; username := "alice";
     booking_date := "2025-06-02 10"; check_in_date := "00";
     check_out_date := "00"; total_price := f2025;
     booking_status := "canceled" |}.

Definition alice_rewritten_line : string :=
  "alice:101:2025-06-02 10:00:00:2025.00:canceled:858400
".

Definition any_room : Room :=
  {| room_number := 0; type := ""; price := C.fzero; status := "";
     facilities := "" |}.

(** An array [bookings] whose elements hold the id of alice's booking
    before [sscanf] writes to them. *)
Definition locals_with_id : cancel_locals :=
  {| bookings_array := fun _ =>
       {| booking_id := 858400; booked_room := 0; username := "";
          booking_date := ""; check_in_date := ""; check_out_date := "";
          total_price := C.fzero; booking_status := "" |};
     cancel_rooms_array := fun _ => any_room |}.

Definition files_alice_canceled : files :=
  {| ROOM_FILE := Some seed_rooms; BOOKING_FILE := Some alice_rewritten_line;
     USER_PROFILE_FILE := Some profiles |}.

(** After alice's cancellation bob has booked room 101. *)
Definition files_rebooked : files :=
  {| ROOM_FILE := Some rooms_101_booked;
     BOOKING_FILE := Some (alice_rewritten_line ++ bob_line);
     USER_PROFILE_FILE := Some profiles |}.

(** The cancelled booking of alice alone, with room 101 marked booked. *)
Definition files_canceled_but_booked : files :=
  {| ROOM_FILE := Some rooms_101_booked;
     BOOKING_FILE := Some alice_rewritten_line;
     USER_PROFILE_FILE := Some profiles |}.

Definition seed_room_list (status_101 : string) : list Room :=
  [ {| room_number := 101; type := "Single"; price := C.float_of_int 100;
       status := status_101; facilities := "WiFi,TV,AC" |};
    {| room_number := 102; type := "Double"; price := C.float_of_int 150;
       status := "Available"; facilities := "WiFi,TV,AC,Meal Service" |};
    {| room_number := 103; type := "Suite"; price := C.float_of_int 300;
       status := "Available";
       facilities := "WiFi,TV,AC,Meal Service,Jacuzzi" |};
    {| room_number := 104; type := "Single"; price := C.float_of_int 120;
       status := "Available"; facilities := "WiFi,TV,AC,Balcony" |};
    {| room_number := 105; type := "Double"; price := C.float_of_int 180;
       status := "Available";
       facilities := "WiFi,TV,AC,Meal Service,Balcony" |} ].

(** Bob's profile has an empty full name; carol has no profile. *)
Definition files_bob_unnamed : files :=
  {| ROOM_FILE := Some seed_rooms; BOOKING_FILE := Some "";
     USER_PROFILE_FILE := Some profiles_bob_unnamed |}.

Definition files_bob_unnamed_booked : files :=
  {| ROOM_FILE := Some rooms_101_booked;
     BOOKING_FILE :=
       Some "bob:101:2025-06-02 10:00:00:2025-06-01:2025-06-03:200.00:active:858400
";
     USER_PROFILE_FILE := Some profiles_bob_unnamed |}.

Definition files_with_email : files :=
  {| ROOM_FILE := Some seed_rooms; BOOKING_FILE := Some "";
     USER_PROFILE_FILE := Some profiles_with_email |}.

(** Room 101 reads booked although the booking file is empty. *)
Definition files_marked_booked : files :=
  {| ROOM_FILE := Some rooms_101_booked; BOOKING_FILE := Some "";
     USER_PROFILE_FILE := Some profiles |}.

(** A stay from the 40th to the 45th of month 13. *)
Definition files_month_13 : files :=
  {| ROOM_FILE := Some rooms_101_booked;
     BOOKING_FILE :=
       Some "alice:101:2025-06-02 10:00:00:2025-13-40:2025-13-45:500.00:active:858400
";
     USER_PROFILE_FILE := Some profiles |}.

Definition f500 : C.float := C.float_of_int 500.

(** The two bookings of the revenue example: 100.00 active, made on
    2025-06-02 at 10:00:00, and 50.00 canceled, made on 2025-06-03 at
    09:00:00. *)
Definition revenue_files : files :=
  {| ROOM_FILE := Some seed_rooms;
     BOOKING_FILE :=
       Some "alice:101:2025-06-02 10:00:00:2025-06-10:2025-06-11:100.00:active:1001
bob:102:2025-06-03 09:00:00:2025-06-20:2025-06-21:50.00:canceled:1002
";
     USER_PROFILE_FILE := Some profiles |}.

Definition f100 : C.float := C.float_of_int 100.
Definition f4050 : C.float := C.float_of_int 4050.

Definition march_10 : ymd := {| yy := 2025; mm := 3; dd := 10 |}.
Definition march_12 : ymd := {| yy := 2025; mm := 3; dd := 12 |}.

Definition room_101 : Room :=
  {| room_number := 101; type := "Single"; price := C.float_of_int 100;
     status := "Available"; facilities := "WiFi,TV,AC" |}.

(** The rooms of [seed_rooms] by ascending price. *)
Definition seed_rooms_by_price : list Room :=
  [ nth 0 (seed_room_list "Available") any_room;
    nth 3 (seed_room_list "Available") any_room;
    nth 1 (seed_room_list "Available") any_room;
    nth 4 (seed_room_list "Available") any_room;
    nth 2 (seed_room_list "Available") any_room ].

(** A filter whose upper price bound is negative, as [atof] gives it for
    the entry "-5". *)
Definition negative_max : RoomFilter :=
  {| min_price := C.fzero; max_price := C.float_of_int (-5);
     filter_type := ""; filter_facilities := "" |}.

(** Two rooms of the same price. *)
Definition twin_rooms : string :=
  "201:Single:50.00:Available:WiFi
202:Double:50.00:Available:WiFi
".

Definition room_201 : Room :=
  {| room_number := 201; type := "Single"; price := C.float_of_int 50;
     status := "Available"; facilities := "WiFi" |}.

Definition room_202 : Room :=
  {| room_number := 202; type := "Double"; price := C.float_of_int 50;
     status := "Available"; facilities := "WiFi" |}.

Definition twin_files : files :=
  {| ROOM_FILE := Some twin_rooms; BOOKING_FILE := Some "";
     USER_PROFILE_FILE := Some "" |}.

(** A hundred and one rooms, all alike. *)
Definition room_1 : Room :=
  {| room_number := 1; type := "Single"; price := C.float_of_int 1;
     status := "Available"; facilities := "WiFi" |}.

Definition crowded_files : files :=
  {| ROOM_FILE := Some (write_rooms (repeat room_1 101));
     BOOKING_FILE := Some ""; USER_PROFILE_FILE := Some "" |}.

(** The rooms that a room file holds, as the loops read them. *)
Definition rooms_of (fs : files) : list Room :=
  match ROOM_FILE fs with
  | Some text => rooms_seen (C.fgets_lines MAX_LEN text) any_room
  | None => []
  end.
(** * The rest of the program: accounts, profiles, the administrator,
      the lists

    The functions below are embedded like those above, with two additions.
    - The user file is read into [saved_phone], an array of 15 characters,
      and the sign-up form accepts phone numbers of 15 digits: for the
      arrays of the account functions the model keeps the sizes, and a
      store past the end of one of them has no defined behaviour.
    - An array that is declared in the body of a loop is indeterminate
      every time the body is entered: the functions that have such an
      array take what it holds at line [i] as [g i]. *)

(** ** More of the C library *)

Module Clib.

(** <ctype.h> in the C locale: no character above 127 is a letter. *)
Definition isalpha (c : ascii) : bool :=
  ((65 <=? C.code c) && (C.code c <=? 90))
  || ((97 <=? C.code c) && (C.code c <=? 122)).

Definition isalnum (c : ascii) : bool := isalpha c || C.isdigit c.

(** [%s]: white space is skipped, then a non-empty run of characters that
    are not white space is stored. *)
Fixpoint span_word (s : string) : string * string :=
  match s with
  | String a r =>
      if C.isspace a then (EmptyString, s)
      else let (t, r') := span_word r in (String a t, r')
  | EmptyString => (EmptyString, EmptyString)
  end.

Definition scan_s (s : string) : option (string * string) :=
  match span_word (C.skip_space s) with
  | (EmptyString, _) => None
  | (t, r) => Some (t, r)
  end.

(** [s[strcspn (s, "\n")] = 0]: the text up to its first newline. *)
Fixpoint cut_newline (s : string) : string :=
  match s with
  | String a r =>
      if Ascii.eqb a "010" then EmptyString else String a (cut_newline r)
  | EmptyString => EmptyString
  end.

Arguments isalpha : simpl never.
Arguments isalnum : simpl never.

End Clib.

(** ** The accounts (file_operations.c, validation.c) *)

(** The two files of the accounts. *)
Record accounts : Type :=
  { USER_FILE : option string; ADMIN_PASS_FILE : option string }.

Definition set_USER_FILE (t : string) (a : accounts) : accounts :=
  {| USER_FILE := Some t; ADMIN_PASS_FILE := ADMIN_PASS_FILE a |}.
Definition set_ADMIN_PASS_FILE (t : string) (a : accounts) : accounts :=
  {| USER_FILE := USER_FILE a; ADMIN_PASS_FILE := Some t |}.

(** A text of [n] characters or more, with its terminator, goes past the
    end of an array of [n] characters. *)
Definition overruns (n : nat) (s : string) : bool :=
  (n <=? String.length s)%nat.

(** [saved_username] and [saved_phone], and whether a store went past the
    end of one of them. *)
Record user_vars : Type :=
  { saved_username : string; saved_phone : string; overrun : bool }.

Definition set_saved_username (s : string) (v : user_vars) : user_vars :=
  {| saved_username := s; saved_phone := saved_phone v;
     overrun := overrun v || overruns MAX_LEN s |}.
Definition set_saved_phone (s : string) (v : user_vars) : user_vars :=
  {| saved_username := saved_username v; saved_phone := s;
     overrun := overrun v || overruns 15 s |}.

(** ["%[^:]:%s"] *)
Definition fmt_user : list (C.directive user_vars) :=
  [C.Conv (C.scan_not ":") set_saved_username; C.Lit ":";
   C.Conv Clib.scan_s set_saved_phone].

(** The two arrays are declared in the body of the loop: what they hold
    when [sscanf] is called for line [i] is indeterminate, [g i]. *)
Definition user_locals (g : nat -> string * string) (i : nat) : user_vars :=
  {| saved_username := fst (g i); saved_phone := snd (g i); overrun := false |}.

(** The loops answer [None] where a store goes past the end of an array. *)
Fixpoint validate_user_credentials_loop (lines : list string)
    (g : nat -> string * string) (i : nat) (username phone : string)
  : option bool :=
  match lines with
  | [] => Some false
  | line :: lines' =>
      let v := snd (C.sscanf fmt_user line (user_locals g i)) in
      if overrun v then None
      else if (C.strcmp username (saved_username v) =? 0)
              && (C.strcmp phone (saved_phone v) =? 0)
      then Some true
      else validate_user_credentials_loop lines' g (S i) username phone
  end.

Definition validate_user_credentials (a : accounts)
    (g : nat -> string * string) (username phone : string) : option bool :=
  match USER_FILE a with
  | None => Some false
  | Some text =>
      validate_user_credentials_loop (C.fgets_lines MAX_LEN text) g 0
        username phone
  end.

Fixpoint username_exists_loop (lines : list string)
    (g : nat -> string * string) (i : nat) (username : string)
  : option bool :=
  match lines with
  | [] => Some false
  | line :: lines' =>
      let v := snd (C.sscanf fmt_user line (user_locals g i)) in
      if overrun v then None
      else if C.strcmp username (saved_username v) =? 0 then Some true
      else username_exists_loop lines' g (S i) username
  end.

Definition username_exists (a : accounts) (g : nat -> string * string)
    (username : string) : option bool :=
  match USER_FILE a with
  | None => Some false
  | Some text =>
      username_exists_loop (C.fgets_lines MAX_LEN text) g 0 username
  end.

(** ["%s:%s\n"] *)
Definition user_line (username phone : string) : string :=
  username ++ ":" ++ phone ++ nl.

(** [register_user]: the result and the files as the call leaves them. *)
Definition register_user (a : accounts) (g : nat -> string * string)
    (username phone : string) : option (bool * accounts) :=
  match username_exists a g username with
  | None => None
  | Some true => Some (false, a)
  | Some false =>
      Some (true,
            set_USER_FILE (append_text (USER_FILE a) (user_line username phone))
              a)
  end.

(** [is_valid_username]; the argument is never [NULL]. *)
Fixpoint is_valid_username_loop (s : string) : bool :=
  match s with
  | EmptyString => true
  | String c r =>
      if negb (Clib.isalnum c) && negb (Ascii.eqb c "_") then false
      else is_valid_username_loop r
  end.

Definition is_valid_username (username : string) : bool :=
  if (C.strlen username <? 3) || (20 <? C.strlen username) then false
  else if negb (match username with
                | String c _ => Clib.isalpha c
                | EmptyString => false
                end) then false
  else is_valid_username_loop username.

Fixpoint is_valid_phone_loop (s : string) : bool :=
  match s with
  | EmptyString => true
  | String c r => if negb (C.isdigit c) then false else is_valid_phone_loop r
  end.

Definition is_valid_phone (phone : string) : bool :=
  if (C.strlen phone <? 10) || (15 <? C.strlen phone) then false
  else is_valid_phone_loop phone.

(** ** validation.c and file_operations.c: profiles and the administrator *)

(** ["%[^:]:"] into [saved_username]. *)
Definition fmt_saved_username : list (C.directive string) :=
  [C.Conv (C.scan_not ":") (fun s _ => s); C.Lit ":"].

(** [profile_exists]; [saved_username] is declared in the body of the
    loop, and holds [g i] when [sscanf] is called for line [i]. *)
Fixpoint profile_exists_loop (lines : list string) (g : nat -> string)
    (i : nat) (username : string) : bool :=
  match lines with
  | [] => false
  | line :: lines' =>
      let saved_username := snd (C.sscanf fmt_saved_username line (g i)) in
      if C.strcmp username saved_username =? 0 then true
      else profile_exists_loop lines' g (S i) username
  end.

Definition profile_exists (fs : files) (g : nat -> string) (username : string)
  : bool :=
  match USER_PROFILE_FILE fs with
  | None => false
  | Some text =>
      profile_exists_loop (C.fgets_lines (MAX_LEN * 4) text) g 0 username
  end.

Definition set_USER_PROFILE_FILE (t : string) (fs : files) : files :=
  {| ROOM_FILE := ROOM_FILE fs; BOOKING_FILE := BOOKING_FILE fs;
     USER_PROFILE_FILE := Some t |}.

(** ["%s:%s:%s:%s:%s:%s\n"] *)
Definition profile_line (username full_name id_number email address phone
    : string) : string :=
  username ++ ":" ++ full_name ++ ":" ++ id_number ++ ":" ++ email ++ ":"
  ++ address ++ ":" ++ phone ++ nl.

(** The loop of [save_user_profile]: [temp] is the text written to the
    temporary file so far. *)
Fixpoint save_user_profile_loop (lines : list string) (g : nat -> string)
    (i : nat) (username new_line : string) (temp : string) (found : bool)
  : string * bool :=
  match lines with
  | [] => (temp, found)
  | line :: lines' =>
      let saved_username := snd (C.sscanf fmt_saved_username line (g i)) in
      if C.strcmp username saved_username =? 0
      then save_user_profile_loop lines' g (S i) username new_line
             (temp ++ new_line) true
      else save_user_profile_loop lines' g (S i) username new_line
             (temp ++ line) found
  end.

(** [save_user_profile]: the temporary file takes the place of the
    profile file. *)
Definition save_user_profile (fs : files) (g : nat -> string)
    (username full_name id_number email address phone : string) : files :=
  let new_line :=
    profile_line username full_name id_number email address phone in
  match USER_PROFILE_FILE fs with
  | Some text =>
      let (temp, found) :=
        save_user_profile_loop (C.fgets_lines (MAX_LEN * 4) text) g 0
          username new_line "" false in
      set_USER_PROFILE_FILE (if found then temp else temp ++ new_line) fs
  | None => set_USER_PROFILE_FILE new_line fs
  end.

(** [validate_admin_password]: the answer and the files as the call leaves
    them; [u] is what [stored_password] holds on entry, which is what it
    holds after an [fgets] that reads nothing. *)
Definition validate_admin_password (a : accounts) (u : string)
    (password : string) : bool * accounts :=
  match ADMIN_PASS_FILE a with
  | None =>
      (C.strcmp password "admin123" =? 0,
       set_ADMIN_PASS_FILE ("admin123" ++ nl) a)
  | Some text =>
      let stored_password :=
        match text with
        | EmptyString => u
        | _ => fst (C.take_line (MAX_LEN - 1) text)
        end in
      (C.strcmp password (Clib.cut_newline stored_password) =? 0, a)
  end.

(** [change_admin_password] *)
Definition change_admin_password (new_password : string) (a : accounts)
  : accounts :=
  set_ADMIN_PASS_FILE (new_password ++ nl) a.

(** [initialize_files] *)
Definition initialize_files (fs : files) (a : accounts) : files * accounts :=
  let fs :=
    match ROOM_FILE fs with
    | None =>
        set_ROOM_FILE
          (("101:Single:100.00:Available:WiFi,TV,AC" ++ nl)
           ++ ("102:Double:150.00:Available:WiFi,TV,AC,Meal Service" ++ nl)
           ++ ("103:Suite:300.00:Available:WiFi,TV,AC,Meal Service,Jacuzzi" ++ nl)
           ++ ("104:Single:120.00:Available:WiFi,TV,AC,Balcony" ++ nl)
           ++ ("105:Double:180.00:Available:WiFi,TV,AC,Meal Service,Balcony" ++ nl))
          fs
    | Some _ => fs
    end in
  let fs :=
    match BOOKING_FILE fs with
    | None => set_BOOKING_FILE "" fs
    | Some _ => fs
    end in
  let a :=
    match USER_FILE a with
    | None => set_USER_FILE "" a
    | Some _ => a
    end in
  let fs :=
    match USER_PROFILE_FILE fs with
    | None => set_USER_PROFILE_FILE "" fs
    | Some _ => fs
    end in
  let a :=
    match ADMIN_PASS_FILE a with
    | None => set_ADMIN_PASS_FILE ("admin123" ++ nl) a
    | Some _ => a
    end in
  (fs, a).

(** ** gui_management.c: signing up and logging in *)

(** The globals of main.c, the visible child of the stack, the text of the
    status label, and the texts of the entries that the callbacks read. *)
Record gui : Type :=
  { current_user : string; is_admin_logged_in : bool;
    visible_child_name : string; status_label : string;
    username_entry : string; phone_entry : string; password_entry : string;
    new_password_entry : string; confirm_password_entry : string;
    signup_username_entry : string; signup_phone_entry : string;
    signup_confirm_phone_entry : string }.

Definition set_current_user (s : string) (w : gui) : gui :=
  {| current_user := s; is_admin_logged_in := is_admin_logged_in w;
     visible_child_name := visible_child_name w;
     status_label := status_label w; username_entry := username_entry w;
     phone_entry := phone_entry w; password_entry := password_entry w;
     new_password_entry := new_password_entry w;
     confirm_password_entry := confirm_password_entry w;
     signup_username_entry := signup_username_entry w;
     signup_phone_entry := signup_phone_entry w;
     signup_confirm_phone_entry := signup_confirm_phone_entry w |}.

Definition set_is_admin_logged_in (b : bool) (w : gui) : gui :=
  {| current_user := current_user w; is_admin_logged_in := b;
     visible_child_name := visible_child_name w;
     status_label := status_label w; username_entry := username_entry w;
     phone_entry := phone_entry w; password_entry := password_entry w;
     new_password_entry := new_password_entry w;
     confirm_password_entry := confirm_password_entry w;
     signup_username_entry := signup_username_entry w;
     signup_phone_entry := signup_phone_entry w;
     signup_confirm_phone_entry := signup_confirm_phone_entry w |}.

Definition gtk_stack_set_visible_child_name (name : string) (w : gui) : gui :=
  {| current_user := current_user w;
     is_admin_logged_in := is_admin_logged_in w;
     visible_child_name := name;
     status_label := status_label w; username_entry := username_entry w;
     phone_entry := phone_entry w; password_entry := password_entry w;
     new_password_entry := new_password_entry w;
     confirm_password_entry := confirm_password_entry w;
     signup_username_entry := signup_username_entry w;
     signup_phone_entry := signup_phone_entry w;
     signup_confirm_phone_entry := signup_confirm_phone_entry w |}.

Definition update_status (message : string) (w : gui) : gui :=
  {| current_user := current_user w;
     is_admin_logged_in := is_admin_logged_in w;
     visible_child_name := visible_child_name w;
     status_label := message; username_entry := username_entry w;
     phone_entry := phone_entry w; password_entry := password_entry w;
     new_password_entry := new_password_entry w;
     confirm_password_entry := confirm_password_entry w;
     signup_username_entry := signup_username_entry w;
     signup_phone_entry := signup_phone_entry w;
     signup_confirm_phone_entry := signup_confirm_phone_entry w |}.

(** The three [gtk_entry_set_text (..., "")] of a registration. *)
Definition clear_signup_entries (w : gui) : gui :=
  {| current_user := current_user w;
     is_admin_logged_in := is_admin_logged_in w;
     visible_child_name := visible_child_name w;
     status_label := status_label w; username_entry := username_entry w;
     phone_entry := phone_entry w; password_entry := password_entry w;
     new_password_entry := new_password_entry w;
     confirm_password_entry := confirm_password_entry w;
     signup_username_entry := ""; signup_phone_entry := "";
     signup_confirm_phone_entry := "" |}.

Definition show_main_menu : gui -> gui :=
  gtk_stack_set_visible_child_name "main_menu".
Definition show_customer_login : gui -> gui :=
  gtk_stack_set_visible_child_name "customer_login".
Definition show_customer_menu : gui -> gui :=
  gtk_stack_set_visible_child_name "customer_menu".
Definition show_admin_menu : gui -> gui :=
  gtk_stack_set_visible_child_name "admin_menu".

(** [on_sign_up_submit_clicked]: the window and the files as the callback
    leaves them, or [None] where a store goes past the end of an array. *)
Definition on_sign_up_submit_clicked (a : accounts)
    (g : nat -> string * string) (w : gui) : option (gui * accounts) :=
  let username := signup_username_entry w in
  let phone := signup_phone_entry w in
  let confirm_phone := signup_confirm_phone_entry w in
  if negb (is_valid_username username) then
    Some (update_status
            "Username must be 3-20 characters (letters, numbers, underscore only)"
            w, a)
  else if negb (is_valid_phone phone) then
    Some (update_status "Phone must be 10-15 digits only" w, a)
  else if negb (C.strcmp phone confirm_phone =? 0) then
    Some (update_status "Phone numbers don't match" w, a)
  else
    match register_user a g username phone with
    | None => None
    | Some (true, a') =>
        Some (clear_signup_entries
                (show_customer_login
                   (update_status "Registration successful! Please login." w)),
              a')
    | Some (false, a') =>
        Some (update_status "Username already taken. Please choose another." w,
              a')
    end.

(** [on_customer_login_submit_clicked]; [g] and [gp] are what the arrays of
    [validate_user_credentials] and of [profile_exists] hold. *)
Definition on_customer_login_submit_clicked (fs : files) (a : accounts)
    (g : nat -> string * string) (gp : nat -> string) (w : gui) : option gui :=
  let username := username_entry w in
  let phone := phone_entry w in
  match validate_user_credentials a g username phone with
  | None => None
  | Some true =>
      let w := set_current_user username w in
      let w :=
        if negb (profile_exists fs gp (current_user w))
        then update_status "Please complete your profile." w else w in
      Some (show_customer_menu w)
  | Some false => Some (update_status "Invalid username or phone number." w)
  end.

(** [on_admin_login_submit_clicked]; [u] is what [stored_password] holds. *)
Definition on_admin_login_submit_clicked (a : accounts) (u : string)
    (w : gui) : gui * accounts :=
  let password := password_entry w in
  let (valid, a') := validate_admin_password a u password in
  if valid then
    (show_admin_menu
       (update_status "Admin login successful!"
          (set_is_admin_logged_in true w)), a')
  else (update_status "Invalid admin password." w, a').

(** [on_admin_change_password_clicked] *)
Definition on_admin_change_password_clicked (a : accounts) (w : gui)
  : gui * accounts :=
  let new_password := new_password_entry w in
  let confirm_password := confirm_password_entry w in
  if C.strlen new_password <? 6 then
    (update_status "Password must be at least 6 characters long." w, a)
  else if negb (C.strcmp new_password confirm_password =? 0) then
    (update_status "Passwords do not match." w, a)
  else
    (update_status "Admin password changed successfully." w,
     change_admin_password new_password a).

(** [on_back_to_main_clicked] *)
Definition on_back_to_main_clicked (w : gui) : gui :=
  show_main_menu (set_is_admin_logged_in false (set_current_user "" w)).

(** ** gui_management.c: the lists of bookings and the receipts *)

(** [BookingFilter] of booking_operations.h. *)
Record BookingFilter : Type :=
  { filter_booking_id : Z; filter_username : string; start_date : string;
    end_date : string }.

(** A row of the booking list of a customer: the booking id, the room
    number, the two dates, the total and the status. *)
Definition booking_row : Type := Z * Z * string * string * C.float * string.

Definition row_of (v : Booking) : booking_row :=
  (booking_id v, booked_room v, check_in_date v, check_out_date v,
   total_price v, booking_status v).

(** [load_user_bookings_into_store]: [store] holds the rows of the list
    store, to which the function appends; [v] holds the locals that
    [sscanf] fills. *)
Fixpoint load_user_bookings_loop (lines : list string) (v : Booking)
    (name : string) (store : list booking_row) : list booking_row :=
  match lines with
  | [] => store
  | line :: lines' =>
      let v := snd (C.sscanf fmt_booking line v) in
      if C.strcmp (username v) name =? 0
      then load_user_bookings_loop lines' v name (store ++ [row_of v])
      else load_user_bookings_loop lines' v name store
  end.

Definition load_user_bookings_into_store (fs : files) (v : Booking)
    (store : list booking_row) (name : string) : list booking_row :=
  match BOOKING_FILE fs with
  | None => store
  | Some text =>
      load_user_bookings_loop (C.fgets_lines (MAX_LEN * 3) text) v name store
  end.

(** The tests of [load_all_bookings_into_store] that end in [continue],
    negated: the booking is listed. *)
Definition passes_booking_filter (filter : option BookingFilter) (v : Booking)
  : bool :=
  match filter with
  | None => true
  | Some f =>
      negb (negb (filter_booking_id f =? 0)
            && negb (booking_id v =? filter_booking_id f))
      && negb ((0 <? C.strlen (filter_username f))
               && negb (C.strstr (username v) (filter_username f)))
      && (if (0 <? C.strlen (start_date f)) || (0 <? C.strlen (end_date f))
          then
            let booking_date_only := C.strncpy_term (booking_date v) 10 in
            negb ((0 <? C.strlen (start_date f))
                  && (C.strcmp booking_date_only (start_date f) <? 0))
            && negb ((0 <? C.strlen (end_date f))
                     && (0 <? C.strcmp booking_date_only (end_date f)))
          else true)
  end.

(** [load_all_bookings_into_store]: a row holds the eight fields. *)
Fixpoint load_all_bookings_loop (lines : list string) (v : Booking)
    (filter : option BookingFilter) (store : list Booking) : list Booking :=
  match lines with
  | [] => store
  | line :: lines' =>
      let v := snd (C.sscanf fmt_booking line v) in
      if passes_booking_filter filter v
      then load_all_bookings_loop lines' v filter (store ++ [v])
      else load_all_bookings_loop lines' v filter store
  end.

Definition load_all_bookings_into_store (fs : files) (v : Booking)
    (store : list Booking) (filter : option BookingFilter) : list Booking :=
  match BOOKING_FILE fs with
  | None => store
  | Some text =>
      load_all_bookings_loop (C.fgets_lines (MAX_LEN * 3) text) v filter store
  end.

(** The booking list at the end of [on_cancel_booking_clicked]: after the
    success message the callback loads the bookings of the user into the
    list store as it is. *)
Definition booking_list_after_cancel (fs : files) (l : cancel_locals)
    (v : Booking) (user : string) (store : list booking_row)
    (selected : option Z) : option (list booking_row) :=
  match on_cancel_booking_clicked fs l selected with
  | Status (BookingCanceled _) fs' =>
      Some (load_user_bookings_into_store fs' v store user)
  | Status _ _ => Some store
  | Undefined => None
  end.

(** [show_booking_manage] clears the list store before it loads. *)
Definition show_booking_manage (fs : files) (v : Booking) (user : string)
    (store : list booking_row) : list booking_row :=
  if 0 <? C.strlen user then load_user_bookings_into_store fs v [] user
  else store.

(** A [GtkTextBuffer] with an iterator: the text before the iterator and
    the text after it.  [gtk_text_buffer_insert] puts the text at the
    iterator and leaves the iterator at its end. *)
Definition text_iter : Type := string * string.

Definition gtk_text_buffer_get_iter_at_offset_0 (buffer : string) : text_iter :=
  (EmptyString, buffer).

Definition gtk_text_buffer_insert (text : string) (it : text_iter) : text_iter :=
  (fst it ++ text, snd it).

Definition text_of (it : text_iter) : string := fst it ++ snd it.

(** [display_receipt_in_buffer]: the buffer as the call leaves it. *)
Definition display_receipt_in_buffer (booking : Booking) (buffer : string)
  : string :=
  let it := gtk_text_buffer_get_iter_at_offset_0 buffer in
  let it :=
    gtk_text_buffer_insert ("========== BOOKING RECEIPT ==========" ++ nl) it in
  let it :=
    gtk_text_buffer_insert
      ("Booking ID: " ++ C.fmt_d (booking_id booking) ++ nl) it in
  let it :=
    gtk_text_buffer_insert ("Customer: " ++ username booking ++ nl) it in
  let it :=
    gtk_text_buffer_insert
      ("Room Number: " ++ C.fmt_d (booked_room booking) ++ nl) it in
  let it :=
    gtk_text_buffer_insert ("Booking Date: " ++ booking_date booking ++ nl) it in
  let it :=
    gtk_text_buffer_insert ("Check-in: " ++ check_in_date booking ++ nl) it in
  let it :=
    gtk_text_buffer_insert ("Check-out: " ++ check_out_date booking ++ nl) it in
  let it :=
    gtk_text_buffer_insert
      ("Total Price: $" ++ C.fmt_2f (total_price booking) ++ nl) it in
  let it :=
    gtk_text_buffer_insert ("Status: " ++ booking_status booking ++ nl) it in
  let it :=
    gtk_text_buffer_insert ("=====================================" ++ nl) it in
  text_of it.

Fixpoint load_receipt_history_loop (lines : list string) (booking : Booking)
    (name : string) (buffer : string) (count : Z) : string * Z :=
  match lines with
  | [] => (buffer, count)
  | line :: lines' =>
      let booking := snd (C.sscanf fmt_booking line booking) in
      if C.strcmp (username booking) name =? 0
      then load_receipt_history_loop lines' booking name
             (display_receipt_in_buffer booking buffer) (count + 1)
      else load_receipt_history_loop lines' booking name buffer count
  end.

(** [load_receipt_history_for_user]: the text of the buffer as the call
    leaves it; [u] is what [booking] holds on entry. *)
Definition load_receipt_history_for_user (fs : files) (u : Booking)
    (name : string) (buffer : string) : string :=
  match BOOKING_FILE fs with
  | None => buffer
  | Some text =>
      let buffer := "========== RECEIPT HISTORY ==========" ++ nl ++ nl in
      let (buffer, count) :=
        load_receipt_history_loop (C.fgets_lines (MAX_LEN * 3) text) u name
          buffer 0 in
      if count =? 0 then
        text_of (gtk_text_buffer_insert ("No receipts found." ++ nl)
                   (gtk_text_buffer_get_iter_at_offset_0 buffer))
      else buffer
  end.

(** ** Notions that the statements about the rest of the program use *)

(** *** The calendar of [mktime] *)

(** [civil_from_days] gives a date of the calendar, and [tm_days] gives
    its day number back. *)
Definition civil_ok (z : Z) : bool :=
  let '(y, m, d) := C.civil_from_days z in
  (1 <=? m) && (m <=? 12) && (1 <=? d) && (d <=? days_in_month y m)
  && (C.tm_days (tm_of {| yy := y; mm := m; dd := d |}) =? z).

(** The same for the [n] day numbers from [start] on. *)
Definition civil_ok_step (p : Z * bool) : Z * bool :=
  (fst p + 1, snd p && civil_ok (fst p)).

Definition civil_ok_range (start : Z) (n : positive) : bool :=
  snd (Pos.iter civil_ok_step (start, true) n).

(** 2024-01-01 was a Monday. *)
Definition monday_2024 : ymd := {| yy := 2024; mm := 1; dd := 1 |}.

(** A whole number of weeks before or after that Monday. *)
Definition is_monday (t : ymd) : Prop :=
  exists j, days_later monday_2024 (7 * j) t \/ days_later t (7 * j) monday_2024.

(** The ranges of [validate_date]. *)
Definition in_ranges (y m d : Z) : Prop :=
  2024 <= y /\ 1 <= m <= 12 /\ 1 <= d <= 31.

(** *** Texts *)

(** A character other than [c]. *)
Definition differs (c : ascii) (a : ascii) : bool := negb (Ascii.eqb a c).

(** A letter, a digit or an underscore. *)
Definition word_char (c : ascii) : bool := Clib.isalnum c || Ascii.eqb c "_".

(** A text without a colon, and not empty: [%[^:]] reads it back. *)
Definition plain (s : string) : Prop :=
  s <> "" /\ string_forall (differs ":") s = true.

(** A field of a line: plain, and without a newline. *)
Definition field (s : string) : Prop :=
  s <> "" /\ string_forall (differs ":") s = true
  /\ string_forall (differs "010") s = true.

(** The last field of a line, which [%[^\n]] reads back. *)
Definition last_field (s : string) : Prop :=
  s <> "" /\ string_forall (differs "010") s = true.

(** Every store of a format keeps [P]. *)
Inductive keeps {V : Type} (P : V -> Prop) : list (C.directive V) -> Prop :=
| keeps_nil : keeps P []
| keeps_lit c fmt : keeps P fmt -> keeps P (C.Lit c :: fmt)
| keeps_conv {A : Type} (scan : string -> option (A * string))
    (store : A -> V -> V) fmt :
    (forall a v, P v -> P (store a v)) -> keeps P fmt ->
    keeps P (C.Conv scan store :: fmt).

(** *** Accounts *)

(** An account that the sign-up form accepts and the readers of the user
    file have room for. *)
Definition account_ok (p : string * string) : Prop :=
  is_valid_username (fst p) = true /\ is_valid_phone (snd p) = true
  /\ (String.length (snd p) < 15)%nat.

(** The user file holds the accounts [us], one line each, no name twice. *)
Definition user_file_of (us : list (string * string)) (a : accounts) : Prop :=
  USER_FILE a = Some (written (map (fun p => user_line (fst p) (snd p)) us))
  /\ Forall account_ok us /\ NoDup (map fst us).

Definition named (u : string) (p : string * string) : bool :=
  String.eqb u (fst p).

Definition matches (u ph : string) (p : string * string) : bool :=
  String.eqb u (fst p) && String.eqb ph (snd p).

(** *** Profiles *)

(** The name that a line gives itself: its text up to the first [c]. *)
Definition name_of_upto (c : ascii) (line : string) : string :=
  fst (C.span_not c line).

Definition name_of (line : string) : string := name_of_upto ":" line.

(** A line that does not start with a colon: [%[^:]] stores its name. *)
Definition names_itself (line : string) : Prop :=
  exists c r, line = String c r /\ c <> ":"%char.

(** The five arguments of [get_user_profile] are arrays. *)
Definition arrays (v : profile_vars) : Prop :=
  full_name v <> None /\ id_number v <> None /\ email v <> None
  /\ address v <> None /\ phone v <> None /\ null_store v = false.

(** What a call of [get_user_profile] hands back. *)
Definition outputs (v : profile_vars)
  : buffer * buffer * buffer * buffer * buffer :=
  (full_name v, id_number v, email v, address v, phone v).

(** The profile file is missing, or made of the lines [ls], each one
    [fgets] and each with a name. *)
Definition profile_lines (fs : files) (ls : list string) : Prop :=
  ((USER_PROFILE_FILE fs = None /\ ls = [])
   \/ USER_PROFILE_FILE fs = Some (written ls))
  /\ Forall (is_line (MAX_LEN * 4)) ls /\ Forall names_itself ls.

(** The lines that [save_user_profile] leaves: the new line in the place
    of every line named [u], or at the end. *)
Definition saved_lines (u new_line : string) (ls : list string) : list string :=
  map (fun l => if String.eqb u (name_of l) then new_line else l) ls
  ++ (if existsb (fun l => String.eqb u (name_of l)) ls then [] else [new_line]).

(** A line with its six fields, as [save_user_profile] writes it when no
    entry of the dialog is left empty. *)
Definition complete (line : string) : Prop :=
  exists u fn idn em ad ph,
    line = profile_line u fn idn em ad ph
    /\ field u /\ field fn /\ field idn /\ field em /\ field ad
    /\ last_field ph.

(** Five arrays that hold empty texts. *)
Definition empty_arrays : profile_vars :=
  {| current_username := ""; full_name := Some ""; id_number := Some "";
     email := Some ""; address := Some ""; phone := Some "";
     null_store := false |}.

(** The fields of the first line named [u], or five empty texts. *)
Definition lookup_profile (ls : list string) (u : string)
  : buffer * buffer * buffer * buffer * buffer :=
  match find (fun l => String.eqb u (name_of l)) ls with
  | Some l => outputs (snd (C.sscanf fmt_profile l empty_arrays))
  | None => outputs empty_arrays
  end.

(** *** Bookings *)

(** The values that the locals of a reader of the booking file take, line
    after line. *)
Fixpoint bookings_seen (lines : list string) (v : Booking) : list Booking :=
  match lines with
  | [] => []
  | line :: lines' =>
      let v := snd (C.sscanf fmt_booking line v) in
      v :: bookings_seen lines' v
  end.

(** The text of a receipt. *)
Definition receipt (b : Booking) : string := display_receipt_in_buffer b "".

Definition booked_by (name : string) (b : Booking) : bool :=
  C.strcmp (username b) name =? 0.

(** The test of [calculate_weekly_revenue] on a booking, for the week from
    [fst week] to [snd week]. *)
Definition counts_in_week (week : string * string) (b : Booking) : bool :=
  let booking_date_only := C.strncpy_term (booking_date b) 10 in
  (0 <=? C.strcmp booking_date_only (fst week))
  && (C.strcmp booking_date_only (snd week) <=? 0)
  && (C.strcmp (booking_status b) "active" =? 0).


(** *** Fixtures *)

(** Two accounts, and the files that [register_user] and
    [initialize_files] leave for them. *)
Definition two_accounts : list (string * string) :=
  [("alice", "5551234567"); ("bob", "5557654321")].

Definition accounts_1 : accounts :=
  {| USER_FILE := Some "alice:5551234567
bob:5557654321
";
     ADMIN_PASS_FILE := Some "admin123
" |}.

(** Arrays that hold empty texts before they are written. *)
Definition no_garbage (i : nat) : string * string := ("", "").

Definition no_name (i : nat) : string := "".

(** The window with alice in the login entries and carol in the sign-up
    entries. *)
Definition window_1 : gui :=
  {| current_user := ""; is_admin_logged_in := false;
     visible_child_name := "main_menu"; status_label := "";
     username_entry := "alice"; phone_entry := "5551234567";
     password_entry := "admin123"; new_password_entry := "secret1";
     confirm_password_entry := "secret1";
     signup_username_entry := "carol"; signup_phone_entry := "5550001111";
     signup_confirm_phone_entry := "5550001111" |}.

(** The same with dora and a phone number of 15 digits in the sign-up
    entries. *)
Definition window_15 : gui :=
  {| current_user := ""; is_admin_logged_in := false;
     visible_child_name := "main_menu"; status_label := "";
     username_entry := "dora"; phone_entry := "555000111122223";
     password_entry := ""; new_password_entry := "";
     confirm_password_entry := "";
     signup_username_entry := "dora"; signup_phone_entry := "555000111122223";
     signup_confirm_phone_entry := "555000111122223" |}.

(** The profile file of [files_with_email], line by line. *)
Definition lines_with_email : list string :=
  ["alice:Alice A:ID1:alice@example.org:1 Main St:5551234567
"].

(** Two bookings whose booking dates hold no time of the day, so that
    every reader reads their lines back in full: alice has room 101 from
    2025-06-10 to 2025-06-12, booked on 2025-06-02; bob has canceled. *)
Definition dated_bookings : list Booking :=
  [ {| booking_id := 1001; booked_room := 101; username := "alice";
       booking_date := "2025-06-02"; check_in_date := "2025-06-10";
       check_out_date := "2025-06-12"; total_price := C.float_of_int 200;
       booking_status := "active" |};
    {| booking_id := 1002; booked_room := 102; username := "bob";
       booking_date := "2025-06-03"; check_in_date := "2025-06-20";
       check_out_date := "2025-06-21"; total_price := C.float_of_int 150;
       booking_status := "canceled" |} ].

Definition dated_files : files :=
  {| ROOM_FILE := Some rooms_101_booked;
     BOOKING_FILE := Some (write_bookings dated_bookings);
     USER_PROFILE_FILE := Some profiles |}.

(** Locals that hold nothing of interest before they are written. *)
Definition locals_1 : book_locals :=
  {| in_ymd := march_10; out_ymd := march_10;
     available_vars := alice_rewritten;
     profile_username := ""; profile_full_name := "";
     profile_id_number := ""; price_room := any_room;
     rooms_array := fun _ => any_room |}.

(** The room file is missing. *)
Definition files_without_rooms : files :=
  {| ROOM_FILE := None; BOOKING_FILE := Some "";
     USER_PROFILE_FILE := Some profiles |}.

Definition files_without_rooms_booked : files :=
  {| ROOM_FILE := None;
     BOOKING_FILE :=
       Some "alice:101:2025-06-02 10:00:00:2025-06-01:2025-06-03:0.00:active:858400
";
     USER_PROFILE_FILE := Some profiles |}.
(** * Proofs *)

(** ** Strings *)

Lemma append_nil_r (s : string) : s ++ "" = s.
Proof. induction s; simpl; congruence. Qed.

Lemma append_assoc (a b c : string) : (a ++ b) ++ c = a ++ b ++ c.
Proof. induction a; simpl; congruence. Qed.

Lemma length_append (a b : string) :
  String.length (a ++ b) = (String.length a + String.length b)%nat.
Proof. induction a; simpl; congruence. Qed.

(** Two texts that [String.eqb] tells apart are not the contents of the
    same file. *)
Lemma some_string_neq (a b : string) :
  String.eqb a b = false -> Some a <> Some b.
Proof. intros H E. apply String.eqb_neq in H. apply H. now inversion E. Qed.

Lemma scan_digits_app (ds r : string) (acc : Z) :
  all_digits ds = true -> C.starts_with_digit r = false ->
  C.scan_digits acc (ds ++ r) = (decimal_from acc ds, r).
Proof.
  revert acc. induction ds as [|c ds IH]; intros acc Hd Hr; simpl.
  - destruct r as [|c r]; [reflexivity|]. simpl in *. now rewrite Hr.
  - simpl in Hd. apply andb_true_iff in Hd as [Hc Hd]. rewrite Hc. now apply IH.
Qed.

Lemma scan_digits_inv (s r : string) (acc v : Z) :
  C.scan_digits acc s = (v, r) ->
  exists ds, all_digits ds = true /\ s = ds ++ r /\ v = decimal_from acc ds
             /\ C.starts_with_digit r = false.
Proof.
  revert acc. induction s as [|c s IH]; intros acc H; simpl in H.
  - inversion H; subst. now exists "".
  - destruct (C.isdigit c) eqn:Hc.
    + destruct (IH _ H) as (ds & Hd & Hs & Hv & Hr).
      exists (String c ds); simpl. rewrite Hc, Hd. subst s. auto.
    + inversion H; subst. exists "". simpl. now rewrite Hc.
Qed.

Lemma scan_unsigned_app (ds r : string) :
  all_digits ds = true -> ds <> "" -> C.starts_with_digit r = false ->
  C.scan_unsigned (ds ++ r) = Some (decimal ds, r).
Proof.
  intros Hd Hn Hr. destruct ds as [|c ds]; [congruence|].
  simpl in Hd. apply andb_true_iff in Hd as [Hc Hd].
  unfold C.scan_unsigned, decimal. simpl. rewrite Hc.
  now rewrite scan_digits_app.
Qed.

Lemma scan_unsigned_inv (s r : string) (v : Z) :
  C.scan_unsigned s = Some (v, r) ->
  exists ds, all_digits ds = true /\ ds <> "" /\ s = ds ++ r /\ v = decimal ds
             /\ C.starts_with_digit r = false.
Proof.
  unfold C.scan_unsigned. destruct s as [|c s]; [discriminate|].
  destruct (C.isdigit c) eqn:Hc; [|discriminate].
  intros H. injection H as H.
  change (C.scan_digits 0 (String c s) = (v, r)) in H.
  destruct (scan_digits_inv _ _ _ _ H) as (ds & Hd & Hs & Hv & Hr).
  exists ds. repeat split; auto.
  intros ->. simpl in Hs. subst r. simpl in Hr. congruence.
Qed.

Lemma skip_space_app (ws s : string) :
  all_space ws = true -> C.skip_space (ws ++ s) = C.skip_space s.
Proof.
  induction ws as [|c ws IH]; simpl; [reflexivity|].
  intros H. apply andb_true_iff in H as [Hc H]. rewrite Hc. auto.
Qed.

Lemma skip_space_inv (s : string) :
  exists ws, all_space ws = true /\ s = ws ++ C.skip_space s.
Proof.
  induction s as [|c s (ws & Hw & Hs)]; [now exists ""|].
  simpl. destruct (C.isspace c) eqn:Hc.
  - exists (String c ws). simpl. rewrite Hc, Hw. split; [reflexivity|congruence].
  - now exists "".
Qed.

Lemma skip_space_digit (c : ascii) (s : string) :
  C.isdigit c = true -> C.skip_space (String c s) = String c s.
Proof.
  intros H. simpl.
  assert (C.isspace c = false) as ->; [|reflexivity].
  unfold C.isdigit, C.isspace in *. lia.
Qed.

Lemma digit_not_sign (c : ascii) :
  C.isdigit c = true -> c <> "-"%char /\ c <> "+"%char.
Proof. intros H; split; intros ->; discriminate H. Qed.

Lemma scan_d_complete (t r : string) (v : Z) :
  int_text t v -> C.starts_with_digit r = false ->
  C.scan_d (t ++ r) = Some (v, r).
Proof.
  intros Ht Hr. unfold C.scan_d.
  destruct Ht as [ws ds Hw Hd Hn | ws ds Hw Hd Hn | ws ds Hw Hd Hn];
    rewrite !append_assoc, skip_space_app by assumption.
  - destruct ds as [|c ds]; [congruence|].
    assert (Hc : C.isdigit c = true)
      by (simpl in Hd; now apply andb_true_iff in Hd).
    change (String c ds ++ r) with (String c (ds ++ r)).
    rewrite skip_space_digit by assumption.
    destruct (digit_not_sign c Hc) as [H1 H2].
    change (String c (ds ++ r)) with (String c ds ++ r).
    rewrite <- (scan_unsigned_app (String c ds) r Hd Hn Hr).
    simpl.
    destruct c as [[] [] [] [] [] [] [] []]; try reflexivity; congruence.
  - simpl. now apply scan_unsigned_app.
  - simpl. now rewrite scan_unsigned_app.
Qed.

Lemma scan_d_sound (s r : string) (v : Z) :
  C.scan_d s = Some (v, r) ->
  exists t, int_text t v /\ s = t ++ r /\ C.starts_with_digit r = false.
Proof.
  unfold C.scan_d. destruct (skip_space_inv s) as (ws & Hw & Hs).
  assert (Hu : forall v r, C.scan_unsigned (C.skip_space s) = Some (v, r) ->
    exists t, int_text t v /\ s = t ++ r /\ C.starts_with_digit r = false).
  { intros v' r' H. destruct (scan_unsigned_inv _ _ _ H) as (ds & Hd & Hn & Hs' & Hv & Hr).
    exists (ws ++ ds). subst v'. split; [now constructor|].
    split; [|assumption]. rewrite append_assoc, <- Hs'. exact Hs. }
  destruct (C.skip_space s) as [|c s'] eqn:Hk; [intros H; now apply Hu|].
  destruct (Ascii.eqb_spec c "-") as [->|Hm].
  - destruct (C.scan_unsigned s') as [[v' r']|] eqn:H'; [|discriminate].
    intros H; inversion H; subst.
    destruct (scan_unsigned_inv _ _ _ H') as (ds & Hd & Hn & Hs' & Hv & Hr).
    exists (ws ++ "-" ++ ds). subst v'. split; [now constructor|].
    split; [|assumption]. rewrite !append_assoc. simpl. congruence.
  - destruct (Ascii.eqb_spec c "+") as [->|Hp].
    + intros H'.
      destruct (scan_unsigned_inv _ _ _ H') as (ds & Hd & Hn & Hs' & Hv & Hr).
      exists (ws ++ "+" ++ ds). subst v. split; [now constructor|].
      split; [|assumption]. rewrite !append_assoc. simpl. congruence.
    + intros H. apply Hu.
      destruct c as [[] [] [] [] [] [] [] []]; try exact H; congruence.
Qed.

(** ** The two date formats *)

Lemma three_d_complete {V : Type} sep (f1 f2 f3 : Z -> V -> V) s a b c u :
  C.isdigit sep = false ->
  begins_with_three sep s a b c ->
  C.sscanf (three_d sep f1 f2 f3) s u = (3, f3 c (f2 b (f1 a u))).
Proof.
  intros Hsep (ta & tb & tc & rest & Ha & Hb & Hc & Hr & ->).
  unfold three_d. cbn [C.sscanf].
  rewrite (scan_d_complete ta _ a Ha) by exact Hsep.
  rewrite Ascii.eqb_refl.
  rewrite (scan_d_complete tb _ b Hb) by exact Hsep.
  rewrite Ascii.eqb_refl.
  rewrite (scan_d_complete tc _ c Hc) by exact Hr.
  reflexivity.
Qed.

Lemma three_d_sound {V : Type} sep (f1 f2 f3 : Z -> V -> V) s u t :
  C.sscanf (three_d sep f1 f2 f3) s u = (3, t) ->
  exists a b c, begins_with_three sep s a b c /\ t = f3 c (f2 b (f1 a u)).
Proof.
  unfold three_d. cbn [C.sscanf].
  destruct (C.scan_d s) as [[a r1]|] eqn:H1; [|discriminate].
  destruct (scan_d_sound _ _ _ H1) as (ta & Ha & -> & _).
  destruct r1 as [|c1 r1]; [discriminate|].
  destruct (Ascii.eqb_spec sep c1) as [<-|]; [|discriminate].
  destruct (C.scan_d r1) as [[b r2]|] eqn:H2; [|discriminate].
  destruct (scan_d_sound _ _ _ H2) as (tb & Hb & -> & _).
  destruct r2 as [|c2 r2]; [discriminate|].
  destruct (Ascii.eqb_spec sep c2) as [<-|]; [|discriminate].
  destruct (C.scan_d r2) as [[c r3]|] eqn:H3; [|discriminate].
  destruct (scan_d_sound _ _ _ H3) as (tc & Hc & -> & Hr).
  intros H. injection H as <-.
  exists a, b, c. split; [|reflexivity].
  now exists ta, tb, tc, r3.
Qed.

Lemma three_d_count {V : Type} sep (f1 f2 f3 : Z -> V -> V) s u :
  (forall a b c, ~ begins_with_three sep s a b c) ->
  fst (C.sscanf (three_d sep f1 f2 f3) s u) <> 3.
Proof.
  intros Hno H.
  destruct (C.sscanf (three_d sep f1 f2 f3) s u) as [n t] eqn:E.
  simpl in H. subst n.
  destruct (three_d_sound _ _ _ _ _ _ _ E) as (a & b & c & Hs & _).
  exact (Hno a b c Hs).
Qed.

Lemma shapes_exclusive s a b c a' b' c' :
  begins_with_three "-" s a b c -> begins_with_three "/" s a' b' c' -> False.
Proof.
  intros (ta & tb & tc & rest & Ha & _ & _ & _ & E)
         (ta' & tb' & tc' & rest' & Ha' & _ & _ & _ & E').
  pose proof (scan_d_complete ta (String "-" (tb ++ String "-" (tc ++ rest))) a Ha eq_refl) as H1.
  pose proof (scan_d_complete ta' (String "/" (tb' ++ String "/" (tc' ++ rest'))) a' Ha' eq_refl) as H2.
  rewrite <- E in H1. rewrite <- E' in H2. congruence.
Qed.

Lemma fmt_0d_length (w : nat) (n : Z) :
  (w <= String.length (C.fmt_0d w n))%nat.
Proof.
  assert (Hz : forall k, String.length (C.zeros k) = k)
    by (induction k; simpl; congruence).
  unfold C.fmt_0d. destruct (n <? 0); cbn [String.length];
    rewrite length_append, Hz; lia.
Qed.

Lemma sprintf_date_not_invalid (t : ymd) : sprintf_date t <> "invalid".
Proof.
  intros H. apply (f_equal String.length) in H.
  unfold sprintf_date in H. rewrite !length_append in H. simpl in H.
  pose proof (fmt_0d_length 4 (yy t)). pose proof (fmt_0d_length 2 (mm t)).
  pose proof (fmt_0d_length 2 (dd t)). lia.
Qed.

Lemma parse_date_dash u s y m d :
  begins_with_three "-" s y m d ->
  parse_date u s = sprintf_date {| yy := y; mm := m; dd := d |}.
Proof.
  intros H. unfold parse_date.
  change fmt_ymd_dash with (three_d "-" set_yy set_mm set_dd).
  now rewrite (three_d_complete "-" _ _ _ _ _ _ _ u eq_refl H).
Qed.

Lemma parse_date_slash u s d m y :
  begins_with_three "/" s d m y ->
  parse_date u s = sprintf_date {| yy := y; mm := m; dd := d |}.
Proof.
  intros H. unfold parse_date.
  change fmt_ymd_dash with (three_d "-" set_yy set_mm set_dd).
  change fmt_dmy_slash with (three_d "/" set_dd set_mm set_yy).
  destruct (C.sscanf (three_d "-" set_yy set_mm set_dd) s u) as [n t] eqn:E.
  destruct (Z.eqb_spec n 3) as [->|_].
  - destruct (three_d_sound _ _ _ _ _ _ _ E) as (a & b & c & Hs & _).
    destruct (shapes_exclusive _ _ _ _ _ _ _ Hs H).
  - now rewrite (three_d_complete "/" _ _ _ _ _ _ _ t eq_refl H).
Qed.

Lemma parse_date_other u s :
  (forall a b c, ~ begins_with_three "-" s a b c) ->
  (forall a b c, ~ begins_with_three "/" s a b c) ->
  parse_date u s = "invalid".
Proof.
  intros H1 H2. unfold parse_date.
  change fmt_ymd_dash with (three_d "-" set_yy set_mm set_dd).
  change fmt_dmy_slash with (three_d "/" set_dd set_mm set_yy).
  pose proof (three_d_count "-" set_yy set_mm set_dd s u H1) as N1.
  destruct (C.sscanf (three_d "-" set_yy set_mm set_dd) s u) as [n t].
  pose proof (three_d_count "/" set_dd set_mm set_yy s t H2) as N2.
  destruct (C.sscanf (three_d "/" set_dd set_mm set_yy) s t) as [n' t'].
  simpl in N1, N2.
  destruct (Z.eqb_spec n 3); [contradiction|].
  destruct (Z.eqb_spec n' 3); [contradiction|]. reflexivity.
Qed.

Lemma parse_date_valid_shape u s :
  parse_date u s <> "invalid" ->
  exists a b c, begins_with_three "-" s a b c \/ begins_with_three "/" s a b c.
Proof.
  unfold parse_date.
  change fmt_ymd_dash with (three_d "-" set_yy set_mm set_dd).
  change fmt_dmy_slash with (three_d "/" set_dd set_mm set_yy).
  destruct (C.sscanf (three_d "-" set_yy set_mm set_dd) s u) as [n t] eqn:E.
  destruct (Z.eqb_spec n 3) as [->|_].
  - intros _. destruct (three_d_sound _ _ _ _ _ _ _ E) as (a & b & c & Hs & _).
    exists a, b, c. now left.
  - destruct (C.sscanf (three_d "/" set_dd set_mm set_yy) s t) as [n' t'] eqn:E'.
    destruct (Z.eqb_spec n' 3) as [->|_]; [|congruence].
    intros _. destruct (three_d_sound _ _ _ _ _ _ _ E') as (a & b & c & Hs & _).
    exists a, b, c. now right.
Qed.
(** ** Writing and reading back a number *)

Lemma decimal_from_app (a : Z) (s1 s2 : string) :
  decimal_from a (s1 ++ s2) = decimal_from (decimal_from a s1) s2.
Proof. revert a. induction s1; simpl; auto. Qed.

Lemma all_digits_app (s1 s2 : string) :
  all_digits (s1 ++ s2) = all_digits s1 && all_digits s2.
Proof. induction s1; simpl; [reflexivity|]. now rewrite IHs1, andb_assoc. Qed.

Lemma digit_char_spec (k : Z) :
  0 <= k <= 9 ->
  C.isdigit (C.digit_char k) = true /\ C.digit_val (C.digit_char k) = k.
Proof.
  intros H.
  assert (k = 0 \/ k = 1 \/ k = 2 \/ k = 3 \/ k = 4 \/ k = 5 \/ k = 6
          \/ k = 7 \/ k = 8 \/ k = 9) as
    [->|[->|[->|[->|[->|[->|[->|[->|[->| ->]]]]]]]]] by lia;
    split; reflexivity.
Qed.

Lemma dec_loop_spec (fuel : nat) (n : Z) (acc : string) :
  0 <= n < 10 ^ Z.of_nat (S fuel) ->
  exists ds, C.dec_loop (S fuel) n acc = ds ++ acc /\ all_digits ds = true
             /\ ds <> "" /\ decimal ds = n.
Proof.
  revert n acc. induction fuel as [|fuel IH]; intros n acc Hn;
    cbn [C.dec_loop];
    assert (Hk : 0 <= n mod 10 <= 9) by (Z.div_mod_to_equations; lia);
    destruct (digit_char_spec _ Hk) as [Hc Hv];
    (destruct (Z.ltb_spec n 10) as [Hlt|Hge];
     [ exists (String (C.digit_char (n mod 10)) ""); simpl; rewrite Hc;
       repeat split; [discriminate|];
       unfold decimal; simpl; rewrite Hv; Z.div_mod_to_equations; lia |]).
  - change (10 ^ Z.of_nat 1) with 10 in Hn. lia.
  - destruct (IH (n / 10) (String (C.digit_char (n mod 10)) acc))
      as (ds & E & Hd & Hne & Hval).
    { rewrite Nat2Z.inj_succ, Z.pow_succ_r in Hn by lia.
      generalize dependent (10 ^ Z.of_nat (S fuel)). intros P _ Hn.
      clear Hc Hv Hk. pose proof (Z.div_mod n 10). pose proof (Z.mod_pos_bound n 10).
      lia. }
    exists (ds ++ String (C.digit_char (n mod 10)) "").
    cbn [C.dec_loop] in E. rewrite E, append_assoc. split; [reflexivity|].
    rewrite all_digits_app, Hd. simpl. rewrite Hc.
    split; [reflexivity|]. split; [now destruct ds|].
    unfold decimal in *. rewrite decimal_from_app, Hval.
    cbn [decimal_from]. rewrite Hv. Z.div_mod_to_equations; lia.
Qed.

Lemma dec_spec (n : Z) :
  0 <= n ->
  all_digits (C.dec n) = true /\ C.dec n <> "" /\ decimal (C.dec n) = n.
Proof.
  intros Hn. unfold C.dec.
  destruct (dec_loop_spec (Z.to_nat (Z.log2 n)) n "") as (ds & E & H).
  { split; [assumption|].
    rewrite Nat2Z.inj_succ, Z2Nat.id by apply Z.log2_nonneg.
    destruct (Z.eq_dec n 0) as [->|]; [reflexivity|].
    apply Z.lt_le_trans with (2 ^ Z.succ (Z.log2 n)).
    - apply Z.log2_spec. lia.
    - apply Z.pow_le_mono_l. lia. }
  rewrite E, append_nil_r. exact H.
Qed.

Lemma zeros_spec (k : nat) (s : string) :
  all_digits (C.zeros k ++ s) = all_digits s
  /\ decimal (C.zeros k ++ s) = decimal s.
Proof. induction k; simpl; auto. Qed.

Lemma fmt_0d_text (w : nat) (n : Z) : 0 <= n -> int_text (C.fmt_0d w n) n.
Proof.
  intros Hn. unfold C.fmt_0d.
  destruct (Z.ltb_spec n 0); [lia|].
  destruct (dec_spec n Hn) as (Hd & Hne & Hv).
  set (k := (w - String.length (C.dec n))%nat).
  destruct (zeros_spec k (C.dec n)) as [Hz1 Hz2].
  rewrite <- Hv at 2. rewrite <- Hz2.
  apply (int_plain "" (C.zeros k ++ C.dec n)); [reflexivity|congruence|].
  destruct k; [assumption|discriminate].
Qed.

Lemma sprintf_date_shape (t : ymd) :
  0 <= yy t -> 0 <= mm t -> 0 <= dd t ->
  begins_with_three "-" (sprintf_date t) (yy t) (mm t) (dd t).
Proof.
  intros Hy Hm Hd.
  exists (C.fmt_0d 4 (yy t)), (C.fmt_0d 2 (mm t)), (C.fmt_0d 2 (dd t)), "".
  repeat split; try now apply fmt_0d_text.
  unfold sprintf_date. now rewrite append_nil_r.
Qed.
(** ** The calendar and [mktime] *)

Lemma month_cases (m : Z) :
  1 <= m <= 12 ->
  m = 1 \/ m = 2 \/ m = 3 \/ m = 4 \/ m = 5 \/ m = 6 \/ m = 7 \/ m = 8
  \/ m = 9 \/ m = 10 \/ m = 11 \/ m = 12.
Proof. lia. Qed.

Lemma tm_days_of (t : ymd) :
  1 <= mm t <= 12 ->
  C.tm_days (tm_of t)
  = C.days_before_year (yy t) + C.days_before_month (yy t) (mm t - 1)
    + (dd t - 1) - 719162.
Proof.
  intros Hm. unfold C.tm_days, tm_of. cbn [C.tm_year C.tm_mon C.tm_mday].
  replace ((12 * (yy t - 1900 + 1900) + (mm t - 1)) / 12) with (yy t)
    by (Z.div_mod_to_equations; lia).
  replace ((12 * (yy t - 1900 + 1900) + (mm t - 1)) mod 12) with (mm t - 1)
    by (Z.div_mod_to_equations; lia).
  reflexivity.
Qed.

Lemma leap_year_length (y : Z) :
  C.days_before_year (y + 1)
  = C.days_before_year y + (if C.is_leap y then 366 else 365).
Proof.
  unfold C.days_before_year, C.is_leap.
  replace (y + 1 - 1) with y by lia.
  destruct (Z.eqb_spec (y mod 4) 0), (Z.eqb_spec (y mod 100) 0),
    (Z.eqb_spec (y mod 400) 0); cbn [andb orb negb];
    Z.div_mod_to_equations; lia.
Qed.

Lemma month_length (y m : Z) :
  1 <= m <= 11 ->
  C.days_before_month y m
  = C.days_before_month y (m - 1) + days_in_month y m.
Proof.
  intros Hm. unfold C.days_before_month, days_in_month.
  assert (H : 1 <= m <= 12) by lia.
  destruct (month_cases m H) as [->|[->|[->|[->|[->|[->|[->|[->|[->|[->|[->| ->]]]]]]]]]]];
    try lia; destruct (C.is_leap y); reflexivity.
Qed.

Lemma days_in_month_bounds (y m : Z) : 28 <= days_in_month y m <= 31.
Proof.
  unfold days_in_month.
  destruct (m =? 2), (C.is_leap y),
    ((m =? 4) || (m =? 6) || (m =? 9) || (m =? 11)); lia.
Qed.

Lemma days_before_january (y : Z) : C.days_before_month y 0 = 0.
Proof. unfold C.days_before_month. now destruct (C.is_leap y). Qed.

Lemma days_before_december (y : Z) :
  C.days_before_month y 11 = if C.is_leap y then 335 else 334.
Proof. unfold C.days_before_month. now destruct (C.is_leap y). Qed.

Lemma next_day_well_formed (t : ymd) : well_formed t -> well_formed (next_day t).
Proof.
  intros (Hy & Hm & Hd). unfold next_day, well_formed.
  destruct (Z.ltb_spec (dd t) (days_in_month (yy t) (mm t))).
  - cbn. lia.
  - destruct (Z.ltb_spec (mm t) 12); cbn [yy mm dd].
    + pose proof (days_in_month_bounds (yy t) (mm t + 1)). lia.
    + pose proof (days_in_month_bounds (yy t + 1) 1). lia.
Qed.

Lemma tm_days_next_day (t : ymd) :
  well_formed t ->
  C.tm_days (tm_of (next_day t)) = C.tm_days (tm_of t) + 1.
Proof.
  intros Hw. pose proof (next_day_well_formed t Hw) as (_ & Hm' & _).
  destruct Hw as (Hy & Hm & Hd).
  rewrite !tm_days_of by assumption. revert Hm'. unfold next_day.
  destruct (Z.ltb_spec (dd t) (days_in_month (yy t) (mm t))).
  - cbn. lia.
  - destruct (Z.ltb_spec (mm t) 12); cbn [yy mm dd]; intros _.
    + replace (mm t + 1 - 1) with (mm t) by lia.
      rewrite (month_length (yy t) (mm t)) by lia. lia.
    + assert (mm t = 12) as Hm12 by lia. rewrite Hm12 in *.
      change (1 - 1) with 0. change (12 - 1) with 11.
      rewrite leap_year_length, days_before_january, days_before_december.
      change (days_in_month (yy t) 12) with 31 in *.
      destruct (C.is_leap (yy t)); lia.
Qed.

Lemma days_later_count (t t' : ymd) (n : nat) :
  well_formed t -> days_later t n t' ->
  well_formed t' /\ yy t <= yy t'
  /\ C.tm_days (tm_of t') = C.tm_days (tm_of t) + Z.of_nat n.
Proof.
  intros Hw H. induction H as [|n t' H (IH1 & IH2 & IH3)].
  - split; [assumption|split; lia].
  - split; [now apply next_day_well_formed|].
    rewrite tm_days_next_day, IH3 by assumption.
    split; [|lia].
    unfold next_day. destruct (_ <? _); [cbn; lia|].
    destruct (_ <? _); cbn; lia.
Qed.

Lemma tm_days_bounds (t : ymd) :
  calendar_date t -> -719162 <= C.tm_days (tm_of t) <= 3000000.
Proof.
  intros ((Hy & Hm & Hd) & Hy'). rewrite tm_days_of by assumption.
  assert (0 <= C.days_before_month (yy t) (mm t - 1) <= 335).
  { unfold C.days_before_month.
    destruct (month_cases _ Hm) as [->|[->|[->|[->|[->|[->|[->|[->|[->|[->|[->| ->]]]]]]]]]]];
      destruct (C.is_leap (yy t)); split; vm_compute; discriminate. }
  pose proof (days_in_month_bounds (yy t) (mm t)).
  unfold C.days_before_year. Z.div_mod_to_equations. lia.
Qed.


Lemma sscanf_date_text (t : ymd) :
  0 <= yy t -> 0 <= mm t -> 0 <= dd t ->
  C.sscanf fmt_tm_dash (sprintf_date t) tm_zero
  = (3, {| C.tm_mday := dd t; C.tm_mon := mm t; C.tm_year := yy t;
           C.tm_wday := 0 |}).
Proof.
  intros Hy Hm Hd.
  change fmt_tm_dash with (three_d "-" set_tm_year set_tm_mon set_tm_mday).
  now rewrite (three_d_complete "-" _ _ _ _ _ _ _ tm_zero eq_refl
                 (sprintf_date_shape t Hy Hm Hd)).
Qed.

Lemma mktime_seconds (offset : Z) (t : C.tm) :
  fst (C.mktime offset t) = C.tm_days t * 86400 - offset.
Proof.
  unfold C.mktime. now destruct (C.civil_from_days (C.tm_days t)) as [[y m] d].
Qed.

(** Between two dates that are written with non-negative numbers,
    [calculate_duration] is the difference of the day numbers that
    [mktime] gives them. *)
Lemma calculate_duration_days (offset : Z) (ci co : ymd) :
  0 <= yy ci -> 0 <= mm ci -> 0 <= dd ci ->
  0 <= yy co -> 0 <= mm co -> 0 <= dd co ->
  calculate_duration offset (sprintf_date ci) (sprintf_date co)
  = C.to_int (C.tm_days (tm_of co) - C.tm_days (tm_of ci)).
Proof.
  intros. unfold calculate_duration.
  rewrite !sscanf_date_text by assumption. cbn [snd].
  rewrite !mktime_seconds. f_equal.
  unfold set_tm_mon, set_tm_year.
  cbn [C.tm_mday C.tm_mon C.tm_year C.tm_wday].
  fold (tm_of ci). fold (tm_of co).
  replace (C.tm_days (tm_of co) * 86400 - offset
           - (C.tm_days (tm_of ci) * 86400 - offset))
    with ((C.tm_days (tm_of co) - C.tm_days (tm_of ci)) * (60 * 60 * 24))
    by lia.
  apply Z.quot_mul. discriminate.
Qed.

Lemma calculate_duration_later (offset : Z) (ci co : ymd) (n : nat) :
  calendar_date ci -> calendar_date co -> days_later ci n co ->
  calculate_duration offset (sprintf_date ci) (sprintf_date co) = Z.of_nat n.
Proof.
  intros Hi Ho Hn.
  pose proof (tm_days_bounds ci Hi). pose proof (tm_days_bounds co Ho).
  destruct Hi as [Wi Yi], Ho as [Wo Yo].
  destruct (days_later_count ci co n Wi Hn) as (_ & _ & E).
  pose proof (days_in_month_bounds (yy ci) (mm ci)).
  pose proof (days_in_month_bounds (yy co) (mm co)).
  destruct Wi as (? & ? & ?), Wo as (? & ? & ?).
  rewrite calculate_duration_days by lia.
  unfold C.to_int. rewrite E.
  replace (C.tm_days (tm_of ci) + Z.of_nat n - C.tm_days (tm_of ci))
    with (Z.of_nat n) by lia.
  rewrite Z.mod_small; [lia|].
  change (2 ^ 31) with 2147483648. change (2 ^ 32) with 4294967296. lia.
Qed.

(** *** Every later date is some number of days later *)

Lemma days_later_left (t t' : ymd) (n : nat) :
  days_later (next_day t) n t' -> days_later t (S n) t'.
Proof.
  induction 1 as [|n t' _ IH].
  - exact (later_S t O t (later_O t)).
  - exact (later_S t (S n) t' IH).
Qed.

Lemma ymd_eq (t t' : ymd) :
  yy t = yy t' -> mm t = mm t' -> dd t = dd t' -> t = t'.
Proof. destruct t, t'; cbn; intros; now subst. Qed.

Lemma next_day_towards (t t' : ymd) :
  well_formed t -> well_formed t' -> date_before t t' ->
  (next_day t = t' \/ date_before (next_day t) t')
  /\ rank t < rank (next_day t).
Proof.
  intros (Hy & Hm & Hd) (Hy' & Hm' & Hd') Hb.
  pose proof (days_in_month_bounds (yy t) (mm t)).
  pose proof (days_in_month_bounds (yy t') (mm t')).
  unfold next_day, date_before, rank in *.
  destruct (Z.ltb_spec (dd t) (days_in_month (yy t) (mm t)));
    [|destruct (Z.ltb_spec (mm t) 12)]; cbn [yy mm dd set_dd];
    (split; [|lia]).
  - destruct (Z.eq_dec (yy t) (yy t')) as [Ey|];
      [destruct (Z.eq_dec (mm t) (mm t')) as [Em|];
       [destruct (Z.eq_dec (dd t + 1) (dd t')) as [Ed|]|]|];
      try (right; lia).
    left. apply ymd_eq; cbn; assumption.
  - destruct (Z.eq_dec (yy t) (yy t')) as [Ey|];
      [destruct (Z.eq_dec (mm t + 1) (mm t')) as [Em|];
       [destruct (Z.eq_dec 1 (dd t')) as [Ed|]|]|];
      try (right; cbn; lia).
    + left. apply ymd_eq; cbn; assumption.
    + assert (mm t = mm t' -> False).
      { intros E. rewrite E, Ey in *. lia. }
      right. cbn. lia.
  - destruct (Z.eq_dec (yy t + 1) (yy t')) as [Ey|];
      [destruct (Z.eq_dec 1 (mm t')) as [Em|];
       [destruct (Z.eq_dec 1 (dd t')) as [Ed|]|]|];
      try (right; cbn; lia).
    + left. apply ymd_eq; cbn; assumption.
    + assert (yy t = yy t' -> False).
      { intros E. assert (mm t = 12) as E12 by lia.
        destruct Hb as [?|[[_ ?]|[_ [Em ?]]]]; try lia.
        rewrite <- Em, E in *. lia. }
      right. cbn. lia.
Qed.

Lemma date_before_rank (t t' : ymd) :
  well_formed t -> well_formed t' -> date_before t t' -> rank t < rank t'.
Proof.
  intros (Hy & Hm & Hd) (Hy' & Hm' & Hd') Hb.
  pose proof (days_in_month_bounds (yy t) (mm t)).
  pose proof (days_in_month_bounds (yy t') (mm t')).
  unfold date_before, rank in *. lia.
Qed.

Lemma days_later_exists (k : nat) (t t' : ymd) :
  well_formed t -> well_formed t' -> date_before t t' ->
  rank t' - rank t <= Z.of_nat k ->
  exists n, days_later t (S n) t'.
Proof.
  revert t. induction k as [|k IH]; intros t Hw Hw' Hb Hk.
  - pose proof (date_before_rank t t' Hw Hw' Hb). lia.
  - destruct (next_day_towards t t' Hw Hw' Hb) as [[E|Hb'] Hr].
    + exists O. rewrite <- E. exact (later_S t O t (later_O t)).
    + destruct (IH (next_day t) (next_day_well_formed t Hw) Hw' Hb')
        as [n Hn]; [lia|].
      exists (S n). now apply days_later_left.
Qed.

(** Between two dates of the calendar, the earlier first,
    [calculate_duration] is the number of days from the one to the
    other, and that number is not zero. *)
Lemma calculate_duration_between (offset : Z) (ci co : ymd) :
  calendar_date ci -> calendar_date co -> date_before ci co ->
  exists n,
    days_later ci (S n) co
    /\ calculate_duration offset (sprintf_date ci) (sprintf_date co)
       = Z.of_nat (S n).
Proof.
  intros Hi Ho Hb.
  destruct (days_later_exists (Z.to_nat (rank co - rank ci)) ci co
              (proj1 Hi) (proj1 Ho) Hb) as [n Hn]; [lia|].
  exists n. split; [exact Hn|]. now apply calculate_duration_later.
Qed.

(** ** Dates in order: [strcmp] on zero-padded dates *)

Lemma dec_loop_length (fuel : nat) (n : Z) (acc : string) (k : nat) :
  0 <= n < 10 ^ Z.of_nat fuel -> n < 10 ^ Z.of_nat (S k) ->
  (String.length (C.dec_loop fuel n acc) <= S k + String.length acc)%nat.
Proof.
  revert n acc k. induction fuel as [|fuel IH]; intros n acc k Hn Hk;
    cbn [C.dec_loop]; [lia|].
  destruct (Z.ltb_spec n 10) as [Hlt|Hge]; [cbn [String.length]; lia|].
  destruct k as [|k]; [change (10 ^ Z.of_nat 1) with 10 in Hk; lia|].
  rewrite Nat2Z.inj_succ, Z.pow_succ_r in Hn, Hk by lia.
  pose proof (Z.div_mod n 10). pose proof (Z.mod_pos_bound n 10).
  assert (H1 : 0 <= n / 10 < 10 ^ Z.of_nat fuel) by lia.
  assert (H2 : n / 10 < 10 ^ Z.of_nat (S k)) by lia.
  pose proof (IH (n / 10) (String (C.digit_char (n mod 10)) acc) k H1 H2) as L.
  cbn [String.length] in L. lia.
Qed.

Lemma zeros_length (k : nat) : String.length (C.zeros k) = k.
Proof. induction k; simpl; congruence. Qed.

(** A number below [10 ^ w] is written by [%0wd] in [w] digits. *)
Lemma fmt_0d_fixed (w : nat) (n : Z) :
  0 <= n < 10 ^ Z.of_nat (S w) ->
  all_digits (C.fmt_0d (S w) n) = true
  /\ String.length (C.fmt_0d (S w) n) = S w
  /\ decimal (C.fmt_0d (S w) n) = n.
Proof.
  intros Hn. unfold C.fmt_0d. destruct (Z.ltb_spec n 0); [lia|].
  destruct (dec_spec n (proj1 Hn)) as (Hd & Hne & Hv).
  destruct (zeros_spec (S w - String.length (C.dec n)) (C.dec n)) as [Hz1 Hz2].
  rewrite Hz1, Hz2, length_append, zeros_length. repeat split; try assumption.
  assert (String.length (C.dec n) <= S w)%nat; [|lia].
  unfold C.dec.
  pose proof (dec_loop_length (S (Z.to_nat (Z.log2 n))) n "" w) as H0.
  cbn [String.length] in H0. rewrite Nat.add_0_r in H0. apply H0; [|lia].
  split; [lia|].
  rewrite Nat2Z.inj_succ, Z2Nat.id by apply Z.log2_nonneg.
  destruct (Z.eq_dec n 0) as [->|]; [reflexivity|].
  apply Z.lt_le_trans with (2 ^ Z.succ (Z.log2 n)).
  - apply Z.log2_spec. lia.
  - apply Z.pow_le_mono_l. lia.
Qed.

Lemma decimal_from_shift (acc : Z) (s : string) :
  decimal_from acc s = acc * 10 ^ Z.of_nat (String.length s) + decimal s.
Proof.
  unfold decimal. revert acc. induction s as [|c s IH]; intros acc.
  - cbn. lia.
  - cbn [decimal_from String.length]. rewrite IH, (IH (10 * 0 + _)).
    rewrite Nat2Z.inj_succ, Z.pow_succ_r by lia. lia.
Qed.

Lemma digit_val_range (c : ascii) :
  C.isdigit c = true -> 0 <= C.digit_val c <= 9.
Proof. unfold C.isdigit, C.digit_val. lia. Qed.

Lemma decimal_bounds (s : string) :
  all_digits s = true -> 0 <= decimal s < 10 ^ Z.of_nat (String.length s).
Proof.
  induction s as [|c s IH]; [cbn; lia|].
  cbn [all_digits]. intros H. apply andb_true_iff in H as [Hc Hs].
  specialize (IH Hs). pose proof (digit_val_range c Hc).
  unfold decimal in *. cbn [decimal_from String.length].
  rewrite decimal_from_shift, Nat2Z.inj_succ, Z.pow_succ_r by lia.
  unfold decimal. nia.
Qed.

Lemma ascii_compare_code (c d : ascii) :
  Ascii.compare c d = (C.code c ?= C.code d).
Proof. unfold Ascii.compare, C.code. now rewrite N2Z.inj_compare. Qed.

(** Digit strings of the same length compare as their numbers. *)
Lemma compare_digits (a b : string) :
  all_digits a = true -> all_digits b = true ->
  String.length a = String.length b ->
  String.compare a b = (decimal a ?= decimal b).
Proof.
  revert b. induction a as [|c a IH]; intros [|d b] Ha Hb Hl;
    try discriminate Hl; [reflexivity|].
  cbn [all_digits] in Ha, Hb.
  apply andb_true_iff in Ha as [Hc Ha]. apply andb_true_iff in Hb as [Hd Hb].
  injection Hl as Hl. specialize (IH b Ha Hb Hl).
  pose proof (decimal_bounds a Ha) as Ba.
  pose proof (decimal_bounds b Hb) as Bb. rewrite <- Hl in Bb.
  pose proof (digit_val_range c Hc). pose proof (digit_val_range d Hd).
  cbn [String.compare]. rewrite ascii_compare_code.
  unfold decimal in *. cbn [decimal_from].
  rewrite (decimal_from_shift _ a), (decimal_from_shift _ b), <- Hl.
  unfold decimal. set (P := 10 ^ Z.of_nat (String.length a)) in *.
  unfold C.digit_val in *.
  destruct (Z.compare_spec (C.code c) (C.code d)) as [E|L|G].
  - rewrite IH, E. symmetry.
    destruct (Z.compare_spec (decimal_from 0 a) (decimal_from 0 b));
      [apply Z.compare_eq_iff|apply Z.compare_lt_iff|apply Z.compare_gt_iff];
      nia.
  - symmetry. apply Z.compare_lt_iff. nia.
  - symmetry. apply Z.compare_gt_iff. nia.
Qed.

Lemma compare_app (a b s s' : string) :
  String.length a = String.length b ->
  String.compare (a ++ s) (b ++ s')
  = match String.compare a b with
    | Eq => String.compare s s'
    | r => r
    end.
Proof.
  revert b. induction a as [|c a IH]; intros [|d b] Hl;
    try discriminate Hl; [reflexivity|].
  injection Hl as Hl. cbn [append String.compare].
  destruct (Ascii.compare c d); [now apply IH|reflexivity|reflexivity].
Qed.

(** On dates of the calendar written with ["%04d-%02d-%02d"], [strcmp]
    is the order of the calendar. *)
Lemma strcmp_dates (t t' : ymd) :
  calendar_date t -> calendar_date t' ->
  (C.strcmp (sprintf_date t) (sprintf_date t') < 0 <-> date_before t t')
  /\ (C.strcmp (sprintf_date t) (sprintf_date t') = 0 <-> t = t').
Proof.
  intros ((Hy & Hm & Hd) & Hy9) ((Hy' & Hm' & Hd') & Hy9').
  pose proof (days_in_month_bounds (yy t) (mm t)).
  pose proof (days_in_month_bounds (yy t') (mm t')).
  destruct (fmt_0d_fixed 3 (yy t)) as (Y1 & Y2 & Y3);
    [change (10 ^ Z.of_nat 4) with 10000; lia|].
  destruct (fmt_0d_fixed 3 (yy t')) as (Y1' & Y2' & Y3');
    [change (10 ^ Z.of_nat 4) with 10000; lia|].
  destruct (fmt_0d_fixed 1 (mm t)) as (M1 & M2 & M3);
    [change (10 ^ Z.of_nat 2) with 100; lia|].
  destruct (fmt_0d_fixed 1 (mm t')) as (M1' & M2' & M3');
    [change (10 ^ Z.of_nat 2) with 100; lia|].
  destruct (fmt_0d_fixed 1 (dd t)) as (D1 & D2 & D3);
    [change (10 ^ Z.of_nat 2) with 100; lia|].
  destruct (fmt_0d_fixed 1 (dd t')) as (D1' & D2' & D3');
    [change (10 ^ Z.of_nat 2) with 100; lia|].
  unfold C.strcmp, sprintf_date.
  rewrite compare_app by congruence.
  change ("-" ++ ?x) with (String "-" x). cbn [String.compare].
  change (Ascii.compare "-" "-") with Eq. cbv iota.
  rewrite compare_app by congruence.
  change ("-" ++ ?x) with (String "-" x). cbn [String.compare].
  change (Ascii.compare "-" "-") with Eq. cbv iota.
  rewrite !compare_digits by congruence.
  rewrite Y3, Y3', M3, M3', D3, D3'.
  unfold date_before.
  destruct (Z.compare_spec (yy t) (yy t'));
    [destruct (Z.compare_spec (mm t) (mm t'));
     [destruct (Z.compare_spec (dd t) (dd t'))|..]|..];
    (split; split; intros X; try lia; try discriminate X;
     try (apply ymd_eq; assumption);
     try (subst t'; lia)).
Qed.

(** ** Normalising a date *)

Lemma string_forall_app (p : ascii -> bool) (a b : string) :
  string_forall p (a ++ b) = string_forall p a && string_forall p b.
Proof. induction a; simpl; [reflexivity|]. now rewrite IHa, andb_assoc. Qed.

Lemma all_digits_weaken (sep : ascii) (s : string) :
  all_digits s = true ->
  string_forall (fun c => C.isdigit c || Ascii.eqb c sep) s = true.
Proof.
  induction s as [|c s IH]; simpl; [reflexivity|].
  intros H. apply andb_true_iff in H as [Hc Hs]. now rewrite Hc, IH.
Qed.

Lemma exactly_three_chars (sep : ascii) (s : string) :
  exactly_three sep s ->
  string_forall (fun c => C.isdigit c || Ascii.eqb c sep) s = true.
Proof.
  intros (a & b & c & Ha & _ & Hb & _ & Hc & _ & ->).
  rewrite string_forall_app. cbn [string_forall].
  rewrite string_forall_app. cbn [string_forall].
  rewrite !all_digits_weaken, Ascii.eqb_refl, orb_true_r by assumption.
  reflexivity.
Qed.

(** C6, as stated, fails.  "2025-03-10xyz" is in neither shape, and it is
    normalised to "2025-03-10", not to the sentinel. *)
Lemma trailing_text_is_accepted :
  ~ exactly_three "-" "2025-03-10xyz"
  /\ ~ exactly_three "/" "2025-03-10xyz"
  /\ (forall u, parse_date u "2025-03-10xyz" = "2025-03-10")
  /\ "2025-03-10" <> "invalid".
Proof.
  split; [|split; [|split]].
  - intros H. apply exactly_three_chars in H. discriminate H.
  - intros H. apply exactly_three_chars in H. discriminate H.
  - intros u. vm_compute. reflexivity.
  - discriminate.
Qed.

(** C6, amended.  A text that begins with three integers separated by
    [-] (each with white space and a sign before its digits, if any, and
    whatever follows the third), each of which fits an [int], is
    normalised to these integers written with ["%04d-%02d-%02d"]; one that
    begins with three such integers separated by [/] is normalised to
    them in the reverse order; a text that begins with three integers in
    neither way is normalised to "invalid".  Normalising the result again
    leaves it as it is.  The three examples hold. *)
Theorem parse_date_shapes (u : ymd) (s : string) :
  (forall y m d,
     begins_with_three "-" s y m d ->
     fits_int y -> fits_int m -> fits_int d ->
     parse_date u s = sprintf_date {| yy := y; mm := m; dd := d |})
  /\ (forall d m y,
        begins_with_three "/" s d m y ->
        fits_int d -> fits_int m -> fits_int y ->
        parse_date u s = sprintf_date {| yy := y; mm := m; dd := d |})
  /\ ((forall a b c, ~ begins_with_three "-" s a b c) ->
      (forall a b c, ~ begins_with_three "/" s a b c) ->
      parse_date u s = "invalid")
  /\ (forall t, 0 <= yy t -> 0 <= mm t -> 0 <= dd t ->
                fits_int (yy t) -> fits_int (mm t) -> fits_int (dd t) ->
                parse_date u (sprintf_date t) = sprintf_date t)
  /\ parse_date u "2025-03-10" = "2025-03-10"
  /\ parse_date u "10/03/2025" = "2025-03-10"
  /\ parse_date u "not-a-date" = "invalid".
Proof.
  split; [intros y m d H _ _ _; exact (parse_date_dash u s y m d H)|].
  split; [intros d m y H _ _ _; exact (parse_date_slash u s d m y H)|].
  split; [exact (parse_date_other u s)|].
  split; [|repeat split; vm_compute; reflexivity].
  intros t Hy Hm Hd _ _ _.
  rewrite (parse_date_dash u _ _ _ _ (sprintf_date_shape t Hy Hm Hd)).
  now destruct t.
Qed.

(** The theorem at work, on a text with white space and with words after
    the date. *)
Lemma parse_date_shapes_witness :
  begins_with_three "/" " 7/ 3/2025 at noon" 7 3 2025
  /\ fits_int 7 /\ fits_int 3 /\ fits_int 2025
  /\ parse_date march_10 " 7/ 3/2025 at noon" = "2025-03-07".
Proof.
  assert (H : begins_with_three "/" " 7/ 3/2025 at noon" 7 3 2025).
  { exists " 7", " 3", "2025", " at noon".
    split; [apply (int_plain " " "7"); [reflexivity|reflexivity|discriminate]|].
    split; [apply (int_plain " " "3"); [reflexivity|reflexivity|discriminate]|].
    split; [apply (int_plain "" "2025"); [reflexivity|reflexivity|discriminate]|].
    split; reflexivity. }
  assert (H7 : fits_int 7) by (unfold fits_int; lia).
  assert (H3 : fits_int 3) by (unfold fits_int; lia).
  assert (H2025 : fits_int 2025) by (unfold fits_int; lia).
  split; [exact H|]. split; [exact H7|]. split; [exact H3|].
  split; [exact H2025|].
  exact (proj1 (proj2 (parse_date_shapes march_10 " 7/ 3/2025 at noon"))
           7 3 2025 H H7 H3 H2025).
Defined.

(** ** Files whose lines are read back as they were written *)

Lemma written_length (size : nat) (ls : list string) :
  Forall (is_line size) ls ->
  (List.length ls <= String.length (written ls))%nat.
Proof.
  induction 1 as [|l ls [Hne _] _ IH]; simpl; [lia|].
  rewrite length_append. destruct l; [congruence|]. simpl. lia.
Qed.

Lemma fgets_loop_written (size : nat) (ls : list string) (fuel : nat) :
  Forall (is_line size) ls -> (List.length ls <= fuel)%nat ->
  C.fgets_loop fuel size (written ls) = ls.
Proof.
  intros H. revert fuel. induction H as [|l ls [Hne Hl] _ IH]; intros fuel Hf.
  - now destruct fuel.
  - destruct fuel as [|fuel]; [simpl in Hf; lia|].
    cbn [written C.fgets_loop].
    destruct (l ++ written ls) as [|c s] eqn:E.
    + destruct l; [congruence|discriminate].
    + rewrite <- E, Hl. f_equal. apply IH. simpl in Hf. lia.
Qed.

Lemma fgets_written (size : nat) (ls : list string) :
  Forall (is_line size) ls -> C.fgets_lines size (written ls) = ls.
Proof.
  intros H. apply fgets_loop_written; [assumption|].
  now apply written_length with size.
Qed.

Lemma read_bookings_back (bs : list Booking) (array : nat -> Booking)
    (i : nat) (id : Z) :
  Forall reads_back_booking bs ->
  read_bookings (map booking_line bs) array i id
  = map (fun b => if booking_id b =? id
                  then set_booking_status "canceled" b else b) bs.
Proof.
  intros H. revert i. induction H as [|b bs Hb _ IH]; intros i;
    [reflexivity|].
  cbn [map read_bookings]. now rewrite Hb, IH.
Qed.

Lemma read_rooms_back (rs : list Room) (array : nat -> Room) (i : nat)
    (f : Room -> Room) :
  Forall reads_back_room rs ->
  read_rooms (map room_line rs) array i f = map f rs.
Proof.
  intros H. revert i. induction H as [|r rs Hr _ IH]; intros i;
    [reflexivity|].
  cbn [map read_rooms]. now rewrite Hr, IH.
Qed.

Lemma find_price_back (rs : list Room) (u : Room) (number nights : Z)
    (price0 : C.float) :
  Forall reads_back_room rs ->
  find_price_loop (map room_line rs) u number nights price0
  = match find (fun r => room_number r =? number) rs with
    | Some r => C.fmul (price r) (C.float_of_int nights)
    | None => price0
    end.
Proof.
  intros H. revert u. induction H as [|r rs Hr _ IH]; intros u;
    [reflexivity|].
  cbn [map find_price_loop find]. rewrite Hr. cbn [snd].
  destruct (room_number r =? number); [reflexivity|apply IH].
Qed.

Lemma set_BOOKING_FILE_same (fs : files) (text : string) :
  BOOKING_FILE fs = Some text -> set_BOOKING_FILE text fs = fs.
Proof. destruct fs; cbn; now intros ->. Qed.

Lemma set_ROOM_FILE_same (fs : files) (text : string) :
  ROOM_FILE fs = Some text -> set_ROOM_FILE text fs = fs.
Proof. destruct fs; cbn; now intros ->. Qed.

(** A closed line is one [fgets]; a closed record is read back. *)
Ltac closed_line :=
  split; [discriminate | intros rest; vm_compute; reflexivity].

Ltac closed_lines := repeat (constructor; [closed_line|]); constructor.

Ltac closed_records :=
  repeat (constructor; [intros u; vm_compute; reflexivity|]); constructor.


(** ** Booking *)

(** X3.  On a booking file whose lines are read back as they were
    written, [is_room_available] refuses exactly the windows that meet an
    active booking of the room: a booking of that room number with the
    status [active], whose check-in date is before the check-out date
    asked for and whose check-out date is after the check-in date asked
    for, as [strcmp] orders the texts. *)
Lemma is_room_available_read_back (fs : files) (u : Booking)
    (bs : list Booking) (text : string) (room : Z)
    (check_in check_out : string) :
  BOOKING_FILE fs = Some text -> booking_file_of (MAX_LEN * 3) bs text ->
  is_room_available fs u room check_in check_out
  = negb (existsb (blocks room check_in check_out) bs).
Proof.
  intros Hf (-> & Hback & Hline). unfold is_room_available. rewrite Hf.
  unfold write_bookings. rewrite fgets_written by assumption.
  clear Hf Hline. revert u.
  induction Hback as [|b bs Hb _ IH]; intros u; [reflexivity|].
  cbn [map is_room_available_loop existsb]. rewrite Hb. cbn [snd].
  unfold blocks at 1.
  destruct ((booked_room b =? room)
            && (C.strcmp (booking_status b) "active" =? 0)); [|apply IH].
  cbn [andb].
  destruct ((C.strcmp check_out (check_in_date b) <=? 0)
            || (0 <=? C.strcmp check_in (check_out_date b)));
    [apply IH|reflexivity].
Qed.

Lemma alice_line_hides_window (u : Booking) :
  is_room_available files_alice_booked u 101 "2025-06-02" "2025-06-04" = true.
Proof.
  vm_compute.
  match goal with |- context [match ?x with _ => _ end] => destruct x end;
    reflexivity.
Qed.

(** C1.  From the fresh files alice books room 101 from 2025-06-01 to
    2025-06-03; the line appended is that of an active booking whose
    window meets the window from 2025-06-02 to 2025-06-04.  Whatever the
    locals hold, [is_room_available] then finds the room available for
    that window, and bob's booking of it is confirmed: the file holds two
    active bookings of room 101 that overlap. *)
Theorem overlapping_bookings_accepted (l1 l2 : book_locals) :
  on_book_room_clicked fresh_files clock_1 l1 "alice" (Some 101)
    "2025-06-01" "2025-06-03"
  = Status (BookingConfirmed 858400 f200 2) files_alice_booked
  /\ BOOKING_FILE files_alice_booked = Some (booking_line alice_booking)
  /\ blocks 101 "2025-06-02" "2025-06-04" alice_booking = true
  /\ is_room_available files_alice_booked (available_vars l2) 101
       "2025-06-02" "2025-06-04" = true
  /\ on_book_room_clicked files_alice_booked clock_2 l2 "bob" (Some 101)
       "2025-06-02" "2025-06-04"
     = Status (BookingConfirmed 858460 f200 2) files_both_booked.
Proof.
  split; [vm_compute; reflexivity|].
  split; [vm_compute; reflexivity|].
  split; [vm_compute; reflexivity|].
  split; [apply alice_line_hides_window|].
  unfold on_book_room_clicked.
  change (parse_date (in_ymd l2) "2025-06-02") with "2025-06-02".
  change (parse_date (out_ymd l2) "2025-06-04") with "2025-06-04".
  rewrite alice_line_hides_window. vm_compute. reflexivity.
Qed.

(** C2.  Bob's profile has an empty full name.  His booking is confirmed,
    under the name and id number that [sscanf] left in the arrays from
    alice's line.  A user without a profile, and a user whose profile has
    an e-mail address, do not get a message at all: [get_user_profile]
    stores through the [NULL] it was given. *)
Theorem empty_full_name_not_reported (l : book_locals) :
  on_book_room_clicked files_bob_unnamed clock_1 l "bob" (Some 101)
    "2025-06-01" "2025-06-03"
  = Status (BookingConfirmed 858400 f200 2) files_bob_unnamed_booked
  /\ on_book_room_clicked fresh_files clock_1 l "carol" (Some 101)
       "2025-06-01" "2025-06-03" = Undefined
  /\ on_book_room_clicked files_with_email clock_1 l "alice" (Some 101)
       "2025-06-01" "2025-06-03" = Undefined.
Proof. repeat split; vm_compute; reflexivity. Qed.

Lemma string_compare_refl (s : string) : String.compare s s = Eq.
Proof.
  induction s as [|c s IH]; [reflexivity|]. cbn [String.compare].
  unfold Ascii.compare. now rewrite N.compare_refl.
Qed.

Lemma strcmp_eq (a b : string) : (C.strcmp a b =? 0) = String.eqb a b.
Proof.
  unfold C.strcmp. destruct (String.eqb_spec a b) as [->|Hne].
  - now rewrite string_compare_refl.
  - destruct (String.compare a b) eqn:E; try reflexivity.
    now apply String.compare_eq_iff in E.
Qed.

(** X1.  With a user logged in and a room selected,
    [on_book_room_clicked] refuses in this order, each time with its own
    message and with the files as they were: a date that [parse_date]
    gives as [invalid]; a check-out date that [strcmp] does not put after
    the check-in date; a check-in date that [is_date_in_future] rejects;
    a room that [is_room_available] finds taken. *)
Lemma book_refusals_in_order (fs : files) (ck : clock) (l : book_locals)
    (user : string) (number : Z) (checkin checkout : string) :
  user <> "" ->
  let check_in := parse_date (in_ymd l) checkin in
  let check_out := parse_date (out_ymd l) checkout in
  let o := on_book_room_clicked fs ck l user (Some number) checkin checkout in
  (check_in = "invalid" \/ check_out = "invalid" ->
   o = Status InvalidDateFormat fs)
  /\ (check_in <> "invalid" -> check_out <> "invalid" ->
      (0 <= C.strcmp check_in check_out -> o = Status CheckoutNotAfterCheckin fs)
      /\ (C.strcmp check_in check_out < 0 ->
          (is_date_in_future (today ck) check_in = false ->
           o = Status CheckinInPast fs)
          /\ (is_date_in_future (today ck) check_in = true ->
              is_room_available fs (available_vars l) number check_in
                check_out = false ->
              o = Status RoomUnavailable fs))).
Proof.
  intros Hu check_in check_out o. subst o. unfold on_book_room_clicked.
  fold check_in. fold check_out.
  assert ((C.strlen user =? 0) = false) as ->
    by (destruct user; [congruence|reflexivity]).
  rewrite !strcmp_eq. split.
  - intros [->| ->]; [reflexivity|].
    now rewrite String.eqb_refl, orb_true_r.
  - intros H1 H2. apply String.eqb_neq in H1, H2. rewrite H1, H2.
    cbn [orb]. split.
    + intros H. now destruct (Z.leb_spec 0 (C.strcmp check_in check_out)); [|lia].
    + intros H. destruct (Z.leb_spec 0 (C.strcmp check_in check_out)); [lia|].
      split; [now intros ->|]. now intros -> ->.
Qed.

(** X2.  Whenever [on_book_room_clicked] ends with one of its refusals
    (no user, no room selected, a date not read, check-out not after
    check-in, check-in in the past, room taken, profile incomplete), the
    three files are as they were before the call. *)
Lemma book_refusal_keeps_files (fs : files) (ck : clock) (l : book_locals)
    (user : string) (selected : option Z) (checkin checkout : string)
    (msg : message) (fs' : files) :
  on_book_room_clicked fs ck l user selected checkin checkout = Status msg fs' ->
  is_refusal msg = true -> fs' = fs.
Proof.
  unfold on_book_room_clicked.
  destruct (C.strlen user =? 0); [now intros [= <- <-]|].
  destruct selected as [number|]; [|now intros [= <- <-]].
  destruct (_ || _); [now intros [= <- <-]|].
  destruct (0 <=? _); [now intros [= <- <-]|].
  destruct (negb (is_date_in_future _ _)); [now intros [= <- <-]|].
  destruct (negb (is_room_available _ _ _ _ _)); [now intros [= <- <-]|].
  destruct (get_user_profile _ _ _) as [p|]; [|discriminate].
  destruct (_ || _); [now intros [= <- <-]|].
  cbv zeta. cbn [ROOM_FILE set_BOOKING_FILE].
  destruct (ROOM_FILE fs) as [text|]; [|intros [= <- <-]; discriminate].
  destruct (MAX_ROOMS <? _); [discriminate|].
  intros [= <- <-]. discriminate.
Qed.

(** What a confirmation tells: the checks have passed, the night count is
    that of [calculate_duration] on the two normalised dates, and the line
    appended holds the total of the message. *)
Lemma book_confirmed_inv (fs : files) (ck : clock) (l : book_locals)
    (user : string) (selected : option Z) (checkin checkout : string)
    (id nights : Z) (total : C.float) (fs' : files) :
  on_book_room_clicked fs ck l user selected checkin checkout
  = Status (BookingConfirmed id total nights) fs' ->
  exists number text,
    selected = Some number /\ ROOM_FILE fs = Some text
    /\ nights = calculate_duration (utc_offset ck)
                  (parse_date (in_ymd l) checkin)
                  (parse_date (out_ymd l) checkout)
    /\ total = find_price_loop (C.fgets_lines MAX_LEN text) (price_room l)
                 number nights C.fzero
    /\ BOOKING_FILE fs'
       = Some (append_text (BOOKING_FILE fs)
                 (booking_line
                    {| booking_id := id; booked_room := number;
                       username := user; booking_date := timestamp ck;
                       check_in_date := parse_date (in_ymd l) checkin;
                       check_out_date := parse_date (out_ymd l) checkout;
                       total_price := total; booking_status := "active" |})).
Proof.
  unfold on_book_room_clicked.
  destruct (C.strlen user =? 0); [discriminate|].
  destruct selected as [number|]; [|discriminate].
  destruct (_ || _); [discriminate|].
  destruct (0 <=? _); [discriminate|].
  destruct (negb (is_date_in_future _ _)); [discriminate|].
  destruct (negb (is_room_available _ _ _ _ _)); [discriminate|].
  destruct (get_user_profile _ _ _) as [p|]; [|discriminate].
  destruct (_ || _); [discriminate|].
  cbv zeta. cbn [ROOM_FILE set_BOOKING_FILE].
  destruct (ROOM_FILE fs) as [text|]; [|discriminate].
  destruct (MAX_ROOMS <? _); [discriminate|].
  intros H. injection H as <- <- <- <-.
  exists number, text. cbn [BOOKING_FILE set_ROOM_FILE]. auto.
Qed.

(** C7.  Where the check-out date is the [n]-th day of the calendar after
    the check-in date, [calculate_duration] is [n] (in a time zone whose
    standard time keeps its offset between the two dates), and every date
    of the calendar after the check-in date is such a day, for some [n]
    that is not zero; [strcmp] on the two texts is the order of the
    calendar; so the count is 2 from 2025-03-10 to 2025-03-12.  A
    confirmed booking appends a line whose price is the total of the
    message, and where the room file holds rooms that are read back as
    written, that total is the product, in [float], of the price of the
    first room with the selected number and the night count. *)
Theorem nights_and_total_price :
  (forall offset ci co n,
     calendar_date ci -> calendar_date co -> days_later ci n co ->
     calculate_duration offset (sprintf_date ci) (sprintf_date co)
     = Z.of_nat n)
  /\ (forall offset ci co,
        calendar_date ci -> calendar_date co -> date_before ci co ->
        exists n,
          days_later ci (S n) co
          /\ calculate_duration offset (sprintf_date ci) (sprintf_date co)
             = Z.of_nat (S n))
  /\ (forall ci co,
        calendar_date ci -> calendar_date co ->
        (C.strcmp (sprintf_date ci) (sprintf_date co) < 0
         <-> date_before ci co))
  /\ (forall offset, calculate_duration offset "2025-03-10" "2025-03-12" = 2)
  /\ (forall fs ck l user selected checkin checkout id nights total fs',
        on_book_room_clicked fs ck l user selected checkin checkout
        = Status (BookingConfirmed id total nights) fs' ->
        exists number,
          selected = Some number
          /\ nights = calculate_duration (utc_offset ck)
                        (parse_date (in_ymd l) checkin)
                        (parse_date (out_ymd l) checkout)
          /\ BOOKING_FILE fs'
             = Some (append_text (BOOKING_FILE fs)
                       (booking_line
                          {| booking_id := id; booked_room := number;
                             username := user; booking_date := timestamp ck;
                             check_in_date := parse_date (in_ymd l) checkin;
                             check_out_date := parse_date (out_ymd l) checkout;
                             total_price := total;
                             booking_status := "active" |}))
          /\ forall rs rtext r,
               ROOM_FILE fs = Some rtext -> room_file_of MAX_LEN rs rtext ->
               find (fun r => room_number r =? number) rs = Some r ->
               total = C.fmul (price r) (C.float_of_int nights)).
Proof.
  split; [exact calculate_duration_later|].
  split; [exact calculate_duration_between|].
  split; [intros ci co Hi Ho; exact (proj1 (strcmp_dates ci co Hi Ho))|].
  split.
  - intros offset.
    apply (calculate_duration_later offset march_10 march_12 2).
    + unfold calendar_date, well_formed. vm_compute. intuition discriminate.
    + unfold calendar_date, well_formed. vm_compute. intuition discriminate.
    + exact (later_S _ _ _ (later_S _ _ _ (later_O march_10))).
  - intros fs ck l user selected checkin checkout id nights total fs' H.
    destruct (book_confirmed_inv _ _ _ _ _ _ _ _ _ _ _ H)
      as (number & text & -> & Hr & Hn & Ht & Hb).
    exists number. repeat (split; [assumption || reflexivity|]).
    intros rs rtext r Hr' (-> & Rback & Rline) Hfind.
    assert (text = write_rooms rs) as -> by congruence.
    unfold write_rooms in Ht.
    rewrite fgets_written, find_price_back, Hfind in Ht by assumption.
    exact Ht.
Qed.

(** The theorem at work: two nights from 2025-03-10, and the total of
    alice's booking of room 101. *)
Lemma nights_and_total_price_witness :
  calculate_duration 3600 (sprintf_date march_10)
    (sprintf_date (next_day (next_day march_10))) = 2
  /\ exists number,
       Some 101 = Some number
       /\ 2 = calculate_duration 0 "2025-06-01" "2025-06-03"
       /\ BOOKING_FILE files_alice_booked = Some alice_line
       /\ f200 = C.fmul (price room_101) (C.float_of_int 2).
Proof.
  destruct nights_and_total_price as (Hnights & _ & _ & _ & Htotal). split.
  - apply (Hnights 3600 march_10 (next_day (next_day march_10)) 2%nat).
    + unfold calendar_date, well_formed. vm_compute. intuition discriminate.
    + unfold calendar_date, well_formed. vm_compute. intuition discriminate.
    + exact (later_S _ _ _ (later_S _ _ _ (later_O march_10))).
  - destruct (Htotal fresh_files clock_1
                {| in_ymd := march_10; out_ymd := march_10;
                   available_vars := alice_rewritten;
                   profile_username := ""; profile_full_name := "";
                   profile_id_number := ""; price_room := any_room;
                   rooms_array := fun _ => any_room |}
                "alice" (Some 101) "2025-06-01" "2025-06-03" 858400 2 f200
                files_alice_booked)
      as (number & Hsel & Hn & Hb & Hprice); [vm_compute; reflexivity|].
    injection Hsel as <-.
    exists 101. split; [reflexivity|]. split; [exact Hn|].
    split; [exact Hb|].
    apply (Hprice (seed_room_list "Available") seed_rooms room_101).
    + reflexivity.
    + split; [vm_compute; reflexivity|].
      split; [closed_records|closed_lines].
    + reflexivity.
Defined.

Lemma same_but_status (rs rs' : list Room) (number nights : Z)
    (price0 : C.float) :
  map (set_status "") rs = map (set_status "") rs' ->
  List.length rs = List.length rs'
  /\ match find (fun r => room_number r =? number) rs with
     | Some r => C.fmul (price r) (C.float_of_int nights)
     | None => price0
     end
     = match find (fun r => room_number r =? number) rs' with
       | Some r => C.fmul (price r) (C.float_of_int nights)
       | None => price0
       end.
Proof.
  revert rs'. induction rs as [|r rs IH]; intros [|r' rs'] E;
    try discriminate E; [now split|].
  cbn [map] in E. injection E as Hn _ Hp _ E.
  destruct (IH rs' E) as [Hl Hf].
  cbn [List.length find]. rewrite Hl, Hn. split; [reflexivity|].
  destruct (room_number r' =? number); [now rewrite Hp|exact Hf].
Qed.

(** C9.  [is_room_available] gives the same answer on any two states of
    the files with the same booking file.  A booking gets the same
    message, and leaves the same booking file, on two room files that
    differ in the status fields only.  So a room that reads Booked is
    booked like any other: with an empty booking file, room 101 marked
    Booked is booked. *)
Theorem availability_ignores_room_status :
  (forall fs fs' u room check_in check_out,
     BOOKING_FILE fs = BOOKING_FILE fs' ->
     is_room_available fs u room check_in check_out
     = is_room_available fs' u room check_in check_out)
  /\ (forall fs ck l user selected checkin checkout rs rs',
        Forall reads_back_room rs ->
        Forall (is_line MAX_LEN) (map room_line rs) ->
        Forall reads_back_room rs' ->
        Forall (is_line MAX_LEN) (map room_line rs') ->
        map (set_status "") rs = map (set_status "") rs' ->
        let o := on_book_room_clicked (set_ROOM_FILE (write_rooms rs) fs)
                   ck l user selected checkin checkout in
        let o' := on_book_room_clicked (set_ROOM_FILE (write_rooms rs') fs)
                    ck l user selected checkin checkout in
        message_of o = message_of o'
        /\ option_map BOOKING_FILE (files_of o)
           = option_map BOOKING_FILE (files_of o'))
  /\ (forall l,
        on_book_room_clicked files_marked_booked clock_1 l "alice" (Some 101)
          "2025-06-01" "2025-06-03"
        = Status (BookingConfirmed 858400 f200 2) files_alice_booked).
Proof.
  split; [|split].
  - intros fs fs' u room check_in check_out E.
    unfold is_room_available. now rewrite E.
  - intros fs ck l user selected checkin checkout rs rs' Rb Rl Rb' Rl' E.
    unfold on_book_room_clicked, is_room_available, get_user_profile.
    cbv zeta.
    cbn [ROOM_FILE BOOKING_FILE USER_PROFILE_FILE set_ROOM_FILE
         set_BOOKING_FILE].
    destruct (C.strlen user =? 0); [now split|].
    destruct selected as [number|]; [|now split].
    destruct (_ || _); [now split|].
    destruct (0 <=? _); [now split|].
    destruct (negb (is_date_in_future _ _)); [now split|].
    destruct (negb _); [now split|].
    match goal with
    | |- context [match ?x with Some _ => _ | None => Undefined end] =>
        destruct x as [p|]
    end; [|now split].
    destruct (_ || _); [now split|].
    unfold write_rooms. rewrite !fgets_written, !length_map by assumption.
    rewrite !find_price_back, !read_rooms_back by assumption.
    destruct (same_but_status rs rs' number
                (calculate_duration (utc_offset ck)
                   (parse_date (in_ymd l) checkin)
                   (parse_date (out_ymd l) checkout)) C.fzero E) as [Hl Hf].
    rewrite Hl, Hf.
    destruct (MAX_ROOMS <? _); now split.
  - intros l. vm_compute. reflexivity.
Qed.

(** The theorem at work: the fresh files and the files with room 101
    marked booked have the same booking file, and the same rooms but for
    the status. *)
Lemma availability_ignores_room_status_witness :
  is_room_available fresh_files alice_rewritten 101 "2025-06-01" "2025-06-03"
  = is_room_available files_marked_booked alice_rewritten 101 "2025-06-01"
      "2025-06-03"
  /\ forall l,
       message_of
         (on_book_room_clicked
            (set_ROOM_FILE (write_rooms (seed_room_list "Available"))
               fresh_files)
            clock_1 l "alice" (Some 101) "2025-06-01" "2025-06-03")
       = message_of
           (on_book_room_clicked
              (set_ROOM_FILE (write_rooms (seed_room_list "Booked"))
                 fresh_files)
              clock_1 l "alice" (Some 101) "2025-06-01" "2025-06-03").
Proof.
  destruct availability_ignores_room_status as (Hsame & Hstatus & _). split.
  - apply Hsame. reflexivity.
  - intros l.
    apply (Hstatus fresh_files clock_1 l "alice" (Some 101) "2025-06-01"
             "2025-06-03" (seed_room_list "Available")
             (seed_room_list "Booked")).
    + closed_records.
    + closed_lines.
    + closed_records.
    + closed_lines.
    + reflexivity.
Defined.

(** C10.  A text that begins with three integers in either shape is
    normalised to a date, whatever the integers: "2025-13-40" is kept as it
    is.  [validate_date] rejects it, and the booking from "2025-13-40" to
    "2025-13-45" is confirmed, for five nights. *)
Theorem no_range_check_on_booking :
  (forall u s a b c,
     begins_with_three "-" s a b c \/ begins_with_three "/" s a b c ->
     parse_date u s <> "invalid")
  /\ (forall u, parse_date u "2025-13-40" = "2025-13-40")
  /\ (forall u, validate_date u "2025-13-40" = false)
  /\ (forall u, validate_date u "2025-13-45" = false)
  /\ (forall l,
        on_book_room_clicked fresh_files clock_1 l "alice" (Some 101)
          "2025-13-40" "2025-13-45"
        = Status (BookingConfirmed 858400 f500 5) files_month_13).
Proof.
  split.
  - intros u s a b c [H|H].
    + rewrite (parse_date_dash u s a b c H). apply sprintf_date_not_invalid.
    + rewrite (parse_date_slash u s a b c H). apply sprintf_date_not_invalid.
  - repeat split; intros; vm_compute; reflexivity.
Qed.

(** The theorem at work, on the text of the example. *)
Lemma no_range_check_on_booking_witness :
  begins_with_three "-" "2025-13-40" 2025 13 40
  /\ parse_date march_10 "2025-13-40" <> "invalid".
Proof.
  assert (H : begins_with_three "-" "2025-13-40" 2025 13 40).
  { exists "2025", "13", "40", "".
    split; [apply (int_plain "" "2025"); [reflexivity|reflexivity|discriminate]|].
    split; [apply (int_plain "" "13"); [reflexivity|reflexivity|discriminate]|].
    split; [apply (int_plain "" "40"); [reflexivity|reflexivity|discriminate]|].
    split; reflexivity. }
  split; [exact H|].
  exact (proj1 no_range_check_on_booking march_10 "2025-13-40" 2025 13 40
           (or_introl H)).
Defined.

(** ** Cancelling *)

Lemma sscanf_alice_line (u : Booking) :
  C.sscanf fmt_booking alice_line u = (6, alice_as_read u).
Proof. vm_compute. reflexivity. Qed.

Lemma sscanf_bob_line (u : Booking) :
  C.sscanf fmt_booking bob_line u = (6, bob_as_read u).
Proof. vm_compute. reflexivity. Qed.

Lemma sscanf_alice_rewritten_line (u : Booking) :
  C.sscanf fmt_booking alice_rewritten_line u = (8, alice_rewritten).
Proof. vm_compute. reflexivity. Qed.

(** C3. The booking file holds the line that the program wrote for alice;
    whatever [bookings] and [rooms] hold on entry and whatever id is
    cancelled, the rewritten line has lost the check-in date, the check-out
    date and the price: it is neither the old line nor the old line with
    the status changed. *)
Theorem cancel_rewrites_other_fields (l : cancel_locals) (id : Z) :
  exists fs' st n,
    on_cancel_booking_clicked files_alice_booked l (Some id)
    = Status (BookingCanceled id) fs'
    /\ BOOKING_FILE fs'
       = Some ("alice:101:2025-06-02 10:00:00:2025.00:" ++ st ++ ":"
               ++ C.fmt_d n ++ nl)
    /\ BOOKING_FILE fs' <> Some alice_line_canceled
    /\ BOOKING_FILE fs' <> BOOKING_FILE files_alice_booked.
Proof.
  unfold on_cancel_booking_clicked.
  cbn [BOOKING_FILE files_alice_booked].
  change (C.fgets_lines (MAX_LEN * 3) alice_line) with [alice_line].
  cbn [List.length read_bookings].
  rewrite sscanf_alice_line. cbn [snd].
  change (MAX_BOOKINGS <? Z.of_nat 1) with false. cbv iota.
  cbn [ROOM_FILE set_BOOKING_FILE].
  change (MAX_ROOMS <? Z.of_nat (List.length
            (C.fgets_lines (MAX_LEN * 3) rooms_101_booked))) with false.
  cbv iota.
  set (b := if booking_id (alice_as_read (bookings_array l 0)) =? id
            then _ else _).
  assert (Hb : write_bookings [b]
               = "alice:101:2025-06-02 10:00:00:2025.00:" ++ booking_status b
                 ++ ":" ++ C.fmt_d (booking_id b) ++ nl).
  { unfold write_bookings. cbn [map written]. rewrite append_nil_r.
    subst b. destruct (_ =? id); reflexivity. }
  destruct (negb (find_room [b] id =? -1));
    eexists; exists (booking_status b), (booking_id b);
    (split; [reflexivity|]); cbn [BOOKING_FILE set_ROOM_FILE set_BOOKING_FILE];
    rewrite Hb; (split; [reflexivity|]); split; discriminate.
Qed.

(** The state of the next lemma arises from the fresh files: alice books
    room 101, her booking is cancelled, bob books the room. *)
Lemma files_rebooked_reachable (l : book_locals) :
  on_cancel_booking_clicked files_alice_booked locals_with_id (Some 858400)
  = Status (BookingCanceled 858400) files_alice_canceled
  /\ on_book_room_clicked files_alice_canceled clock_2 l "bob" (Some 101)
       "2025-06-02" "2025-06-04"
     = Status (BookingConfirmed 858460 f200 2) files_rebooked.
Proof. split; vm_compute; reflexivity. Qed.

(** C4, as stated, fails.  Alice's booking of room 101 is cancelled and bob
    has booked the room since.  Cancelling alice's booking again ends with
    the success message and marks room 101 available: the state is not
    left unchanged. *)
Lemma repeated_cancel_frees_booked_room :
  (forall u,
     booking_status (snd (C.sscanf fmt_booking alice_rewritten_line u))
     = "canceled")
  /\ forall l : cancel_locals,
       exists fs',
         on_cancel_booking_clicked files_rebooked l (Some 858400)
         = Status (BookingCanceled 858400) fs'
         /\ ROOM_FILE files_rebooked = Some rooms_101_booked
         /\ ROOM_FILE fs' = Some seed_rooms
         /\ fs' <> files_rebooked.
Proof.
  split; [intros u; now rewrite sscanf_alice_rewritten_line|].
  intros l. unfold on_cancel_booking_clicked.
  cbn [BOOKING_FILE files_rebooked].
  change (C.fgets_lines (MAX_LEN * 3) (alice_rewritten_line ++ bob_line))
    with [alice_rewritten_line; bob_line].
  cbn [List.length read_bookings].
  rewrite sscanf_alice_rewritten_line, sscanf_bob_line. cbn [snd].
  change (MAX_BOOKINGS <? Z.of_nat 2) with false. cbv iota.
  cbn [ROOM_FILE set_BOOKING_FILE].
  change (MAX_ROOMS <? Z.of_nat (List.length
            (C.fgets_lines (MAX_LEN * 3) rooms_101_booked))) with false.
  cbv iota.
  change (booking_id alice_rewritten =? 858400) with true. cbv iota.
  cbn [find_room set_booking_status booking_id booked_room alice_rewritten].
  change (858400 =? 858400) with true. cbv iota.
  change (negb (101 =? -1)) with true. cbv iota.
  replace (write_rooms (map (mark 101 "Available")
             (read_rooms (C.fgets_lines (MAX_LEN * 3) rooms_101_booked)
                (cancel_rooms_array l) 0 (fun r => r))))
    with seed_rooms by (vm_compute; reflexivity).
  eexists. split; [reflexivity|]. cbn [ROOM_FILE set_ROOM_FILE].
  repeat split. intros E. apply (f_equal ROOM_FILE) in E. revert E.
  apply some_string_neq. vm_compute. reflexivity.
Qed.

Lemma find_room_found (bs : list Booking) (id : Z) :
  (exists b, In b bs /\ booking_id b = id) ->
  (forall b, In b bs -> booked_room b <> -1) ->
  find_room bs id <> -1.
Proof.
  intros (b & Hin & Hid) Hroom. induction bs as [|b' bs IH]; [destruct Hin|].
  cbn [find_room]. destruct (Z.eqb_spec (booking_id b') id) as [_|Hne].
  - apply Hroom. now left.
  - apply IH.
    + destruct Hin as [->|Hin]; [contradiction|assumption].
    + intros b0 H0. apply Hroom. now right.
Qed.

Lemma cancel_again_same (bs : list Booking) (id : Z) :
  (forall b, In b bs -> booking_id b = id -> booking_status b = "canceled") ->
  map (fun b => if booking_id b =? id
                then set_booking_status "canceled" b else b) bs = bs.
Proof.
  intros H. induction bs as [|b bs IH]; [reflexivity|].
  cbn [map]. rewrite IH by (intros b0 H0; apply H; now right).
  f_equal. destruct (Z.eqb_spec (booking_id b) id) as [E|_]; [|reflexivity].
  pose proof (H b (or_introl eq_refl) E) as Hs.
  destruct b; cbn in *. now subst.
Qed.

Lemma mark_same (n : Z) (s : string) (rs : list Room) :
  (forall r, In r rs -> room_number r = n -> status r = s) ->
  map (mark n s) rs = rs.
Proof.
  intros H. induction rs as [|r rs IH]; [reflexivity|].
  cbn [map]. rewrite IH by (intros r0 H0; apply H; now right).
  f_equal. unfold mark.
  destruct (Z.eqb_spec (room_number r) n) as [E|_]; [|reflexivity].
  pose proof (H r (or_introl eq_refl) E) as Hs.
  destruct r; cbn in *. now subst.
Qed.

(** On files whose lines are read back as they were written, a
    cancellation sets the status of the bookings with the id to canceled,
    keeps every other booking and the order, and marks the room of the
    first booking with the id available; when no booking has the id, the
    files are left as they were. *)
Lemma cancel_read_back (fs : files) (l : cancel_locals) (id : Z)
    (bs : list Booking) (rs : list Room) (btext rtext : string) :
  BOOKING_FILE fs = Some btext ->
  booking_file_of (MAX_LEN * 3) bs btext ->
  Z.of_nat (List.length bs) <= MAX_BOOKINGS ->
  ROOM_FILE fs = Some rtext ->
  room_file_of (MAX_LEN * 3) rs rtext ->
  Z.of_nat (List.length rs) <= MAX_ROOMS ->
  (forall b, In b bs -> booked_room b <> -1) ->
  let bs' := map (fun b => if booking_id b =? id
                           then set_booking_status "canceled" b else b) bs in
  on_cancel_booking_clicked fs l (Some id)
  = Status (BookingCanceled id)
      (if existsb (fun b => booking_id b =? id) bs
       then set_ROOM_FILE
              (write_rooms (map (mark (find_room bs' id) "Available") rs))
              (set_BOOKING_FILE (write_bookings bs') fs)
       else fs).
Proof.
  intros Hb (Eb & Bback & Bline) Bn Hr (Er & Rback & Rline) Rn Hroom bs'.
  assert (Lb : C.fgets_lines (MAX_LEN * 3) btext = map booking_line bs)
    by (rewrite Eb; now apply fgets_written).
  assert (Lr : C.fgets_lines (MAX_LEN * 3) rtext = map room_line rs)
    by (rewrite Er; now apply fgets_written).
  unfold on_cancel_booking_clicked. cbv zeta. rewrite Hb, Lb, length_map.
  destruct (Z.ltb_spec MAX_BOOKINGS (Z.of_nat (List.length bs))); [lia|].
  rewrite read_bookings_back by assumption. fold bs'.
  cbn [ROOM_FILE set_BOOKING_FILE]. rewrite Hr, Lr, length_map.
  destruct (Z.ltb_spec MAX_ROOMS (Z.of_nat (List.length rs))); [lia|].
  rewrite read_rooms_back, map_id by assumption.
  destruct (existsb (fun b => booking_id b =? id) bs) eqn:Ex.
  - assert (Hf : find_room bs' id <> -1).
    { apply existsb_exists in Ex as (b & Hin & Hid).
      apply Z.eqb_eq in Hid. apply find_room_found.
      - exists (set_booking_status "canceled" b). split; [|exact Hid].
        unfold bs'. apply in_map_iff. exists b. split; [|assumption].
        now rewrite Hid, Z.eqb_refl.
      - intros b0 Hin0. unfold bs' in Hin0.
        apply in_map_iff in Hin0 as (b1 & <- & Hin1).
        pose proof (Hroom b1 Hin1). now destruct (booking_id b1 =? id). }
    destruct (Z.eqb_spec (find_room bs' id) (-1)); [contradiction|reflexivity].
  - assert (Hs : bs' = bs).
    { unfold bs'. clear - Ex. induction bs as [|b bs IH]; [reflexivity|].
      cbn [existsb map] in *. apply orb_false_iff in Ex as [E1 E2].
      now rewrite E1, IH. }
    assert (Hf : find_room bs id = -1).
    { clear - Ex. induction bs as [|b bs IH]; [reflexivity|].
      cbn [existsb find_room] in *. apply orb_false_iff in Ex as [E1 E2].
      rewrite E1. now apply IH. }
    rewrite Hs, Hf, <- Eb. cbn [Z.eqb negb].
    now rewrite (set_BOOKING_FILE_same fs btext Hb).
Qed.

(** C4, amended.  The files hold bookings and rooms that are read back as
    they were written, at most a hundred of each; no booking refers to
    room -1; some booking has the id, and every booking with the id is
    canceled already.  Then cancelling the id ends with the success
    message, leaves the booking file and the profile file as they were and
    marks the room of the first booking with the id available; where that
    room is marked available already, the files are left unchanged. *)
Theorem cancel_of_canceled_booking (fs : files) (l : cancel_locals) (id : Z)
    (bs : list Booking) (rs : list Room) (btext rtext : string) :
  BOOKING_FILE fs = Some btext ->
  booking_file_of (MAX_LEN * 3) bs btext ->
  Z.of_nat (List.length bs) <= MAX_BOOKINGS ->
  ROOM_FILE fs = Some rtext ->
  room_file_of (MAX_LEN * 3) rs rtext ->
  Z.of_nat (List.length rs) <= MAX_ROOMS ->
  (forall b, In b bs -> booked_room b <> -1) ->
  (exists b, In b bs /\ booking_id b = id) ->
  (forall b, In b bs -> booking_id b = id -> booking_status b = "canceled") ->
  exists fs',
    on_cancel_booking_clicked fs l (Some id) = Status (BookingCanceled id) fs'
    /\ BOOKING_FILE fs' = BOOKING_FILE fs
    /\ USER_PROFILE_FILE fs' = USER_PROFILE_FILE fs
    /\ ROOM_FILE fs'
       = Some (write_rooms (map (mark (find_room bs id) "Available") rs))
    /\ ((forall r, In r rs -> room_number r = find_room bs id ->
                   status r = "Available") -> fs' = fs).
Proof.
  intros Hb (Eb & Bback & Bline) Bn Hr (Er & Rback & Rline) Rn Hroom Hex Hc.
  assert (Lb : C.fgets_lines (MAX_LEN * 3) btext = map booking_line bs)
    by (rewrite Eb; now apply fgets_written).
  assert (Lr : C.fgets_lines (MAX_LEN * 3) rtext = map room_line rs)
    by (rewrite Er; now apply fgets_written).
  unfold on_cancel_booking_clicked. cbv zeta. rewrite Hb, Lb, length_map.
  destruct (Z.ltb_spec MAX_BOOKINGS (Z.of_nat (List.length bs))); [lia|].
  rewrite read_bookings_back, cancel_again_same, <- Eb by assumption.
  rewrite (set_BOOKING_FILE_same fs _ Hb), Hr, Lr, length_map.
  destruct (Z.ltb_spec MAX_ROOMS (Z.of_nat (List.length rs))); [lia|].
  rewrite read_rooms_back, map_id by assumption.
  destruct (Z.eqb_spec (find_room bs id) (-1)) as [E|_];
    [now apply find_room_found in E|].
  cbn [negb]. eexists. split; [reflexivity|].
  destruct fs; cbn in *. subst ROOM_FILE0 BOOKING_FILE0.
  split; [reflexivity|]. split; [reflexivity|]. split; [reflexivity|].
  intros Hs. rewrite mark_same by assumption. now subst.
Qed.

(** The theorem at work: alice's cancelled booking alone in the file and
    room 101 marked booked; the repeated cancellation marks the room
    available. *)
Lemma cancel_of_canceled_booking_witness :
  exists fs',
    on_cancel_booking_clicked files_canceled_but_booked locals_with_id
      (Some 858400)
    = Status (BookingCanceled 858400) fs'
    /\ BOOKING_FILE fs' = BOOKING_FILE files_canceled_but_booked
    /\ USER_PROFILE_FILE fs' = USER_PROFILE_FILE files_canceled_but_booked
    /\ ROOM_FILE fs'
       = Some (write_rooms
                 (map (mark (find_room [alice_rewritten] 858400) "Available")
                    (seed_room_list "Booked")))
    /\ ((forall r, In r (seed_room_list "Booked") ->
           room_number r = find_room [alice_rewritten] 858400 ->
           status r = "Available")
        -> fs' = files_canceled_but_booked).
Proof.
  apply (cancel_of_canceled_booking files_canceled_but_booked locals_with_id
           858400 [alice_rewritten] (seed_room_list "Booked")
           alice_rewritten_line rooms_101_booked).
  - reflexivity.
  - split; [vm_compute; reflexivity|]. split; [closed_records|closed_lines].
  - vm_compute. discriminate.
  - reflexivity.
  - split; [vm_compute; reflexivity|]. split; [closed_records|closed_lines].
  - vm_compute. discriminate.
  - intros b [<-|[]]. vm_compute. discriminate.
  - exists alice_rewritten. split; [now left|reflexivity].
  - intros b [<-|[]] _. reflexivity.
Defined.

(** ** Revenue *)

Lemma daily_revenue_loop_read_back (bs : list Booking) (u : Booking)
    (date : string) (revenue : C.float) :
  Forall reads_back_booking bs ->
  daily_revenue_loop (map booking_line bs) u date revenue
  = fold_left (fun sum b => C.fadd sum (total_price b))
      (filter (counts_on date) bs) revenue.
Proof.
  intros H. revert u revenue.
  induction H as [|b bs Hb _ IH]; intros u revenue; [reflexivity|].
  cbn [map daily_revenue_loop filter]. rewrite Hb. cbn [snd].
  unfold counts_on at 1. destruct (_ && _); cbn [fold_left]; apply IH.
Qed.

(** On a booking file whose lines are read back as they were written,
    [calculate_daily_revenue] is the sum of the totals of the active
    bookings whose booking date begins with the date asked for. *)
Lemma daily_revenue_read_back (fs : files) (u : Booking)
    (bs : list Booking) (text date : string) :
  BOOKING_FILE fs = Some text -> booking_file_of (MAX_LEN * 3) bs text ->
  calculate_daily_revenue fs u date = sum_totals (filter (counts_on date) bs).
Proof.
  intros Hf (-> & Hback & Hline). unfold calculate_daily_revenue. rewrite Hf.
  unfold write_bookings. rewrite fgets_written by assumption.
  now apply daily_revenue_loop_read_back.
Qed.

(** C5.  The booking file holds the two bookings of the example, as the
    program writes bookings.  [sscanf] stops in each line after the price
    field, where it has stored the year of the check-in date, and never
    reaches the status: the sums depend on what the local [status] holds
    on entry, and they are 0 or multiples of 2025, never 100. *)
Theorem revenue_ignores_price_and_status (offset : Z) (w : ymd)
    (u : Booking) :
  let daily := calculate_daily_revenue revenue_files u "2025-06-02" in
  let weekly :=
    calculate_weekly_revenue offset revenue_files w u "2025-06-02" in
  (daily = C.fzero \/ daily = f2025)
  /\ (weekly = C.fzero \/ weekly = f4050)
  /\ daily <> f100 /\ weekly <> f100.
Proof.
  vm_compute.
  match goal with |- context [match ?x with _ => _ end] => destruct x end;
    repeat split; auto; discriminate.
Qed.

(** ** The room list *)

Lemma flt_antisym (x y : C.float) : C.flt x y = true -> C.flt y x = false.
Proof.
  unfold C.flt, SFltb, SFcompare.
  destruct x as [sx|sx| |sx mx ex], y as [sy|sy| |sy my ey];
    try destruct sx; try destruct sy; try discriminate; try reflexivity.
  - rewrite (Z.compare_antisym ex ey).
    change (Pos.compare_cont Eq my mx) with (Pos.compare my mx).
    change (Pos.compare_cont Eq mx my) with (Pos.compare mx my).
    rewrite (Pos.compare_antisym mx my).
    destruct (ex ?= ey); cbn; try discriminate; try reflexivity.
    destruct (Pos.compare mx my); cbn; try discriminate; reflexivity.
  - rewrite (Z.compare_antisym ex ey).
    change (Pos.compare_cont Eq my mx) with (Pos.compare my mx).
    change (Pos.compare_cont Eq mx my) with (Pos.compare mx my).
    rewrite (Pos.compare_antisym mx my).
    destruct (ex ?= ey); cbn; try discriminate; try reflexivity.
    destruct (Pos.compare mx my); cbn; try discriminate; reflexivity.
Qed.

Lemma compare_rooms_le (a b : Room) :
  compare_rooms_by_price a b <= 0 -> C.flt (price b) (price a) = false.
Proof.
  unfold compare_rooms_by_price.
  destruct (C.flt (price a) (price b)) eqn:E; [intros _; now apply flt_antisym|].
  destruct (C.flt (price b) (price a)); [lia|reflexivity].
Qed.

Lemma strongly_sorted_weaken {A : Type} (R S : A -> A -> Prop) (l : list A) :
  (forall a b, R a b -> S a b) -> StronglySorted R l -> StronglySorted S l.
Proof.
  intros H. induction 1 as [|a l _ IH Hall]; constructor; [assumption|].
  eapply Forall_impl; [|exact Hall]. intros b. apply H.
Qed.

Lemma load_rooms_loop_spec (lines : list string) (room : Room)
    (filter : option RoomFilter) (rooms : list Room) :
  Z.of_nat (List.length rooms) <= MAX_ROOMS ->
  load_rooms_loop lines room filter rooms
  = firstn (Z.to_nat MAX_ROOMS)
      (rooms ++ List.filter (passes_filter filter) (rooms_seen lines room)).
Proof.
  revert room rooms. induction lines as [|line lines IH]; intros room rooms Hn.
  - cbn [load_rooms_loop rooms_seen List.filter].
    rewrite app_nil_r, firstn_all2; [reflexivity|]. unfold MAX_ROOMS in *. lia.
  - cbn [load_rooms_loop rooms_seen List.filter].
    destruct (Z.ltb_spec (Z.of_nat (List.length rooms)) MAX_ROOMS) as [Hlt|Hge].
    + destruct (passes_filter filter (snd (C.sscanf fmt_room line room))).
      * rewrite IH, <- app_assoc; [reflexivity|].
        rewrite length_app. cbn [List.length]. lia.
      * now apply IH.
    + rewrite firstn_app, firstn_all2 by (unfold MAX_ROOMS in *; lia).
      replace (Z.to_nat MAX_ROOMS - List.length rooms)%nat with 0%nat
        by (unfold MAX_ROOMS in *; lia).
      now rewrite firstn_O, app_nil_r.
Qed.

(** C8, amended.  The rows of the list are the first hundred rooms of the
    file, in the order of the file, that pass the filter of the code (a
    price bound applies when it is greater than zero), in some order in
    which no room is cheaper than a room before it.  Without a room file
    there are no rows. *)
Theorem room_listing_sorted_filtered (fs : files) (u : Room)
    (filter : option RoomFilter) (rows : list Room) :
  load_rooms_into_store fs u filter rows ->
  match ROOM_FILE fs with
  | None => rows = []
  | Some text =>
      Permutation
        (firstn (Z.to_nat MAX_ROOMS)
           (List.filter (passes_filter filter)
              (rooms_seen (C.fgets_lines MAX_LEN text) u)))
        rows
      /\ StronglySorted (fun a b => C.flt (price b) (price a) = false) rows
  end.
Proof.
  unfold load_rooms_into_store. destruct (ROOM_FILE fs) as [text|]; [|auto].
  rewrite load_rooms_loop_spec by (cbn; unfold MAX_ROOMS; lia).
  cbn [app]. intros [Hperm Hsort]. split; [assumption|].
  eapply strongly_sorted_weaken; [|exact Hsort]. apply compare_rooms_le.
Qed.

Lemma strongly_sorted_repeat {A : Type} (R : A -> A -> Prop) (a : A)
    (n : nat) :
  R a a -> StronglySorted R (repeat a n).
Proof.
  intros H. induction n as [|n IH]; cbn; constructor; [assumption|].
  clear IH. induction n; cbn; constructor; assumption.
Qed.

Lemma seed_rooms_sorted (u : Room) (filter : option RoomFilter) :
  load_rooms_loop (C.fgets_lines MAX_LEN seed_rooms) u filter []
  = seed_room_list "Available" ->
  qsort_result compare_rooms_by_price
    (load_rooms_loop (C.fgets_lines MAX_LEN seed_rooms) u filter [])
    seed_rooms_by_price.
Proof.
  intros ->. split.
  - unfold seed_room_list, seed_rooms_by_price. cbn [nth].
    apply perm_skip.
    apply (Permutation_cons_app (_ :: nil) (_ :: _ :: nil)). cbn [app].
    apply (Permutation_cons_app (_ :: _ :: nil) nil). cbn [app].
    apply Permutation_refl.
  - unfold seed_rooms_by_price, seed_room_list. cbn [nth].
    repeat (constructor; [|repeat constructor; vm_compute; discriminate]).
    constructor.
Qed.

(** C8, as stated, fails, in three ways.  With a negative upper bound the
    code lists every room where the specified filter lists none.  Of two
    rooms of the same price, [qsort] may put the second of the file first.
    Of a hundred and one rooms, a hundred are listed. *)
Lemma listing_differs_from_specified :
  (exists rows,
     load_rooms_into_store fresh_files any_room (Some negative_max) rows
     /\ rows = seed_rooms_by_price
     /\ listing_as_specified (rooms_of fresh_files) (Some negative_max) = [])
  /\ (exists rows,
        load_rooms_into_store twin_files any_room None rows
        /\ rows = [room_202; room_201]
        /\ listing_as_specified (rooms_of twin_files) None
           = [room_201; room_202])
  /\ (exists rows,
        load_rooms_into_store crowded_files any_room None rows
        /\ List.length rows = 100%nat
        /\ List.length (listing_as_specified (rooms_of crowded_files) None)
           = 101%nat).
Proof.
  split; [|split].
  - exists seed_rooms_by_price. split; [|split; [reflexivity|]].
    + apply seed_rooms_sorted. vm_compute. reflexivity.
    + vm_compute. reflexivity.
  - exists [room_202; room_201]. split; [|split; [reflexivity|]].
    + unfold load_rooms_into_store. cbn [ROOM_FILE twin_files].
      replace (load_rooms_loop (C.fgets_lines MAX_LEN twin_rooms) any_room
                 None [])
        with [room_201; room_202] by (vm_compute; reflexivity).
      split; [apply perm_swap|].
      repeat (constructor; [|repeat constructor; vm_compute; discriminate]).
      constructor.
    + vm_compute. reflexivity.
  - exists (repeat room_1 100). split; [|split].
    + unfold load_rooms_into_store. cbn [ROOM_FILE crowded_files].
      replace (load_rooms_loop
                 (C.fgets_lines MAX_LEN (write_rooms (repeat room_1 101)))
                 any_room None [])
        with (repeat room_1 100) by (vm_compute; reflexivity).
      split; [apply Permutation_refl|].
      apply strongly_sorted_repeat. vm_compute. discriminate.
    + reflexivity.
    + vm_compute. reflexivity.
Qed.

(** The theorem at work: the rooms of the fresh files, by price. *)
Lemma room_listing_sorted_filtered_witness :
  Permutation
    (firstn (Z.to_nat MAX_ROOMS)
       (List.filter (passes_filter None)
          (rooms_seen (C.fgets_lines MAX_LEN seed_rooms) any_room)))
    seed_rooms_by_price
  /\ StronglySorted (fun a b => C.flt (price b) (price a) = false)
       seed_rooms_by_price.
Proof.
  apply (room_listing_sorted_filtered fresh_files any_room None
           seed_rooms_by_price).
  apply seed_rooms_sorted. vm_compute. reflexivity.
Defined.

(** * Proofs about the rest of the program *)

(** ** [mktime]: from day numbers back to dates *)

Lemma civil_ok_iter (n : positive) (start : Z) (b : bool) :
  fst (Pos.iter civil_ok_step (start, b) n) = start + Zpos n
  /\ (snd (Pos.iter civil_ok_step (start, b) n) = true ->
      b = true /\ forall k, 0 <= k < Zpos n -> civil_ok (start + k) = true).
Proof.
  induction n as [|n [IH1 IH2]] using Pos.peano_ind.
  - change (Pos.iter civil_ok_step (start, b) 1) with (civil_ok_step (start, b)).
    unfold civil_ok_step. cbn [fst snd]. split; [reflexivity|].
    intros H. apply andb_true_iff in H as [Hb Hc].
    split; [assumption|]. intros k Hk. replace (start + k) with start by lia. assumption.
  - rewrite Pos.iter_succ. unfold civil_ok_step at 1. cbn [fst snd].
    rewrite IH1. split; [lia|]. intros H. apply andb_true_iff in H as [Hb Hc].
    destruct (IH2 Hb) as [Hb' Hk']. split; [assumption|]. intros k Hr.
    destruct (Z.eq_dec k (Zpos n)) as [->|]; [now rewrite <- IH1|]. apply Hk'. lia.
Qed.

Lemma civil_ok_range_spec (n : positive) (start : Z) :
  civil_ok_range start n = true ->
  forall k, 0 <= k < Zpos n -> civil_ok (start + k) = true.
Proof.
  unfold civil_ok_range. intros H. now apply (civil_ok_iter n start true).
Qed.

Lemma civil_ok_era : forall k, 0 <= k < 146097 -> civil_ok (-719468 + k) = true.
Proof. apply civil_ok_range_spec. vm_compute. reflexivity. Qed.

Lemma days_before_year_era (y e : Z) :
  C.days_before_year (y + 400 * e) = C.days_before_year y + 146097 * e.
Proof. unfold C.days_before_year. Z.div_mod_to_equations. lia. Qed.

Lemma is_leap_era (y e : Z) : C.is_leap (y + 400 * e) = C.is_leap y.
Proof.
  unfold C.is_leap.
  replace ((y + 400 * e) mod 4) with (y mod 4) by (Z.div_mod_to_equations; lia).
  replace ((y + 400 * e) mod 100) with (y mod 100) by (Z.div_mod_to_equations; lia).
  replace ((y + 400 * e) mod 400) with (y mod 400) by (Z.div_mod_to_equations; lia).
  reflexivity.
Qed.

Lemma civil_from_days_era (z e : Z) :
  C.civil_from_days (z + 146097 * e)
  = let '(y, m, d) := C.civil_from_days z in (y + 400 * e, m, d).
Proof.
  unfold C.civil_from_days.
  replace ((z + 146097 * e + 719468) / 146097) with ((z + 719468) / 146097 + e)
    by (Z.div_mod_to_equations; lia).
  replace (z + 146097 * e + 719468 - ((z + 719468) / 146097 + e) * 146097)
    with (z + 719468 - (z + 719468) / 146097 * 146097) by lia.
  cbv zeta.
  set (doe := z + 719468 - (z + 719468) / 146097 * 146097).
  f_equal. f_equal. lia.
Qed.

Lemma civil_ok_all (z : Z) : civil_ok z = true.
Proof.
  set (e := (z + 719468) / 146097).
  set (k := (z + 719468) mod 146097).
  assert (Hk : 0 <= k < 146097) by (apply Z.mod_pos_bound; lia).
  assert (Hz : z = -719468 + k + 146097 * e)
    by (unfold k, e; Z.div_mod_to_equations; lia).
  pose proof (civil_ok_era k Hk) as H0. rewrite Hz. revert H0.
  unfold civil_ok. rewrite civil_from_days_era.
  destruct (C.civil_from_days (-719468 + k)) as [[y m] d].
  intros H. apply andb_true_iff in H as [H H5]. apply andb_true_iff in H as [H H4].
  apply andb_true_iff in H as [H H3]. apply andb_true_iff in H as [H1 H2].
  apply Z.leb_le in H1, H2, H3, H4. apply Z.eqb_eq in H5.
  rewrite !tm_days_of in * by (cbn; lia). cbn [yy mm dd] in *.
  unfold C.days_before_month, days_in_month in *.
  rewrite days_before_year_era, !is_leap_era.
  repeat (apply andb_true_iff; split); try (apply Z.leb_le; assumption).
  apply Z.eqb_eq. lia.
Qed.

Lemma civil_from_days_spec (z : Z) :
  exists t, C.civil_from_days z = (yy t, mm t, dd t)
            /\ 1 <= mm t <= 12 /\ 1 <= dd t <= days_in_month (yy t) (mm t)
            /\ C.tm_days (tm_of t) = z.
Proof.
  pose proof (civil_ok_all z) as H. unfold civil_ok in H.
  destruct (C.civil_from_days z) as [[y m] d].
  exists {| yy := y; mm := m; dd := d |}. cbn [yy mm dd].
  apply andb_true_iff in H as [H H5]. apply andb_true_iff in H as [H H4].
  apply andb_true_iff in H as [H H3]. apply andb_true_iff in H as [H1 H2].
  apply Z.leb_le in H1, H2, H3, H4. apply Z.eqb_eq in H5.
  repeat split; assumption.
Qed.

(** ** The week of a date *)

Lemma date_trichotomy (t t' : ymd) :
  t = t' \/ date_before t t' \/ date_before t' t.
Proof.
  unfold date_before.
  destruct (Z.lt_trichotomy (yy t) (yy t')) as [?|[Ey|?]]; [lia| |lia].
  destruct (Z.lt_trichotomy (mm t) (mm t')) as [?|[Em|?]]; [lia| |lia].
  destruct (Z.lt_trichotomy (dd t) (dd t')) as [?|[Ed|?]]; [lia| |lia].
  left. now apply ymd_eq.
Qed.

Lemma days_later_of_days (a b : ymd) (k : nat) :
  well_formed a -> well_formed b ->
  C.tm_days (tm_of b) = C.tm_days (tm_of a) + Z.of_nat k ->
  days_later a k b.
Proof.
  intros Ha Hb E.
  destruct (date_trichotomy a b) as [<-|[Hlt|Hgt]].
  - assert (k = O) as -> by lia. constructor.
  - destruct (days_later_exists (Z.to_nat (rank b - rank a)) a b Ha Hb Hlt)
      as [n Hn]; [lia|].
    destruct (days_later_count a b (S n) Ha Hn) as (_ & _ & E').
    assert (k = S n) as -> by lia. exact Hn.
  - destruct (days_later_exists (Z.to_nat (rank a - rank b)) b a Hb Ha Hgt)
      as [n Hn]; [lia|].
    destruct (days_later_count b a (S n) Hb Hn) as (_ & _ & E'). lia.
Qed.

Lemma day_of_year_bounds (y m d : Z) :
  1 <= m <= 12 -> 1 <= d <= days_in_month y m ->
  0 <= C.days_before_month y (m - 1) + (d - 1) <= 365.
Proof.
  intros Hm Hd.
  assert (0 <= C.days_before_month y (m - 1)
          /\ C.days_before_month y (m - 1) + days_in_month y m <= 366); [|lia].
  clear Hd. unfold C.days_before_month, days_in_month.
  destruct (month_cases m Hm) as [->|[->|[->|[->|[->|[->|[->|[->|[->|[->|[->| ->]]]]]]]]]]];
    destruct (C.is_leap y); split; vm_compute; discriminate.
Qed.

(** The year of a day number. *)
Lemma year_of_days (t : ymd) :
  1 <= mm t <= 12 -> 1 <= dd t <= days_in_month (yy t) (mm t) ->
  (-719162 <= C.tm_days (tm_of t) -> 1 <= yy t)
  /\ (C.tm_days (tm_of t) <= 2932896 -> yy t <= 9999).
Proof.
  intros Hm Hd. rewrite tm_days_of by assumption.
  pose proof (day_of_year_bounds (yy t) (mm t) (dd t) Hm Hd).
  unfold C.days_before_year. split; intros; Z.div_mod_to_equations; lia.
Qed.

(** A day after 1000-01-01 is of the year 1000 or later. *)
Lemma year_1000_of_days (t : ymd) :
  1 <= mm t <= 12 -> 1 <= dd t <= days_in_month (yy t) (mm t) ->
  -354285 < C.tm_days (tm_of t) -> 1000 <= yy t.
Proof.
  intros Hm Hd. rewrite tm_days_of by assumption.
  pose proof (day_of_year_bounds (yy t) (mm t) (dd t) Hm Hd).
  unfold C.days_before_year. intros; Z.div_mod_to_equations; lia.
Qed.

Lemma mktime_normal (offset : Z) (x : C.tm) :
  exists t,
    snd (C.mktime offset x)
    = {| C.tm_mday := dd t; C.tm_mon := mm t - 1; C.tm_year := yy t - 1900;
         C.tm_wday := (C.tm_days x + 4) mod 7 |}
    /\ 1 <= mm t <= 12 /\ 1 <= dd t <= days_in_month (yy t) (mm t)
    /\ C.tm_days (tm_of t) = C.tm_days x.
Proof.
  destruct (civil_from_days_spec (C.tm_days x)) as (t & E & Hm & Hd & Ht).
  exists t. unfold C.mktime. rewrite E. cbn [snd]. auto.
Qed.

Lemma tm_days_mday (x : C.tm) (d : Z) :
  C.tm_days (set_tm_mday d x) = C.tm_days x + (d - C.tm_mday x).
Proof. unfold C.tm_days, set_tm_mday. cbn. lia. Qed.

Lemma tm_days_wday (t : ymd) (w : Z) :
  C.tm_days {| C.tm_mday := dd t; C.tm_mon := mm t - 1;
               C.tm_year := yy t - 1900; C.tm_wday := w |}
  = C.tm_days (tm_of t).
Proof. reflexivity. Qed.

Lemma strftime_date_normal (t : ymd) (w : Z) :
  C.strftime_date {| C.tm_mday := dd t; C.tm_mon := mm t - 1;
                     C.tm_year := yy t - 1900; C.tm_wday := w |}
  = sprintf_date t.
Proof.
  unfold C.strftime_date, sprintf_date. cbn [C.tm_mday C.tm_mon C.tm_year].
  now replace (yy t - 1900 + 1900) with (yy t) by lia;
    replace (mm t - 1 + 1) with (mm t) by lia.
Qed.

Lemma tm_days_injective (a b : ymd) :
  well_formed a -> well_formed b ->
  C.tm_days (tm_of a) = C.tm_days (tm_of b) -> a = b.
Proof.
  intros Ha Hb E.
  assert (H : days_later a 0 b) by (apply days_later_of_days; auto; lia).
  now inversion H.
Qed.

Lemma is_monday_of_days (t : ymd) :
  well_formed t -> (C.tm_days (tm_of t) + 4) mod 7 = 1 -> is_monday t.
Proof.
  intros Hw Hd.
  assert (Hm : well_formed monday_2024)
    by (unfold well_formed; vm_compute; intuition discriminate).
  assert (Em : C.tm_days (tm_of monday_2024) = 19723) by reflexivity.
  destruct (Z.le_ge_cases 19723 (C.tm_days (tm_of t))).
  - exists (Z.to_nat ((C.tm_days (tm_of t) - 19723) / 7)). left.
    apply days_later_of_days; try assumption.
    rewrite Em. Z.div_mod_to_equations. lia.
  - exists (Z.to_nat ((19723 - C.tm_days (tm_of t)) / 7)). right.
    apply days_later_of_days; try assumption.
    rewrite Em. Z.div_mod_to_equations. lia.
Qed.

(** X7.  For a date of the calendar, from the year 1001 to the year 9998,
    written as [parse_date] writes dates, [get_week_range] gives two dates
    of the calendar, written the same way: the first is a Monday, of the
    year 1000 or later, at most six days before the date or the date
    itself, and the second is the sixth day after the first (in a time
    zone whose standard time has a fixed offset from UTC). *)
Theorem get_week_range_monday_to_sunday (offset : Z) (u t : ymd) :
  calendar_date t -> 1001 <= yy t <= 9998 ->
  exists mon sun k,
    get_week_range offset u (sprintf_date t) = (sprintf_date mon, sprintf_date sun)
    /\ calendar_date mon /\ calendar_date sun
    /\ 1000 <= yy mon
    /\ is_monday mon
    /\ (k <= 6)%nat /\ days_later mon k t /\ days_later mon 6 sun.
Proof.
  intros [Hw Hy9] Hy.
  pose proof Hw as (Hy1 & Hm & Hd).
  pose proof (days_in_month_bounds (yy t) (mm t)) as Hdim.
  unfold get_week_range.
  change fmt_ymd_dash with (three_d "-" set_yy set_mm set_dd).
  rewrite (three_d_complete "-" _ _ _ _ _ _ _ u eq_refl
             (sprintf_date_shape t ltac:(lia) ltac:(lia) ltac:(lia))).
  cbn [snd set_yy set_mm set_dd yy mm dd]. fold (tm_of t).
  (* the date itself, normalised *)
  destruct (mktime_normal offset (tm_of t)) as (t0 & E0 & Hm0 & Hd0 & D0).
  assert (Hb : -353920 <= C.tm_days (tm_of t) <= 2932896 - 6).
  { rewrite tm_days_of by assumption.
    pose proof (day_of_year_bounds (yy t) (mm t) (dd t) Hm Hd).
    unfold C.days_before_year. Z.div_mod_to_equations. lia. }
  assert (W0 : well_formed t0).
  { destruct (year_of_days t0 Hm0 Hd0) as [Y _]. split; [apply Y; lia|auto]. }
  assert (t0 = t) as -> by (now apply tm_days_injective).
  rewrite E0. clear E0 D0 W0 Hm0 Hd0.
  set (D := C.tm_days (tm_of t)) in *.
  set (wday := (D + 4) mod 7).
  assert (Hwd : 0 <= wday < 7) by (apply Z.mod_pos_bound; lia).
  cbn [C.tm_wday C.tm_mday].
  set (days_to_monday := if wday =? 0 then -6 else 1 - wday).
  assert (Hdm : -6 <= days_to_monday <= 0
                /\ (D + days_to_monday + 4) mod 7 = 1).
  { unfold days_to_monday, wday in *.
    destruct (Z.eqb_spec ((D + 4) mod 7) 0); Z.div_mod_to_equations; lia. }
  destruct Hdm as [Hdm1 Hdm2].
  (* Monday *)
  match goal with
  | |- context [C.mktime offset (set_tm_mday ?d ?x)] =>
      destruct (mktime_normal offset (set_tm_mday d x))
        as (mon & E1 & Hm1 & Hd1 & D1)
  end.
  rewrite tm_days_mday, tm_days_wday in D1, E1. cbn [C.tm_mday] in D1, E1.
  fold D in D1, E1.
  replace (D + (dd t + days_to_monday - dd t)) with (D + days_to_monday)
    in D1, E1 by lia.
  rewrite E1. cbn [C.tm_mday].
  assert (W1 : calendar_date mon).
  { destruct (year_of_days mon Hm1 Hd1) as [Y Y']. split; [split|];
      [apply Y; lia|auto|apply Y'; lia]. }
  (* Sunday *)
  match goal with
  | |- context [C.mktime offset (set_tm_mday ?d ?x)] =>
      destruct (mktime_normal offset (set_tm_mday d x))
        as (sun & E2 & Hm2 & Hd2 & D2)
  end.
  rewrite tm_days_mday, tm_days_wday in D2, E2. cbn [C.tm_mday] in D2, E2.
  rewrite D1 in D2, E2.
  replace (D + days_to_monday + (dd mon + 6 - dd mon))
    with (D + days_to_monday + 6) in D2, E2 by lia.
  rewrite E2.
  assert (W2 : calendar_date sun).
  { destruct (year_of_days sun Hm2 Hd2) as [Y Y']. split; [split|];
      [apply Y; lia|auto|apply Y'; lia]. }
  rewrite !strftime_date_normal.
  exists mon, sun, (Z.to_nat (- days_to_monday)).
  split; [reflexivity|]. split; [assumption|]. split; [assumption|].
  split; [apply (year_1000_of_days mon Hm1 Hd1); lia|].
  split; [apply is_monday_of_days; [apply W1|now rewrite D1]|].
  split; [lia|].
  split; apply days_later_of_days; try apply W1; try apply W2; try assumption;
    fold D; lia.
Qed.

(** The theorem at work: 2025-03-12 was a Wednesday, two days after the
    Monday of its week. *)
Lemma get_week_range_monday_to_sunday_witness :
  calendar_date march_12
  /\ exists mon sun k,
       get_week_range 3600 march_10 (sprintf_date march_12)
       = (sprintf_date mon, sprintf_date sun)
       /\ calendar_date mon /\ calendar_date sun /\ 1000 <= yy mon
       /\ is_monday mon
       /\ (k <= 6)%nat /\ days_later mon k march_12 /\ days_later mon 6 sun.
Proof.
  assert (H : calendar_date march_12)
    by (unfold calendar_date, well_formed; vm_compute; intuition discriminate).
  split; [exact H|].
  apply (get_week_range_monday_to_sunday 3600 march_10 march_12 H).
  vm_compute. intuition discriminate.
Defined.


(** ** Dates that are valid, dates that are in the future *)

Lemma fmt_0d_int_text (w : nat) (n : Z) : int_text (C.fmt_0d w n) n.
Proof.
  destruct (Z.le_gt_cases 0 n) as [Hn|Hn]; [now apply fmt_0d_text|].
  unfold C.fmt_0d. destruct (Z.ltb_spec n 0); [|lia].
  destruct (dec_spec (- n)) as (Hd & Hne & Hv); [lia|].
  set (k := (w - 1 - String.length (C.dec (- n)))%nat).
  destruct (zeros_spec k (C.dec (- n))) as [Hz1 Hz2].
  replace n with (- decimal (C.zeros k ++ C.dec (- n))) at 2 by lia.
  apply (int_minus "" (C.zeros k ++ C.dec (- n))); [reflexivity|congruence|].
  destruct k; [assumption|discriminate].
Qed.

Lemma sprintf_date_begins (t : ymd) :
  begins_with_three "-" (sprintf_date t) (yy t) (mm t) (dd t).
Proof.
  exists (C.fmt_0d 4 (yy t)), (C.fmt_0d 2 (mm t)), (C.fmt_0d 2 (dd t)), "".
  repeat split; try apply fmt_0d_int_text.
  unfold sprintf_date. now rewrite append_nil_r.
Qed.

Lemma validate_date_shape (u : ymd) (s : string) (y m d : Z) :
  begins_with_three "-" s y m d ->
  (validate_date u s = true <-> in_ranges y m d).
Proof.
  intros H. unfold validate_date, in_ranges.
  change fmt_ymd_dash with (three_d "-" set_yy set_mm set_dd).
  rewrite (three_d_complete "-" _ _ _ _ _ _ _ u eq_refl H).
  cbn [Z.eqb Pos.eqb negb set_yy set_mm set_dd yy mm dd].
  rewrite !andb_true_iff, !Z.leb_le. tauto.
Qed.

Lemma validate_date_no_shape (u : ymd) (s : string) :
  (forall y m d, ~ begins_with_three "-" s y m d) -> validate_date u s = false.
Proof.
  intros H. unfold validate_date.
  change fmt_ymd_dash with (three_d "-" set_yy set_mm set_dd).
  pose proof (three_d_count "-" set_yy set_mm set_dd s u H) as N.
  destruct (C.sscanf _ s u) as [n t]. cbn [fst] in N.
  now destruct (Z.eqb_spec n 3).
Qed.

(** X5.  For three integers that fit an [int]: a text that begins with
    them, separated by [-], is accepted by [validate_date] exactly when
    the first is 2024 or more, the second from 1 to 12 and the third from
    1 to 31, whatever the month; a text that begins with them in either
    shape of [parse_date] is normalised to a date that [validate_date]
    accepts exactly when year, month and day are in these ranges.  A text
    that does not begin with three integers separated by [-] is refused,
    and so is what [parse_date] makes of a text in neither shape. *)
Theorem validate_date_ranges (u : ymd) (s : string) (y m d : Z) :
  fits_int y -> fits_int m -> fits_int d ->
  (begins_with_three "-" s y m d ->
   (validate_date u s = true <-> in_ranges y m d))
  /\ (begins_with_three "-" s y m d \/ begins_with_three "/" s d m y ->
      forall u', validate_date u' (parse_date u s) = true <-> in_ranges y m d)
  /\ ((forall a b c, ~ begins_with_three "-" s a b c) ->
      validate_date u s = false)
  /\ ((forall a b c, ~ begins_with_three "-" s a b c) ->
      (forall a b c, ~ begins_with_three "/" s a b c) ->
      forall u', validate_date u' (parse_date u s) = false).
Proof.
  intros _ _ _.
  split; [apply validate_date_shape|].
  split; [|split; [apply validate_date_no_shape|]].
  - intros [Hs|Hs] u'.
    + rewrite (parse_date_dash u s y m d Hs).
      exact (validate_date_shape u' _ _ _ _
               (sprintf_date_begins {| yy := y; mm := m; dd := d |})).
    + rewrite (parse_date_slash u s d m y Hs).
      exact (validate_date_shape u' _ _ _ _
               (sprintf_date_begins {| yy := y; mm := m; dd := d |})).
  - intros H1 H2 u'. rewrite (parse_date_other u s H1 H2).
    vm_compute. reflexivity.
Qed.

(** The theorem at work: the 31st of February is accepted. *)
Lemma validate_date_ranges_witness :
  fits_int 2025 /\ fits_int 2 /\ fits_int 31
  /\ validate_date march_10 "2025-02-31" = true
  /\ (forall u', validate_date u' (parse_date march_10 "31/02/2025") = true).
Proof.
  assert (Hy : fits_int 2025) by (unfold fits_int; lia).
  assert (Hm : fits_int 2) by (unfold fits_int; lia).
  assert (Hd : fits_int 31) by (unfold fits_int; lia).
  assert (Hr : in_ranges 2025 2 31) by (unfold in_ranges; lia).
  split; [exact Hy|]. split; [exact Hm|]. split; [exact Hd|]. split.
  - apply (proj1 (validate_date_ranges march_10 "2025-02-31" 2025 2 31
                    Hy Hm Hd)); [|exact Hr].
    exists "2025", "02", "31", "".
    split; [apply (int_plain "" "2025"); [reflexivity|reflexivity|discriminate]|].
    split; [apply (int_plain "" "02"); [reflexivity|reflexivity|discriminate]|].
    split; [apply (int_plain "" "31"); [reflexivity|reflexivity|discriminate]|].
    split; reflexivity.
  - intros u'.
    apply (proj1 (proj2 (validate_date_ranges march_10 "31/02/2025" 2025 2 31
                           Hy Hm Hd))); [|exact Hr].
    right. exists "31", "02", "2025", "".
    split; [apply (int_plain "" "31"); [reflexivity|reflexivity|discriminate]|].
    split; [apply (int_plain "" "02"); [reflexivity|reflexivity|discriminate]|].
    split; [apply (int_plain "" "2025"); [reflexivity|reflexivity|discriminate]|].
    split; reflexivity.
Defined.

Lemma strftime_date_of (t : ymd) : C.strftime_date (tm_of t) = sprintf_date t.
Proof. apply strftime_date_normal. Qed.

(** X6.  For two dates of the calendar, written as [strftime] and
    [parse_date] write them, [is_date_in_future] holds exactly of today
    and of the dates after today. *)
Theorem is_date_in_future_calendar (today d : ymd) :
  calendar_date today -> calendar_date d ->
  (is_date_in_future (C.strftime_date (tm_of today)) (sprintf_date d) = true
   <-> d = today \/ date_before today d).
Proof.
  intros Ht Hd. rewrite strftime_date_of. unfold is_date_in_future.
  destruct (strcmp_dates d today Hd Ht) as [Hlt _].
  rewrite Z.leb_le.
  destruct (date_trichotomy d today) as [E|[B|B]].
  - split; [now left|]. intros _. subst d.
    unfold C.strcmp. now rewrite string_compare_refl.
  - split; [apply Hlt in B; lia|].
    unfold date_before in *. intros [->|B']; lia.
  - split; [now right|]. intros _.
    destruct (Z.lt_ge_cases (C.strcmp (sprintf_date d) (sprintf_date today)) 0)
      as [L|G]; [|lia].
    apply Hlt in L. unfold date_before in *. lia.
Qed.

(** The theorem at work: with 2025-03-10 for today, 2025-03-12 is in the
    future. *)
Lemma is_date_in_future_calendar_witness :
  is_date_in_future (C.strftime_date (tm_of march_10)) (sprintf_date march_12)
  = true.
Proof.
  apply (is_date_in_future_calendar march_10 march_12).
  - unfold calendar_date, well_formed. vm_compute. intuition discriminate.
  - unfold calendar_date, well_formed. vm_compute. intuition discriminate.
  - right. right. right. vm_compute. intuition discriminate.
Defined.


(** ** Accounts: signing up and logging in *)

Lemma string_forall_impl (p q : ascii -> bool) (s : string) :
  (forall c, p c = true -> q c = true) ->
  string_forall p s = true -> string_forall q s = true.
Proof.
  intros H. induction s as [|c s IH]; [reflexivity|]. cbn [string_forall].
  intros E. apply andb_true_iff in E as [E1 E2]. now rewrite (H c E1), IH.
Qed.


Lemma span_not_app (c : ascii) (t r : string) :
  string_forall (differs c) t = true ->
  C.span_not c (t ++ String c r) = (t, String c r).
Proof.
  induction t as [|a t IH]; cbn [append C.span_not string_forall]; intros H.
  - now rewrite Ascii.eqb_refl.
  - apply andb_true_iff in H as [Ha Ht]. unfold differs in Ha.
    apply negb_true_iff in Ha. now rewrite Ha, IH.
Qed.

Lemma scan_not_app (c : ascii) (t r : string) :
  t <> "" -> string_forall (differs c) t = true ->
  C.scan_not c (t ++ String c r) = Some (t, String c r).
Proof.
  intros Hn H. unfold C.scan_not. rewrite span_not_app by assumption.
  destruct t; [congruence|reflexivity].
Qed.

(** A text that starts with [c]: [%[^c]] stores nothing. *)
Lemma scan_not_empty (c : ascii) (r : string) :
  C.scan_not c (String c r) = None.
Proof. unfold C.scan_not. cbn [C.span_not]. now rewrite Ascii.eqb_refl. Qed.

Lemma span_word_app (t r : string) :
  string_forall (fun a => negb (C.isspace a)) t = true ->
  Clib.span_word (t ++ String "010" r) = (t, String "010" r).
Proof.
  induction t as [|a t IH]; cbn [append Clib.span_word string_forall]; intros H.
  - reflexivity.
  - apply andb_true_iff in H as [Ha Ht].
    apply negb_true_iff in Ha. now rewrite Ha, IH.
Qed.

Lemma scan_s_app (t r : string) :
  t <> "" -> string_forall (fun a => negb (C.isspace a)) t = true ->
  Clib.scan_s (t ++ String "010" r) = Some (t, String "010" r).
Proof.
  intros Hn H. unfold Clib.scan_s.
  destruct t as [|a t]; [congruence|].
  cbn [string_forall] in H. apply andb_true_iff in H as [Ha Ht].
  apply negb_true_iff in Ha.
  cbn [append C.skip_space]. rewrite Ha.
  change (String a (t ++ String "010" r)) with (String a t ++ String "010" r).
  rewrite span_word_app; [reflexivity|].
  cbn [string_forall]. now rewrite Ha, Ht.
Qed.

Lemma take_line_body (body rest : string) (k : nat) :
  string_forall (differs "010") body = true ->
  (String.length body < k)%nat ->
  C.take_line k ((body ++ nl) ++ rest) = (body ++ nl, rest).
Proof.
  revert k. induction body as [|c body IH]; intros k H Hk.
  - destruct k as [|k]; [cbn in Hk; lia|]. reflexivity.
  - destruct k as [|k]; [cbn in Hk; lia|].
    cbn [string_forall] in H. apply andb_true_iff in H as [Hc H].
    unfold differs in Hc. apply negb_true_iff in Hc.
    cbn [append C.take_line]. rewrite Hc, IH; [reflexivity|assumption|].
    cbn in Hk. lia.
Qed.

Lemma is_line_body (size : nat) (body : string) :
  string_forall (differs "010") body = true ->
  (String.length body + 1 < size)%nat ->
  is_line size (body ++ nl).
Proof.
  intros H Hk. split.
  - destruct body; discriminate.
  - intros rest. apply take_line_body; [assumption|lia].
Qed.


Lemma is_valid_username_loop_spec (s : string) :
  is_valid_username_loop s = string_forall word_char s.
Proof.
  induction s as [|c s IH]; [reflexivity|].
  cbn [is_valid_username_loop string_forall]. unfold word_char at 1.
  rewrite IH. now destruct (Clib.isalnum c), (Ascii.eqb c "_").
Qed.

Lemma is_valid_phone_loop_spec (s : string) :
  is_valid_phone_loop s = all_digits s.
Proof.
  induction s as [|c s IH]; [reflexivity|].
  cbn [is_valid_phone_loop all_digits]. rewrite IH. now destruct (C.isdigit c).
Qed.

Lemma is_valid_username_spec (s : string) :
  is_valid_username s = true <->
  (3 <= String.length s <= 20)%nat
  /\ (exists c r, s = String c r /\ Clib.isalpha c = true)
  /\ string_forall word_char s = true.
Proof.
  unfold is_valid_username, C.strlen. rewrite is_valid_username_loop_spec.
  destruct (Z.ltb_spec (Z.of_nat (String.length s)) 3);
    [cbn [orb]; split; [discriminate|lia]|].
  destruct (Z.ltb_spec 20 (Z.of_nat (String.length s)));
    [cbn [orb]; split; [discriminate|lia]|].
  cbn [orb]. destruct s as [|c r].
  - cbn [negb]. split; [discriminate|]. intros (_ & (c & r & E & _) & _). discriminate.
  - destruct (Clib.isalpha c) eqn:Hc; cbn [negb].
    + split; [intros H1; repeat split; try lia; eauto|tauto].
    + split; [discriminate|]. intros (_ & (c' & r' & E & Hc') & _).
      injection E as <- <-. congruence.
Qed.

Lemma is_valid_phone_spec (s : string) :
  is_valid_phone s = true <->
  (10 <= String.length s <= 15)%nat /\ all_digits s = true.
Proof.
  unfold is_valid_phone, C.strlen. rewrite is_valid_phone_loop_spec.
  destruct (Z.ltb_spec (Z.of_nat (String.length s)) 10);
    [cbn [orb]; split; [discriminate|lia]|].
  destruct (Z.ltb_spec 15 (Z.of_nat (String.length s)));
    [cbn [orb]; split; [discriminate|lia]|].
  cbn [orb]. split; [intros ->; split; [lia|reflexivity]|tauto].
Qed.

Lemma word_char_plain (c : ascii) :
  word_char c = true ->
  differs ":" c = true /\ differs "010" c = true /\ C.isspace c = false.
Proof.
  unfold word_char, Clib.isalnum, Clib.isalpha, C.isdigit, C.isspace, differs.
  intros H.
  assert (Hc : C.code c = 95 \/ 48 <= C.code c <= 57 \/ 65 <= C.code c <= 90
               \/ 97 <= C.code c <= 122).
  { destruct (Ascii.eqb_spec c "_") as [E|]; [left; now rewrite E|]. right.
    rewrite orb_false_r in H. lia. }
  assert (forall d, C.code c <> C.code d -> Ascii.eqb c d = false) as Hne.
  { intros d Hd. apply Ascii.eqb_neq. congruence. }
  rewrite (Hne ":"%char), (Hne "010"%char) by (cbn; lia).
  repeat split; lia.
Qed.

Lemma digit_plain (c : ascii) :
  C.isdigit c = true ->
  differs "010" c = true /\ C.isspace c = false.
Proof.
  unfold C.isdigit, C.isspace, differs. intros H.
  assert (Ascii.eqb c "010" = false) as ->
    by (apply Ascii.eqb_neq; intros ->; discriminate H).
  split; [reflexivity|lia].
Qed.

(** The line of an account that the form accepts is one [fgets], and is
    read back as written, whatever the arrays held. *)
Lemma user_line_read_back (u p : string) (v : user_vars) :
  is_valid_username u = true -> is_valid_phone p = true ->
  is_line MAX_LEN (user_line u p)
  /\ C.sscanf fmt_user (user_line u p) v
     = (2, {| saved_username := u; saved_phone := p;
              overrun := overrun v || overruns 15 p |}).
Proof.
  intros Hu Hp.
  apply is_valid_username_spec in Hu as (Lu & (c & r & Eu & _) & Fu).
  apply is_valid_phone_spec in Hp as (Lp & Dp).
  assert (Fu1 : string_forall (differs ":") u = true)
    by (revert Fu; apply string_forall_impl; intros a Ha;
        now apply word_char_plain in Ha).
  assert (Fu2 : string_forall (differs "010") u = true)
    by (revert Fu; apply string_forall_impl; intros a Ha;
        now apply word_char_plain in Ha).
  assert (Dp' : string_forall C.isdigit p = true).
  { clear Lp. induction p as [|a p IH]; [reflexivity|].
    cbn [all_digits string_forall] in *.
    apply andb_true_iff in Dp as [-> Dp]. now rewrite IH. }
  assert (Fp1 : string_forall (differs "010") p = true)
    by (revert Dp'; apply string_forall_impl; intros a Ha;
        now apply digit_plain in Ha).
  assert (Fp2 : string_forall (fun a => negb (C.isspace a)) p = true).
  { revert Dp'; apply string_forall_impl; intros a Ha.
    apply digit_plain in Ha as [_ ->]. reflexivity. }
  split.
  - unfold user_line.
    replace (u ++ ":" ++ p ++ nl) with ((u ++ ":" ++ p) ++ nl)
      by (now rewrite !append_assoc).
    apply is_line_body.
    + rewrite string_forall_app, Fu2. cbn [append string_forall]. now rewrite Fp1.
    + rewrite length_append. cbn [append String.length]. unfold MAX_LEN. lia.
  - unfold user_line, fmt_user. cbn [C.sscanf].
    change (":" ++ p ++ nl) with (String ":" (p ++ nl)).
    rewrite scan_not_app; [|subst u; discriminate|assumption].
    rewrite Ascii.eqb_refl.
    unfold nl. rewrite scan_s_app; [|destruct p; [cbn in Lp; lia|discriminate]|assumption].
    unfold set_saved_username, set_saved_phone.
    cbn [saved_username saved_phone overrun].
    assert (overruns MAX_LEN u = false) as ->
      by (unfold overruns, MAX_LEN; apply Nat.leb_gt; lia).
    now rewrite orb_false_r.
Qed.


Lemma username_exists_loop_app (us : list (string * string))
    (rest : list string) (g : nat -> string * string) (i : nat) (u : string) :
  Forall account_ok us ->
  username_exists_loop
    (map (fun p => user_line (fst p) (snd p)) us ++ rest) g i u
  = if existsb (named u) us then Some true
    else username_exists_loop rest g (i + List.length us) u.
Proof.
  intros H. revert i. induction H as [|[n ph] us (Hn & Hp & Hl) _ IH]; intros i.
  - cbn [map app existsb List.length]. now rewrite Nat.add_0_r.
  - cbn [map app username_exists_loop existsb fst snd List.length] in *.
    destruct (user_line_read_back n ph (user_locals g i) Hn Hp) as [_ ->].
    cbn [snd overrun saved_username user_locals orb].
    assert (overruns 15 ph = false) as ->
      by (unfold overruns; apply Nat.leb_gt; lia).
    rewrite strcmp_eq. unfold named at 1. cbn [fst].
    destruct (String.eqb u n); [reflexivity|].
    cbn [orb]. rewrite IH. now rewrite Nat.add_succ_r.
Qed.

Lemma validate_loop_app (us : list (string * string)) (rest : list string)
    (g : nat -> string * string) (i : nat) (u ph : string) :
  Forall account_ok us ->
  validate_user_credentials_loop
    (map (fun p => user_line (fst p) (snd p)) us ++ rest) g i u ph
  = if existsb (matches u ph) us then Some true
    else validate_user_credentials_loop rest g (i + List.length us) u ph.
Proof.
  intros H. revert i. induction H as [|[n p] us (Hn & Hp & Hl) _ IH]; intros i.
  - cbn [map app existsb List.length]. now rewrite Nat.add_0_r.
  - cbn [map app validate_user_credentials_loop existsb fst snd List.length] in *.
    destruct (user_line_read_back n p (user_locals g i) Hn Hp) as [_ ->].
    cbn [snd overrun saved_username saved_phone user_locals orb].
    assert (overruns 15 p = false) as ->
      by (unfold overruns; apply Nat.leb_gt; lia).
    rewrite !strcmp_eq. unfold matches at 1. cbn [fst snd].
    destruct (String.eqb u n && String.eqb ph p); [reflexivity|].
    cbn [orb]. rewrite IH. now rewrite Nat.add_succ_r.
Qed.

Lemma username_exists_loop_ok (us : list (string * string))
    (g : nat -> string * string) (i : nat) (u : string) :
  Forall account_ok us ->
  username_exists_loop (map (fun p => user_line (fst p) (snd p)) us) g i u
  = Some (existsb (named u) us).
Proof.
  intros H. rewrite <- (app_nil_r (map _ us)), username_exists_loop_app by assumption.
  now destruct (existsb (named u) us).
Qed.

Lemma validate_loop_ok (us : list (string * string))
    (g : nat -> string * string) (i : nat) (u ph : string) :
  Forall account_ok us ->
  validate_user_credentials_loop
    (map (fun p => user_line (fst p) (snd p)) us) g i u ph
  = Some (existsb (matches u ph) us).
Proof.
  intros H. rewrite <- (app_nil_r (map _ us)), validate_loop_app by assumption.
  now destruct (existsb (matches u ph) us).
Qed.

Lemma user_lines (us : list (string * string)) :
  Forall (fun p => is_valid_username (fst p) = true
                   /\ is_valid_phone (snd p) = true) us ->
  C.fgets_lines MAX_LEN (written (map (fun p => user_line (fst p) (snd p)) us))
  = map (fun p => user_line (fst p) (snd p)) us.
Proof.
  intros H. apply fgets_written.
  induction H as [|[n p] us [Hn Hp] _ IH]; constructor; [|assumption].
  now destruct (user_line_read_back n p (user_locals (fun _ => ("", "")) 0) Hn Hp).
Qed.

Lemma account_ok_valid (us : list (string * string)) :
  Forall account_ok us ->
  Forall (fun p => is_valid_username (fst p) = true
                   /\ is_valid_phone (snd p) = true) us.
Proof. apply Forall_impl. intros p (H1 & H2 & _). now split. Qed.

Lemma existsb_named (u : string) (us : list (string * string)) :
  existsb (named u) us = true <-> In u (map fst us).
Proof.
  rewrite existsb_exists, in_map_iff. unfold named. split.
  - intros (p & Hin & E). apply String.eqb_eq in E. eauto.
  - intros (p & E & Hin). exists p. subst u. now rewrite String.eqb_refl.
Qed.

Lemma existsb_matches (u ph : string) (us : list (string * string)) :
  existsb (matches u ph) us = true <-> In (u, ph) us.
Proof.
  rewrite existsb_exists. unfold matches. split.
  - intros ([n p] & Hin & E). apply andb_true_iff in E as [E1 E2].
    apply String.eqb_eq in E1, E2. cbn in *. now subst.
  - intros Hin. exists (u, ph). cbn. now rewrite !String.eqb_refl.
Qed.

(** On a user file of accepted accounts the two readers answer, and
    they answer by the accounts. *)
Lemma credentials_ok (us : list (string * string)) (a : accounts)
    (g : nat -> string * string) (u ph : string) :
  user_file_of us a ->
  validate_user_credentials a g u ph = Some (existsb (matches u ph) us)
  /\ username_exists a g u = Some (existsb (named u) us).
Proof.
  intros (Hf & Hok & _).
  unfold validate_user_credentials, username_exists. rewrite Hf.
  rewrite user_lines by now apply account_ok_valid.
  now rewrite validate_loop_ok, username_exists_loop_ok by assumption.
Qed.

(** X8.  [is_valid_username] accepts exactly the texts of 3 to 20
    characters that start with a letter and are made of letters, digits
    and underscores; [is_valid_phone] accepts exactly the texts of 10 to 15
    digits.  The line that [register_user] writes for a valid name and a
    valid phone number is read by one [fgets] of the readers, and [sscanf]
    reads the name and the phone number back from it. *)
Theorem sign_up_validation (username phone : string) :
  (is_valid_username username = true
   <-> (3 <= String.length username <= 20)%nat
       /\ (exists c r, username = String c r /\ Clib.isalpha c = true)
       /\ string_forall word_char username = true)
  /\ (is_valid_phone phone = true
      <-> (10 <= String.length phone <= 15)%nat /\ all_digits phone = true)
  /\ (is_valid_username username = true -> is_valid_phone phone = true ->
      is_line MAX_LEN (user_line username phone)
      /\ forall v,
           C.sscanf fmt_user (user_line username phone) v
           = (2, {| saved_username := username; saved_phone := phone;
                    overrun := overrun v || overruns 15 phone |})).
Proof.
  split; [apply is_valid_username_spec|].
  split; [apply is_valid_phone_spec|].
  intros Hu Hp. split.
  - now destruct (user_line_read_back username phone
                    (user_locals (fun _ => ("", "")) 0) Hu Hp).
  - intros v. now destruct (user_line_read_back username phone v Hu Hp).
Qed.

(** The accounts of the examples are accepted accounts. *)
Ltac two_accounts_ok :=
  split; [vm_compute; reflexivity|];
  split; [repeat (constructor; [repeat split; cbn; lia|]); constructor|];
  repeat (constructor; [cbn; intuition discriminate|]); constructor.

Ltac strings_differ := apply String.eqb_neq; vm_compute; reflexivity.

Lemma written_app (l1 l2 : list string) :
  written (l1 ++ l2) = written l1 ++ written l2.
Proof.
  induction l1 as [|x l1 IH]; [reflexivity|].
  cbn [app written]. now rewrite IH, append_assoc.
Qed.

Lemma user_file_text (us : list (string * string)) (u ph : string) :
  written (map (fun p => user_line (fst p) (snd p)) us) ++ user_line u ph
  = written (map (fun p => user_line (fst p) (snd p)) (us ++ [(u, ph)])).
Proof.
  rewrite map_app, written_app. cbn [map written fst snd].
  now rewrite append_nil_r.
Qed.

(** The outcome of a registration on a user file of accepted accounts. *)
Lemma register_user_ok (us : list (string * string)) (a : accounts)
    (g : nat -> string * string) (u ph : string) :
  user_file_of us a ->
  register_user a g u ph
  = if existsb (named u) us then Some (false, a)
    else Some (true,
               set_USER_FILE
                 (written (map (fun p => user_line (fst p) (snd p))
                             (us ++ [(u, ph)]))) a).
Proof.
  intros (Hf & Hok & _). unfold register_user, username_exists. rewrite Hf.
  rewrite user_lines by now apply account_ok_valid.
  rewrite username_exists_loop_ok by assumption.
  destruct (existsb (named u) us); [reflexivity|].
  cbn [append_text]. now rewrite user_file_text.
Qed.

(** X9.  On a user file of accepted accounts, no name twice,
    [on_sign_up_submit_clicked] ends without a store past the end of an
    array.  Where the name and the phone number of the entries are valid,
    the two phone entries agree and the name is not that of an account, it
    reports the registration, shows the login screen and adds the line of
    the new account at the end of the file; with a phone number of fewer
    than 15 digits the file is again one of accepted accounts, no name
    twice.  In every other case the files are left as they were and only
    the status label changes, to a text other than that of a
    registration. *)
Theorem sign_up_keeps_accounts (us : list (string * string)) (a : accounts)
    (g : nat -> string * string) (w : gui) :
  user_file_of us a ->
  let u := signup_username_entry w in
  let ph := signup_phone_entry w in
  let accepted :=
    is_valid_username u = true /\ is_valid_phone ph = true
    /\ signup_confirm_phone_entry w = ph /\ ~ In u (map fst us) in
  exists w' a',
    on_sign_up_submit_clicked a g w = Some (w', a')
    /\ (accepted ->
        status_label w' = "Registration successful! Please login."
        /\ visible_child_name w' = "customer_login"
        /\ USER_FILE a'
           = Some (written (map (fun p => user_line (fst p) (snd p))
                              (us ++ [(u, ph)])))
        /\ ((String.length ph < 15)%nat -> user_file_of (us ++ [(u, ph)]) a'))
    /\ (~ accepted ->
        a' = a /\ w' = update_status (status_label w') w
        /\ status_label w' <> "Registration successful! Please login.").
Proof.
  intros Hfile u ph accepted. subst accepted.
  unfold on_sign_up_submit_clicked. fold u. fold ph.
  destruct (is_valid_username u) eqn:Hu; cbn [negb].
  2:{ eexists _, _. split; [reflexivity|]. split; [intros (? & _); discriminate|].
      intros _. cbn [status_label update_status].
      repeat split; strings_differ. }
  destruct (is_valid_phone ph) eqn:Hp; cbn [negb].
  2:{ eexists _, _. split; [reflexivity|].
      split; [intros (_ & ? & _); discriminate|].
      intros _. cbn [status_label update_status].
      repeat split; strings_differ. }
  rewrite strcmp_eq.
  destruct (String.eqb_spec ph (signup_confirm_phone_entry w)) as [Ec|Ec];
    cbn [negb].
  2:{ eexists _, _. split; [reflexivity|].
      split; [intros (_ & _ & ? & _); congruence|].
      intros _. cbn [status_label update_status].
      repeat split; strings_differ. }
  rewrite (register_user_ok us a g u ph Hfile).
  destruct (existsb (named u) us) eqn:Ex.
  - apply existsb_named in Ex.
    eexists _, _. split; [reflexivity|].
    split; [intros (_ & _ & _ & ?); contradiction|].
    intros _. cbn [status_label update_status].
    repeat split; strings_differ.
  - assert (Hfresh : ~ In u (map fst us)).
    { intros Hin. apply existsb_named in Hin. congruence. }
    eexists _, _. split; [reflexivity|].
    split; [|intros H; exfalso; apply H; auto].
    intros _. split; [reflexivity|]. split; [reflexivity|].
    split; [reflexivity|].
    intros Hl. destruct Hfile as (_ & Hok & Hnd).
    split; [reflexivity|]. split.
    + apply Forall_app. split; [assumption|].
      constructor; [|constructor]. now repeat split.
    + rewrite map_app. cbn [map fst]. apply NoDup_app; try assumption.
      * constructor; [intros []|constructor].
      * intros x Hx [<-|[]]. contradiction.
Qed.

(** The theorem at work: carol signs up. *)
Lemma sign_up_keeps_accounts_witness :
  user_file_of two_accounts accounts_1
  /\ exists w' a',
       on_sign_up_submit_clicked accounts_1 no_garbage window_1 = Some (w', a')
       /\ status_label w' = "Registration successful! Please login."
       /\ user_file_of (two_accounts ++ [("carol", "5550001111")]) a'.
Proof.
  assert (H : user_file_of two_accounts accounts_1) by two_accounts_ok.
  split; [exact H|].
  destruct (sign_up_keeps_accounts two_accounts accounts_1 no_garbage
              window_1 H) as (w' & a' & E & Hacc & _).
  exists w', a'. split; [exact E|].
  destruct Hacc as (Hs & _ & _ & Hf).
  - repeat split; try reflexivity. intros [E1|[E1|[]]]; discriminate E1.
  - split; [exact Hs|]. apply Hf. cbn. lia.
Defined.

(** X10.  A phone number of 15 digits is valid for [is_valid_phone], and
    its registration succeeds.  From then on [sscanf] stores 16 characters
    into [saved_phone] whenever a reader of the user file reaches the new
    line: [validate_user_credentials] has no defined behaviour for any
    pair that is not an earlier account (the new one included), nor have
    [username_exists] and [register_user] for any name that is not that of
    an earlier account. *)
Theorem fifteen_digit_phone_overruns (us : list (string * string))
    (a : accounts) (g : nat -> string * string) (w : gui) :
  user_file_of us a ->
  is_valid_username (signup_username_entry w) = true ->
  is_valid_phone (signup_phone_entry w) = true ->
  String.length (signup_phone_entry w) = 15%nat ->
  signup_confirm_phone_entry w = signup_phone_entry w ->
  ~ In (signup_username_entry w) (map fst us) ->
  exists w' a',
    on_sign_up_submit_clicked a g w = Some (w', a')
    /\ status_label w' = "Registration successful! Please login."
    /\ (forall g' u ph,
          ~ In (u, ph) us -> validate_user_credentials a' g' u ph = None)
    /\ (forall g' u,
          ~ In u (map fst us) ->
          username_exists a' g' u = None
          /\ register_user a' g' u (signup_phone_entry w) = None).
Proof.
  intros Hfile Hu Hp Hl Hc Hfresh.
  unfold on_sign_up_submit_clicked.
  rewrite Hu, Hp, Hc, strcmp_eq, String.eqb_refl. cbn [negb].
  rewrite (register_user_ok us a g _ _ Hfile).
  assert (existsb (named (signup_username_entry w)) us = false) as ->.
  { destruct (existsb _ us) eqn:E; [|reflexivity].
    apply existsb_named in E. contradiction. }
  eexists _, _. split; [reflexivity|]. split; [reflexivity|].
  destruct Hfile as (_ & Hok & _).
  assert (Hlines :
    C.fgets_lines MAX_LEN
      (written (map (fun p => user_line (fst p) (snd p))
                  (us ++ [(signup_username_entry w, signup_phone_entry w)])))
    = (map (fun p => user_line (fst p) (snd p)) us
       ++ [user_line (signup_username_entry w) (signup_phone_entry w)])%list).
  { rewrite user_lines; [now rewrite map_app|].
    apply Forall_app. split; [now apply account_ok_valid|].
    constructor; [now split|constructor]. }
  assert (Hover : forall v,
    overrun (snd (C.sscanf fmt_user
                    (user_line (signup_username_entry w) (signup_phone_entry w))
                    v)) = true).
  { intros v. destruct (user_line_read_back _ _ v Hu Hp) as [_ ->].
    cbn [snd overrun]. unfold overruns. rewrite Hl. apply orb_true_r. }
  split.
  - intros g' u ph Hnot.
    unfold validate_user_credentials. cbn [USER_FILE set_USER_FILE].
    rewrite Hlines, validate_loop_app by assumption.
    destruct (existsb (matches u ph) us) eqn:E;
      [apply existsb_matches in E; contradiction|].
    cbn [validate_user_credentials_loop]. now rewrite Hover.
  - intros g' u Hnot.
    assert (username_exists
              (set_USER_FILE
                 (written (map (fun p => user_line (fst p) (snd p))
                    (us ++ [(signup_username_entry w, signup_phone_entry w)])))
                 a) g' u = None) as E.
    { unfold username_exists. cbn [USER_FILE set_USER_FILE].
      rewrite Hlines, username_exists_loop_app by assumption.
      destruct (existsb (named u) us) eqn:E;
        [apply existsb_named in E; contradiction|].
      cbn [username_exists_loop]. now rewrite Hover. }
    split; [exact E|]. unfold register_user. now rewrite E.
Qed.

(** The theorem at work: dora signs up with a phone number of 15 digits
    and cannot log in. *)
Lemma fifteen_digit_phone_overruns_witness :
  user_file_of two_accounts accounts_1
  /\ exists w' a',
       on_sign_up_submit_clicked accounts_1 no_garbage window_15
       = Some (w', a')
       /\ status_label w' = "Registration successful! Please login."
       /\ validate_user_credentials a' no_garbage "dora" "555000111122223"
          = None.
Proof.
  assert (H : user_file_of two_accounts accounts_1) by two_accounts_ok.
  split; [exact H|].
  destruct (fifteen_digit_phone_overruns two_accounts accounts_1 no_garbage
              window_15 H) as (w' & a' & E & Hs & Hv & _);
    try reflexivity.
  - intros [E1|[E1|[]]]; discriminate E1.
  - exists w', a'. split; [exact E|]. split; [exact Hs|].
    apply Hv. intros [E1|[E1|[]]]; discriminate E1.
Defined.

(** X11.  On a user file of accepted accounts, no name twice:
    [validate_user_credentials] holds exactly of the pairs of a name and a
    phone number that are an account, and [username_exists] exactly of the
    names of the accounts.  [on_customer_login_submit_clicked] with such a
    pair in the entries makes the name the current user and shows the
    customer menu, with the request to complete the profile if
    [profile_exists] does not hold of the name; with any other pair it
    leaves the session as it is and reports the invalid login. *)
Theorem login_of_registered_user (us : list (string * string))
    (fs : files) (a : accounts) (g : nat -> string * string)
    (gp : nat -> string) (w : gui) :
  user_file_of us a ->
  let u := username_entry w in
  let ph := phone_entry w in
  (forall n p,
     exists b, validate_user_credentials a g n p = Some b
               /\ (b = true <-> In (n, p) us))
  /\ (forall n,
        exists b, username_exists a g n = Some b
                  /\ (b = true <-> In n (map fst us)))
  /\ (In (u, ph) us ->
      exists w',
        on_customer_login_submit_clicked fs a g gp w = Some w'
        /\ current_user w' = u /\ visible_child_name w' = "customer_menu"
        /\ is_admin_logged_in w' = is_admin_logged_in w
        /\ status_label w'
           = if profile_exists fs gp u then status_label w
             else "Please complete your profile.")
  /\ (~ In (u, ph) us ->
      on_customer_login_submit_clicked fs a g gp w
      = Some (update_status "Invalid username or phone number." w)).
Proof.
  intros Hfile u ph.
  split; [|split].
  - intros n p. destruct (credentials_ok us a g n p Hfile) as [-> _].
    eexists. split; [reflexivity|]. apply existsb_matches.
  - intros n. destruct (credentials_ok us a g n "" Hfile) as [_ ->].
    eexists. split; [reflexivity|]. apply existsb_named.
  - destruct (credentials_ok us a g u ph Hfile) as [Hv _].
    unfold on_customer_login_submit_clicked. fold u. fold ph. rewrite Hv.
    split; intros Hin.
    + apply existsb_matches in Hin. rewrite Hin.
      cbn [current_user set_current_user].
      destruct (profile_exists fs gp u); cbn [negb];
        eexists; (split; [reflexivity|]); repeat split.
    + destruct (existsb (matches u ph) us) eqn:E; [|reflexivity].
      apply existsb_matches in E. contradiction.
Qed.

(** The theorem at work: alice logs in. *)
Lemma login_of_registered_user_witness :
  user_file_of two_accounts accounts_1
  /\ exists w',
       on_customer_login_submit_clicked fresh_files accounts_1 no_garbage
         no_name window_1 = Some w'
       /\ current_user w' = "alice"
       /\ visible_child_name w' = "customer_menu".
Proof.
  assert (H : user_file_of two_accounts accounts_1) by two_accounts_ok.
  split; [exact H|].
  destruct (login_of_registered_user two_accounts fresh_files accounts_1
              no_garbage no_name window_1 H) as (_ & _ & Hin & _).
  destruct Hin as (w' & E & Hu & Hv & _); [now left|].
  exists w'. now repeat split.
Defined.

(** ** The administrator's password and the data files *)

Lemma substring_0_0 (s : string) : String.substring 0 0 s = "".
Proof. now destruct s. Qed.

Lemma first_line_stored (k : nat) (p : string) :
  Clib.cut_newline (fst (C.take_line k (p ++ nl)))
  = String.substring 0 k (Clib.cut_newline p).
Proof.
  revert k. induction p as [|c p IH]; intros [|k];
    try (cbn [C.take_line fst Clib.cut_newline]; now rewrite substring_0_0).
  - reflexivity.
  - cbn [append C.take_line Clib.cut_newline].
    destruct (Ascii.eqb c "010") eqn:E.
    + cbn [fst Clib.cut_newline]. now rewrite E.
    + specialize (IH k). destruct (C.take_line k (p ++ nl)) as [l r].
      cbn [fst Clib.cut_newline String.substring] in *. now rewrite E, IH.
Qed.

Lemma cut_newline_none (p : string) :
  string_forall (differs "010") p = true -> Clib.cut_newline p = p.
Proof.
  induction p as [|c p IH]; [reflexivity|]. cbn [string_forall Clib.cut_newline].
  intros H. apply andb_true_iff in H as [Hc Hp]. unfold differs in Hc.
  apply negb_true_iff in Hc. now rewrite Hc, IH.
Qed.

Lemma substring_length (k : nat) (p : string) :
  String.length (String.substring 0 k p) = Nat.min k (String.length p).
Proof.
  revert k. induction p as [|c p IH]; intros [|k]; try reflexivity.
  cbn [String.substring String.length Nat.min]. now rewrite IH.
Qed.

Lemma substring_whole (k : nat) (p : string) :
  (String.length p <= k)%nat -> String.substring 0 k p = p.
Proof.
  revert k. induction p as [|c p IH]; intros [|k] H; try reflexivity.
  - cbn in H. lia.
  - cbn [String.substring]. rewrite IH; [reflexivity|]. cbn in H. lia.
Qed.

Lemma validate_after_change (a : accounts) (u p q : string) :
  validate_admin_password (change_admin_password p a) u q
  = (String.eqb q (String.substring 0 99 (Clib.cut_newline p)),
     change_admin_password p a).
Proof.
  unfold validate_admin_password, change_admin_password.
  cbn [ADMIN_PASS_FILE set_ADMIN_PASS_FILE].
  destruct (p ++ nl) as [|c r] eqn:E; [destruct p; discriminate|].
  rewrite <- E. change (MAX_LEN - 1)%nat with 99%nat.
  now rewrite first_line_stored, strcmp_eq.
Qed.

(** X12.  After [change_admin_password p], [validate_admin_password]
    accepts exactly the first 99 characters of the first line of [p]: for
    a password of one line and at most 99 characters, exactly [p]; a
    password of one line and 100 characters or more is no longer accepted
    itself. *)
Theorem admin_password_round_trip (a : accounts) (u p q : string) :
  validate_admin_password (change_admin_password p a) u q
  = (String.eqb q (String.substring 0 99 (Clib.cut_newline p)),
     change_admin_password p a)
  /\ (string_forall (differs "010") p = true ->
      ((String.length p <= 99)%nat ->
       fst (validate_admin_password (change_admin_password p a) u q)
       = String.eqb q p)
      /\ ((100 <= String.length p)%nat ->
          fst (validate_admin_password (change_admin_password p a) u p)
          = false)).
Proof.
  split; [apply validate_after_change|]. intros Hn.
  rewrite !validate_after_change, cut_newline_none by assumption. cbn [fst].
  split; intros Hl.
  - now rewrite substring_whole.
  - apply String.eqb_neq. intros E. apply (f_equal String.length) in E.
    rewrite substring_length in E. lia.
Qed.

(** X13.  [on_admin_change_password_clicked] refuses a new password of
    fewer than 6 characters, then one that differs from its confirmation,
    and leaves the files as they are; otherwise it stores the new
    password, and from then on [on_admin_login_submit_clicked] opens the
    administrator's menu with the new password in the entry and with no
    other (for a password of one line and fewer than 100 characters). *)
Theorem change_password_then_login (a : accounts) (w : gui) :
  let p := new_password_entry w in
  let r := on_admin_change_password_clicked a w in
  (C.strlen p < 6 ->
   r = (update_status "Password must be at least 6 characters long." w, a))
  /\ (6 <= C.strlen p -> confirm_password_entry w <> p ->
      r = (update_status "Passwords do not match." w, a))
  /\ (6 <= C.strlen p -> confirm_password_entry w = p ->
      r = (update_status "Admin password changed successfully." w,
           change_admin_password p a)
      /\ (string_forall (differs "010") p = true -> C.strlen p < 100 ->
          forall u w2,
            on_admin_login_submit_clicked (snd r) u w2
            = if String.eqb (password_entry w2) p
              then (show_admin_menu
                      (update_status "Admin login successful!"
                         (set_is_admin_logged_in true w2)), snd r)
              else (update_status "Invalid admin password." w2, snd r))).
Proof.
  intros p r. subst r. unfold on_admin_change_password_clicked. fold p.
  rewrite strcmp_eq.
  destruct (Z.ltb_spec (C.strlen p) 6) as [Hs|Hs].
  - split; [reflexivity|]. split; intros; lia.
  - split; [intros; lia|].
    destruct (String.eqb_spec p (confirm_password_entry w)) as [Ec|Ec];
      cbn [negb].
    + split; [intros; congruence|]. intros _ _. split; [reflexivity|].
      intros Hn Hl u w2. cbn [snd]. unfold on_admin_login_submit_clicked.
      rewrite validate_after_change, cut_newline_none by assumption.
      rewrite substring_whole by (unfold C.strlen in Hl; lia).
      now destruct (String.eqb (password_entry w2) p).
    + split; [reflexivity|]. intros; congruence.
Qed.

Lemma seed_rooms_written :
  write_rooms (seed_room_list "Available") = seed_rooms.
Proof. vm_compute. reflexivity. Qed.

(** X14.  [initialize_files] leaves every file that exists as it is and
    creates the missing ones: the room file with the five rooms, the
    booking, user and profile files empty, the password file with
    [admin123]; a second call changes nothing.  The five rooms are read
    back in full by the readers of the room file, and with the password
    file missing [validate_admin_password] accepts exactly [admin123],
    before and after the call. *)
Theorem initialize_files_creates_missing (fs : files) (a : accounts) :
  let fs' := fst (initialize_files fs a) in
  let a' := snd (initialize_files fs a) in
  ROOM_FILE fs'
  = Some (match ROOM_FILE fs with
          | Some t => t
          | None => write_rooms (seed_room_list "Available")
          end)
  /\ BOOKING_FILE fs'
     = Some (match BOOKING_FILE fs with Some t => t | None => "" end)
  /\ USER_PROFILE_FILE fs'
     = Some (match USER_PROFILE_FILE fs with Some t => t | None => "" end)
  /\ USER_FILE a' = Some (match USER_FILE a with Some t => t | None => "" end)
  /\ ADMIN_PASS_FILE a'
     = Some (match ADMIN_PASS_FILE a with
             | Some t => t
             | None => "admin123" ++ nl
             end)
  /\ initialize_files fs' a' = (fs', a')
  /\ room_file_of MAX_LEN (seed_room_list "Available")
       (write_rooms (seed_room_list "Available"))
  /\ room_file_of (MAX_LEN * 3) (seed_room_list "Available")
       (write_rooms (seed_room_list "Available"))
  /\ (ADMIN_PASS_FILE a = None ->
      forall u q,
        validate_admin_password a' u q = (String.eqb q "admin123", a')
        /\ validate_admin_password a u q
           = (String.eqb q "admin123",
              set_ADMIN_PASS_FILE ("admin123" ++ nl) a)).
Proof.
  intros fs' a'. subst fs' a'.
  assert (R1 : room_file_of MAX_LEN (seed_room_list "Available")
                 (write_rooms (seed_room_list "Available")))
    by (split; [reflexivity|split; [closed_records|closed_lines]]).
  assert (R2 : room_file_of (MAX_LEN * 3) (seed_room_list "Available")
                 (write_rooms (seed_room_list "Available")))
    by (split; [reflexivity|split; [closed_records|closed_lines]]).
  assert (Hadmin : forall a0 u q,
            ADMIN_PASS_FILE a0 = Some ("admin123" ++ nl) ->
            validate_admin_password a0 u q = (String.eqb q "admin123", a0)).
  { intros a0 u q H. unfold validate_admin_password. rewrite H.
    now rewrite strcmp_eq. }
  rewrite seed_rooms_written.
  destruct fs as [[r|] [b|] [p|]], a as [[us|] [ad|]];
    (repeat (split; [reflexivity|]));
    (split; [rewrite <- seed_rooms_written; exact R1|]);
    (split; [rewrite <- seed_rooms_written; exact R2|]);
    try (intros H; discriminate H);
    intros _ u q; (split; [now apply Hadmin|]);
    unfold validate_admin_password; cbn [ADMIN_PASS_FILE];
    now rewrite strcmp_eq.
Qed.

(** ** Profiles: saving and reading *)

Lemma sscanf_keeps {V : Type} (P : V -> Prop) (fmt : list (C.directive V))
    (input : string) (v : V) :
  keeps P fmt -> P v -> P (snd (C.sscanf fmt input v)).
Proof.
  intros K. revert input v.
  induction K as [|c fmt K IH|A scan store fmt Hs K IH]; intros input v Hv;
    cbn [C.sscanf].
  - assumption.
  - destruct input as [|c' r]; [assumption|].
    destruct (Ascii.eqb c c'); [now apply IH|assumption].
  - destruct (scan input) as [[a r]|]; [|assumption].
    specialize (IH r (store a v) (Hs a v Hv)).
    destruct (C.sscanf fmt r (store a v)). assumption.
Qed.

Lemma through_array (b : buffer) (s : string) :
  b <> None -> through b s = (Some s, false).
Proof. destruct b; [reflexivity|congruence]. Qed.

Ltac keep_arrays :=
  intros ? [? ? ? ? ? ? ?] (? & ? & ? & ? & ? & ?);
  unfold arrays, set_current_username, set_full_name, set_id_number,
    set_email, set_address, set_phone in *; cbn in *;
  repeat match goal with
         | |- context [through ?b ?s] => rewrite (through_array b s) by assumption
         end;
  cbn; repeat split; try assumption; try discriminate;
  subst; reflexivity.

Lemma fmt_profile_keeps_arrays : keeps arrays fmt_profile.
Proof.
  unfold fmt_profile.
  repeat (first [apply keeps_lit | apply keeps_conv; [keep_arrays|]
                | apply keeps_nil]).
Qed.

Lemma fmt_profile_keeps_name (x : string) :
  keeps (fun v => current_username v = x) (tl fmt_profile).
Proof.
  unfold fmt_profile. cbn [tl].
  repeat (first [apply keeps_lit
                | apply keeps_conv;
                  [intros ? [? ? ? ? ? ? ?] ?;
                   unfold set_full_name, set_id_number, set_email, set_address,
                     set_phone; cbn in *;
                   match goal with
                   | |- context [through ?b ?s] => destruct (through b s)
                   end; assumption|]
                | apply keeps_nil]).
Qed.

Lemma sscanf_conv {V A : Type} (scan : string -> option (A * string))
    (store : A -> V -> V) (fmt : list (C.directive V)) (input : string)
    (v : V) :
  C.sscanf (C.Conv scan store :: fmt) input v
  = match scan input with
    | Some (a, r) =>
        let (n, v') := C.sscanf fmt r (store a v) in (n + 1, v')
    | None => (0, v)
    end.
Proof. reflexivity. Qed.

Lemma sscanf_lit {V : Type} (c c' : ascii) (fmt : list (C.directive V))
    (r : string) (v : V) :
  C.sscanf (C.Lit c :: fmt) (String c' r) v
  = if Ascii.eqb c c' then C.sscanf fmt r v else (0, v).
Proof. reflexivity. Qed.

Lemma scan_not_first (c a : ascii) (r : string) :
  a <> c ->
  exists r', C.scan_not c (String a r) = Some (name_of_upto c (String a r), r').
Proof.
  intros H. unfold C.scan_not, name_of_upto. cbn [C.span_not].
  destruct (Ascii.eqb_spec a c); [contradiction|].
  destruct (C.span_not c r) as [t r']. cbn [fst]. eauto.
Qed.

(** After [sscanf], [current_username] is the name of the line, if it has
    one. *)
Lemma profile_name_read (line : string) (v : profile_vars) :
  names_itself line ->
  current_username (snd (C.sscanf fmt_profile line v)) = name_of line.
Proof.
  intros (c & r & -> & Hc).
  destruct (scan_not_first ":" c r Hc) as (r' & E).
  change (name_of_upto ":" (String c r)) with (name_of (String c r)) in E.
  unfold fmt_profile. rewrite sscanf_conv, E.
  pose proof (sscanf_keeps _ _ r'
                (set_current_username (name_of (String c r)) v)
                (fmt_profile_keeps_name (name_of (String c r))) eq_refl) as K.
  unfold fmt_profile in K. cbn [tl] in K.
  destruct (C.sscanf _ r' (set_current_username (name_of (String c r)) v)).
  exact K.
Qed.

Lemma saved_username_read (line : string) (g : string) :
  names_itself line ->
  snd (C.sscanf fmt_saved_username line g) = name_of line.
Proof.
  intros (c & r & -> & Hc).
  destruct (scan_not_first ":" c r Hc) as (r' & E).
  change (name_of_upto ":" (String c r)) with (name_of (String c r)) in E.
  unfold fmt_saved_username. rewrite sscanf_conv, E.
  cbn [C.sscanf]. destruct r' as [|c' r']; [reflexivity|].
  now destruct (Ascii.eqb ":" c').
Qed.

(** A line with six fields is read back in full into arrays. *)
Lemma profile_line_read_back (u fn idn em ad ph : string) (v : profile_vars) :
  field u -> field fn -> field idn -> field em -> field ad -> last_field ph ->
  arrays v ->
  C.sscanf fmt_profile (profile_line u fn idn em ad ph) v
  = (6, {| current_username := u; full_name := Some fn;
           id_number := Some idn; email := Some em; address := Some ad;
           phone := Some ph; null_store := false |}).
Proof.
  intros (Nu & Cu & _) (Nf & Cf & _) (Ni & Ci & _) (Ne & Ce & _)
         (Na & Ca & _) (Np & Cp) (A1 & A2 & A3 & A4 & A5 & A6).
  destruct v as [cu [f|] [i|] [e|] [a|] [p|] ns];
    cbn [full_name id_number email address phone null_store] in *;
    try congruence.
  subst ns. unfold profile_line, fmt_profile, nl. cbn [append].
  repeat (rewrite sscanf_conv, scan_not_app by assumption;
          try rewrite sscanf_lit, Ascii.eqb_refl).
  reflexivity.
Qed.

Lemma profile_line_names_itself (u fn idn em ad ph : string) :
  field u ->
  names_itself (profile_line u fn idn em ad ph)
  /\ name_of (profile_line u fn idn em ad ph) = u.
Proof.
  intros (Nu & Cu & _). unfold profile_line, name_of, name_of_upto.
  cbn [append].
  rewrite span_not_app by assumption. split; [|reflexivity].
  destruct u as [|c u]; [congruence|]. exists c, (u ++ String ":" (fn ++ String ":" (idn ++ String ":" (em ++ String ":" (ad ++ String ":" (ph ++ nl)))))).
  split; [reflexivity|]. cbn [string_forall] in Cu.
  apply andb_true_iff in Cu as [Hc _]. unfold differs in Hc.
  apply negb_true_iff in Hc. now apply Ascii.eqb_neq.
Qed.

Lemma save_loop_spec (ls : list string) (g : nat -> string) (i : nat)
    (u new_line temp : string) (found : bool) :
  Forall names_itself ls ->
  save_user_profile_loop ls g i u new_line temp found
  = (temp ++ written (map (fun l => if String.eqb u (name_of l)
                                    then new_line else l) ls),
     found || existsb (fun l => String.eqb u (name_of l)) ls).
Proof.
  intros H. revert i temp found.
  induction H as [|l ls Hl _ IH]; intros i temp found.
  - cbn. now rewrite append_nil_r, orb_false_r.
  - cbn [save_user_profile_loop map written existsb].
    rewrite (saved_username_read l (g i) Hl), strcmp_eq.
    destruct (String.eqb u (name_of l)); rewrite IH, append_assoc;
      [now rewrite orb_true_r|reflexivity].
Qed.

Lemma save_user_profile_text (fs : files) (ls : list string)
    (g : nat -> string) (u fn idn em ad ph : string) :
  profile_lines fs ls ->
  save_user_profile fs g u fn idn em ad ph
  = set_USER_PROFILE_FILE
      (written (saved_lines u (profile_line u fn idn em ad ph) ls)) fs.
Proof.
  intros ([[Hf ->]|Hf] & Hl & Hn); unfold save_user_profile; rewrite Hf.
  - cbn. now rewrite append_nil_r.
  - rewrite fgets_written by assumption. rewrite save_loop_spec by assumption.
    cbn [append orb]. unfold saved_lines. rewrite written_app.
    destruct (existsb _ ls); cbn [written]; now rewrite !append_nil_r.
Qed.

Lemma saved_lines_ok (size : nat) (u new_line : string) (ls : list string) :
  Forall (is_line size) ls -> is_line size new_line ->
  Forall names_itself ls -> names_itself new_line ->
  Forall (is_line size) (saved_lines u new_line ls)
  /\ Forall names_itself (saved_lines u new_line ls).
Proof.
  intros Hl HL Hn HN. unfold saved_lines. split; apply Forall_app; split.
  - induction Hl as [|l ls H _ IH]; cbn [map]; [constructor|].
    inversion Hn; subst. constructor; [|now apply IH].
    now destruct (String.eqb u (name_of l)).
  - destruct (existsb _ ls); [constructor|constructor; [assumption|constructor]].
  - induction Hn as [|l ls H _ IH]; cbn [map]; [constructor|].
    inversion Hl; subst. constructor; [|now apply IH].
    now destruct (String.eqb u (name_of l)).
  - destruct (existsb _ ls); [constructor|constructor; [assumption|constructor]].
Qed.

(** [get_user_profile] on lines that have names: the first line named
    [u] is where it returns. *)
Lemma get_loop_skip (ls rest : list string) (u : string) (v : profile_vars) :
  Forall names_itself ls -> arrays v ->
  existsb (fun l => String.eqb u (name_of l)) ls = false ->
  exists v', arrays v'
    /\ get_user_profile_loop (ls ++ rest) u v = get_user_profile_loop rest u v'.
Proof.
  intros H. revert v. induction H as [|l ls Hl _ IH]; intros v Hv Hex.
  - now exists v.
  - cbn [existsb] in Hex. apply orb_false_iff in Hex as [Hne Hex].
    cbn [app get_user_profile_loop].
    pose proof (sscanf_keeps _ _ l v fmt_profile_keeps_arrays Hv) as Hv'.
    pose proof (profile_name_read l v Hl) as Hname.
    destruct Hv' as (A1 & A2 & A3 & A4 & A5 & A6).
    rewrite A6, Hname, strcmp_eq, Hne.
    apply IH; [|assumption]. now repeat split.
Qed.

Lemma get_loop_found (l : string) (rest : list string) (u : string)
    (v : profile_vars) (fn idn em ad ph : string) :
  l = profile_line u fn idn em ad ph ->
  field u -> field fn -> field idn -> field em -> field ad -> last_field ph ->
  arrays v ->
  get_user_profile_loop (l :: rest) u v
  = Some {| current_username := u; full_name := Some fn;
            id_number := Some idn; email := Some em; address := Some ad;
            phone := Some ph; null_store := false |}.
Proof.
  intros -> Hu Hf Hi He Ha Hp Hv. cbn [get_user_profile_loop].
  rewrite profile_line_read_back by assumption.
  cbn [snd null_store current_username].
  now rewrite strcmp_eq, String.eqb_refl.
Qed.

Lemma split_at_first (p : string -> bool) (ls : list string) :
  existsb p ls = true ->
  exists l1 l l2,
    ls = (l1 ++ l :: l2)%list /\ existsb p l1 = false /\ p l = true.
Proof.
  induction ls as [|x ls IH]; [discriminate|]. cbn [existsb].
  destruct (p x) eqn:E.
  - intros _. now exists [], x, ls.
  - cbn [orb]. intros H. destruct (IH H) as (l1 & l & l2 & -> & H1 & H2).
    exists (x :: l1), l, l2. cbn [existsb app]. now rewrite E.
Qed.

Lemma profile_exists_loop_spec (ls : list string) (g : nat -> string)
    (i : nat) (u : string) :
  Forall names_itself ls ->
  profile_exists_loop ls g i u
  = existsb (fun l => String.eqb u (name_of l)) ls.
Proof.
  intros H. revert i. induction H as [|l ls Hl _ IH]; intros i; [reflexivity|].
  cbn [profile_exists_loop existsb].
  rewrite (saved_username_read l (g i) Hl), strcmp_eq.
  destruct (String.eqb u (name_of l)); [reflexivity|apply IH].
Qed.

Lemma profile_line_is_line (u fn idn em ad ph : string) :
  field u -> field fn -> field idn -> field em -> field ad -> last_field ph ->
  (String.length (profile_line u fn idn em ad ph) < 400)%nat ->
  is_line (MAX_LEN * 4) (profile_line u fn idn em ad ph).
Proof.
  intros (_ & _ & Nu) (_ & _ & Nf) (_ & _ & Ni) (_ & _ & Ne) (_ & _ & Na)
         (_ & Np) Hlen.
  unfold profile_line in *.
  replace (u ++ ":" ++ fn ++ ":" ++ idn ++ ":" ++ em ++ ":" ++ ad ++ ":"
           ++ ph ++ nl)
    with ((u ++ ":" ++ fn ++ ":" ++ idn ++ ":" ++ em ++ ":" ++ ad ++ ":"
           ++ ph) ++ nl) by (now rewrite !append_assoc).
  apply is_line_body.
  - rewrite !string_forall_app. now rewrite Nu, Nf, Ni, Ne, Na, Np.
  - rewrite !length_append in *. cbn [String.length nl] in *.
    unfold MAX_LEN. lia.
Qed.

(** Closed fields and the lines of the examples. *)
Ltac closed_field := repeat split; (discriminate || reflexivity).

Ltac lines_with_email_ok :=
  split; [right; reflexivity|];
  split; [closed_lines|];
  repeat (constructor; [eexists _, _; split; [reflexivity|discriminate]|]);
  constructor.


(** X15.  A profile saved is the profile read.  On a profile file whose
    lines [fgets] reads whole and that start with a name, and for a name
    and four fields that are not empty and hold neither a colon nor a
    newline, a phone number that is not empty and holds no newline, and a
    line of fewer than 400 characters: after [save_user_profile],
    [get_user_profile] of the name stores the five fields as they were
    saved, [profile_exists] holds of the name, and the room and booking
    files are as they were. *)
Theorem profile_round_trip (fs : files) (ls : list string)
    (g gp : nat -> string) (u fn idn em ad ph : string) (v : profile_vars) :
  profile_lines fs ls ->
  field u -> field fn -> field idn -> field em -> field ad -> last_field ph ->
  (String.length (profile_line u fn idn em ad ph) < 400)%nat ->
  arrays v ->
  let fs' := save_user_profile fs g u fn idn em ad ph in
  get_user_profile fs' u v
  = Some {| current_username := u; full_name := Some fn;
            id_number := Some idn; email := Some em; address := Some ad;
            phone := Some ph; null_store := false |}
  /\ profile_exists fs' gp u = true
  /\ ROOM_FILE fs' = ROOM_FILE fs /\ BOOKING_FILE fs' = BOOKING_FILE fs.
Proof.
  intros Hfs Hu Hf Hi He Ha Hp Hlen Hv fs'. subst fs'.
  rewrite (save_user_profile_text fs ls g u fn idn em ad ph Hfs).
  set (L := profile_line u fn idn em ad ph) in *.
  destruct (profile_line_names_itself u fn idn em ad ph Hu) as [HN HNu].
  fold L in HN, HNu.
  assert (HL : is_line (MAX_LEN * 4) L)
    by (unfold L; apply profile_line_is_line; assumption).
  destruct Hfs as (_ & Hl & Hn).
  destruct (saved_lines_ok (MAX_LEN * 4) u L ls Hl HL Hn HN) as [Hl' Hn'].
  unfold get_user_profile, profile_exists.
  cbn [USER_PROFILE_FILE ROOM_FILE BOOKING_FILE set_USER_PROFILE_FILE].
  rewrite fgets_written by assumption.
  rewrite profile_exists_loop_spec by assumption.
  assert (Hex : exists l1 l2,
            saved_lines u L ls = (l1 ++ L :: l2)%list
            /\ Forall names_itself l1
            /\ existsb (fun l => String.eqb u (name_of l)) l1 = false).
  { unfold saved_lines.
    destruct (existsb (fun l => String.eqb u (name_of l)) ls) eqn:E.
    - destruct (split_at_first _ ls E) as (l1 & l & l2 & -> & H1 & H2).
      rewrite map_app. cbn [map]. rewrite H2, app_nil_r.
      exists (map (fun l => if String.eqb u (name_of l) then L else l) l1),
        (map (fun l => if String.eqb u (name_of l) then L else l) l2).
      split; [reflexivity|].
      apply Forall_app in Hn as [Hn1 _].
      assert (map (fun l => if String.eqb u (name_of l) then L else l) l1 = l1)
        as ->; [|now split].
      clear - H1. induction l1 as [|x l1 IH]; [reflexivity|].
      cbn [existsb map] in *. apply orb_false_iff in H1 as [-> H1].
      now rewrite IH.
    - exists ls, []. split; [|now split].
      f_equal. clear - E. induction ls as [|x ls IH]; [reflexivity|].
      cbn [existsb map] in *. apply orb_false_iff in E as [-> E].
      now rewrite IH. }
  destruct Hex as (l1 & l2 & -> & Hn1 & Hex1).
  split; [|split; [|now split]].
  - destruct (get_loop_skip l1 (L :: l2) u v Hn1 Hv Hex1) as (v' & Hv' & ->).
    now apply (get_loop_found L l2 u v' fn idn em ad ph).
  - rewrite existsb_app. cbn [existsb]. rewrite HNu, String.eqb_refl.
    now rewrite orb_true_r.
Qed.

(** The theorem at work: bob saves his profile beside that of alice. *)
Lemma profile_round_trip_witness :
  get_user_profile
    (save_user_profile files_with_email no_name "bob" "Bob B" "ID2"
       "bob@example.org" "2 Main St" "5557654321") "bob" empty_arrays
  = Some {| current_username := "bob"; full_name := Some "Bob B";
            id_number := Some "ID2"; email := Some "bob@example.org";
            address := Some "2 Main St"; phone := Some "5557654321";
            null_store := false |}
  /\ profile_exists
       (save_user_profile files_with_email no_name "bob" "Bob B" "ID2"
          "bob@example.org" "2 Main St" "5557654321") no_name "bob" = true
  /\ ROOM_FILE
       (save_user_profile files_with_email no_name "bob" "Bob B" "ID2"
          "bob@example.org" "2 Main St" "5557654321")
     = ROOM_FILE files_with_email
  /\ BOOKING_FILE
       (save_user_profile files_with_email no_name "bob" "Bob B" "ID2"
          "bob@example.org" "2 Main St" "5557654321")
     = BOOKING_FILE files_with_email.
Proof.
  apply (profile_round_trip files_with_email lines_with_email no_name no_name
           "bob" "Bob B" "ID2" "bob@example.org" "2 Main St" "5557654321"
           empty_arrays);
    try closed_field.
  - lines_with_email_ok.
  - apply Nat.ltb_lt. vm_compute. reflexivity.
Defined.

Lemma clear_profile_arrays (v : profile_vars) :
  arrays v ->
  exists p, checked (clear_profile v) = Some p
            /\ outputs p = outputs empty_arrays.
Proof.
  intros (A1 & A2 & A3 & A4 & A5 & A6).
  destruct v as [cu [f|] [i|] [e|] [a|] [p|] ns];
    cbn [full_name id_number email address phone null_store] in *;
    try congruence.
  subst ns. eexists. split; reflexivity.
Qed.

Lemma complete_read (l : string) (v : profile_vars) :
  complete l -> arrays v ->
  names_itself l
  /\ snd (C.sscanf fmt_profile l v)
     = snd (C.sscanf fmt_profile l empty_arrays)
  /\ null_store (snd (C.sscanf fmt_profile l v)) = false
  /\ current_username (snd (C.sscanf fmt_profile l v)) = name_of l.
Proof.
  intros (u & fn & idn & em & ad & ph & -> & Hu & Hf & Hi & He & Ha & Hp) Hv.
  destruct (profile_line_names_itself u fn idn em ad ph Hu) as [HN HNu].
  rewrite !profile_line_read_back; try assumption;
    [|unfold arrays, empty_arrays; cbn; repeat split; discriminate].
  cbn [snd null_store current_username]. now rewrite HNu.
Qed.

Lemma get_loop_lookup (ls : list string) (u : string) (v : profile_vars) :
  Forall complete ls -> arrays v ->
  option_map outputs (get_user_profile_loop ls u v)
  = Some (lookup_profile ls u).
Proof.
  intros H. revert v. unfold lookup_profile.
  induction H as [|l ls Hl _ IH]; intros v Hv.
  - cbn [get_user_profile_loop find].
    destruct (clear_profile_arrays v Hv) as (p & -> & E). cbn. now rewrite E.
  - cbn [get_user_profile_loop find].
    destruct (complete_read l v Hl Hv) as (HN & E & Hns & Hname).
    rewrite Hns, Hname, strcmp_eq.
    destruct (String.eqb u (name_of l)); [cbn [option_map]; now rewrite E|].
    apply IH. apply (sscanf_keeps _ _ l v fmt_profile_keeps_arrays Hv).
Qed.

Lemma get_user_profile_lookup (fs : files) (ls : list string) (u : string)
    (v : profile_vars) :
  profile_lines fs ls -> Forall complete ls -> arrays v ->
  option_map outputs (get_user_profile fs u v) = Some (lookup_profile ls u).
Proof.
  intros ([[Hf ->]|Hf] & Hl & _) Hc Hv; unfold get_user_profile; rewrite Hf.
  - destruct (clear_profile_arrays v Hv) as (p & -> & E). cbn. now rewrite E.
  - rewrite fgets_written by assumption. now apply get_loop_lookup.
Qed.

Lemma find_saved_lines (u u' L : string) (ls : list string) :
  name_of L = u -> u' <> u ->
  find (fun l => String.eqb u' (name_of l)) (saved_lines u L ls)
  = find (fun l => String.eqb u' (name_of l)) ls.
Proof.
  intros HL Hne. unfold saved_lines.
  assert (Hskip : String.eqb u' (name_of L) = false)
    by (rewrite HL; now apply String.eqb_neq).
  assert (Htail : forall b : bool,
            find (fun l => String.eqb u' (name_of l)) (if b then [] else [L])
            = None).
  { intros []; cbn [find]; [reflexivity|now rewrite Hskip]. }
  generalize (existsb (fun l => String.eqb u (name_of l)) ls). intros b.
  induction ls as [|x ls IH]; cbn [map app find]; [apply Htail|].
  destruct (String.eqb_spec u (name_of x)) as [E|E].
  - rewrite Hskip.
    assert (String.eqb u' (name_of x) = false) as ->
      by (apply String.eqb_neq; congruence).
    exact IH.
  - destruct (String.eqb u' (name_of x)); [reflexivity|exact IH].
Qed.

(** X16.  Saving one profile leaves the others as they are read.  On a
    profile file of complete lines (six fields, none empty), for a new
    profile as in the round trip and any other name: [get_user_profile] of
    that name stores after [save_user_profile] what it stored before. *)
Theorem save_user_profile_keeps_others (fs : files) (ls : list string)
    (g : nat -> string) (u fn idn em ad ph u' : string) (v : profile_vars) :
  profile_lines fs ls -> Forall complete ls ->
  field u -> field fn -> field idn -> field em -> field ad -> last_field ph ->
  (String.length (profile_line u fn idn em ad ph) < 400)%nat ->
  arrays v -> u' <> u ->
  option_map outputs
    (get_user_profile (save_user_profile fs g u fn idn em ad ph) u' v)
  = option_map outputs (get_user_profile fs u' v).
Proof.
  intros Hfs Hc Hu Hf Hi He Ha Hp Hlen Hv Hne.
  rewrite (get_user_profile_lookup fs ls u' v Hfs Hc Hv).
  rewrite (save_user_profile_text fs ls g u fn idn em ad ph Hfs).
  set (L := profile_line u fn idn em ad ph) in *.
  destruct (profile_line_names_itself u fn idn em ad ph Hu) as [HN HNu].
  fold L in HN, HNu.
  assert (HL : is_line (MAX_LEN * 4) L).
  { unfold L. apply profile_line_is_line; assumption. }
  assert (HC : complete L) by (exists u, fn, idn, em, ad, ph; unfold L; auto 10).
  destruct Hfs as (_ & Hl & Hn).
  destruct (saved_lines_ok (MAX_LEN * 4) u L ls Hl HL Hn HN) as [Hl' Hn'].
  rewrite (get_user_profile_lookup _ (saved_lines u L ls) u' v).
  - unfold lookup_profile. now rewrite find_saved_lines.
  - split; [now right|now split].
  - unfold saved_lines. apply Forall_app. split.
    + clear - Hc HC. induction Hc as [|x ls Hx _ IH]; cbn [map]; constructor;
        [now destruct (String.eqb u (name_of x))|assumption].
    + destruct (existsb _ ls); [constructor|constructor; [assumption|constructor]].
  - assumption.
Qed.

(** The theorem at work: bob saves his profile, that of alice stays. *)
Lemma save_user_profile_keeps_others_witness :
  option_map outputs
    (get_user_profile
       (save_user_profile files_with_email no_name "bob" "Bob B" "ID2"
          "bob@example.org" "2 Main St" "5557654321") "alice" empty_arrays)
  = option_map outputs (get_user_profile files_with_email "alice" empty_arrays).
Proof.
  apply (save_user_profile_keeps_others files_with_email lines_with_email
           no_name "bob" "Bob B" "ID2" "bob@example.org" "2 Main St"
           "5557654321" "alice" empty_arrays);
    try closed_field.
  - lines_with_email_ok.
  - constructor; [|constructor].
    exists "alice", "Alice A", "ID1", "alice@example.org", "1 Main St",
      "5551234567".
    split; [reflexivity|]. repeat split; (discriminate || reflexivity).
  - apply Nat.ltb_lt. vm_compute. reflexivity.
Defined.


(** X17.  [profile_exists] holds exactly of the names of the lines of the
    profile file (of none when the file is missing).  Where it does not
    hold, [get_user_profile] stores five empty texts; where it holds,
    [get_user_profile] has found a line of that name. *)
Theorem profile_exists_agrees (fs : files) (ls : list string)
    (g : nat -> string) (u : string) (v : profile_vars) :
  profile_lines fs ls -> arrays v ->
  (profile_exists fs g u = true <-> In u (map name_of ls))
  /\ (profile_exists fs g u = false ->
      exists p, get_user_profile fs u v = Some p
                /\ outputs p = (Some "", Some "", Some "", Some "", Some ""))
  /\ (profile_exists fs g u = true ->
      exists p, get_user_profile fs u v = Some p /\ current_username p = u).
Proof.
  intros ([[Hf ->]|Hf] & Hl & Hn) Hv; unfold profile_exists, get_user_profile;
    rewrite Hf.
  - split; [split; [discriminate|intros []]|]. split; [|discriminate].
    intros _. destruct (clear_profile_arrays v Hv) as (p & -> & E). eauto.
  - rewrite fgets_written by assumption.
    rewrite profile_exists_loop_spec by assumption.
    split; [|split].
    + rewrite existsb_exists, in_map_iff. split.
      * intros (l & Hin & E). apply String.eqb_eq in E. eauto.
      * intros (l & E & Hin). exists l. subst u. now rewrite String.eqb_refl.
    + intros Hex.
      destruct (get_loop_skip ls [] u v Hn Hv Hex) as (v' & Hv' & E).
      rewrite app_nil_r in E. rewrite E. cbn [get_user_profile_loop].
      destruct (clear_profile_arrays v' Hv') as (p & -> & E'). eauto.
    + intros Hex.
      destruct (split_at_first _ ls Hex) as (l1 & l & l2 & -> & H1 & H2).
      apply Forall_app in Hn as [Hn1 Hn2]. inversion Hn2 as [|? ? Hnl _]; subst.
      destruct (get_loop_skip l1 (l :: l2) u v Hn1 Hv H1) as (v' & Hv' & ->).
      cbn [get_user_profile_loop].
      pose proof (sscanf_keeps _ _ l v' fmt_profile_keeps_arrays Hv')
        as (_ & _ & _ & _ & _ & Hns).
      rewrite Hns, (profile_name_read l v' Hnl), strcmp_eq, H2.
      eexists. split; [reflexivity|].
      rewrite (profile_name_read l v' Hnl). apply String.eqb_eq in H2. auto.
Qed.

(** The theorem at work: carol has no profile, alice has one. *)
Lemma profile_exists_agrees_witness :
  (profile_exists files_with_email no_name "carol" = true
   <-> In "carol" (map name_of lines_with_email))
  /\ (profile_exists files_with_email no_name "carol" = false ->
      exists p, get_user_profile files_with_email "carol" empty_arrays = Some p
                /\ outputs p = (Some "", Some "", Some "", Some "", Some ""))
  /\ (profile_exists files_with_email no_name "carol" = true ->
      exists p, get_user_profile files_with_email "carol" empty_arrays = Some p
                /\ current_username p = "carol").
Proof.
  apply (profile_exists_agrees files_with_email lines_with_email no_name
           "carol" empty_arrays).
  - lines_with_email_ok.
  - repeat split; discriminate.
Defined.

(** ** Booking and revenue on files that are read back *)

(** The refusals at work: a stay that ends before it starts. *)
Lemma book_refusals_in_order_witness :
  on_book_room_clicked fresh_files clock_1 locals_1 "alice" (Some 101)
    "2025-06-03" "2025-06-01"
  = Status CheckoutNotAfterCheckin fresh_files.
Proof.
  pose proof (book_refusals_in_order fresh_files clock_1 locals_1 "alice" 101
                "2025-06-03" "2025-06-01") as H.
  cbv zeta in H. destruct H as [_ H]; [discriminate|].
  apply H; vm_compute; discriminate.
Defined.

(** A request without a selected room leaves the files. *)
Lemma book_refusal_keeps_files_witness :
  exists msg fs',
    on_book_room_clicked fresh_files clock_1 locals_1 "alice" None "" ""
    = Status msg fs'
    /\ is_refusal msg = true /\ fs' = fresh_files.
Proof.
  exists SelectRoom, fresh_files. split; [reflexivity|].
  split; [reflexivity|].
  apply (book_refusal_keeps_files fresh_files clock_1 locals_1 "alice" None
           "" "" SelectRoom fresh_files); reflexivity.
Defined.

(** Room 101 is taken from 2025-06-10 to 2025-06-12 and free from then
    on. *)
Lemma is_room_available_read_back_witness :
  is_room_available dated_files alice_booking 101 "2025-06-11" "2025-06-13"
  = false
  /\ is_room_available dated_files alice_booking 101 "2025-06-12" "2025-06-13"
     = true.
Proof.
  assert (H : booking_file_of (MAX_LEN * 3) dated_bookings
                (write_bookings dated_bookings))
    by (split; [reflexivity|split; [closed_records|closed_lines]]).
  split.
  - exact (is_room_available_read_back dated_files alice_booking
             dated_bookings (write_bookings dated_bookings) 101 "2025-06-11"
             "2025-06-13" eq_refl H).
  - exact (is_room_available_read_back dated_files alice_booking
             dated_bookings (write_bookings dated_bookings) 101 "2025-06-12"
             "2025-06-13" eq_refl H).
Defined.

Lemma weekly_revenue_loop_read_back (bs : list Booking) (u : Booking)
    (start_date end_date : string) (revenue : C.float) :
  Forall reads_back_booking bs ->
  weekly_revenue_loop (map booking_line bs) u start_date end_date revenue
  = fold_left (fun sum b => C.fadd sum (total_price b))
      (filter (counts_in_week (start_date, end_date)) bs) revenue.
Proof.
  intros H. revert u revenue.
  induction H as [|b bs Hb _ IH]; intros u revenue; [reflexivity|].
  cbn [map weekly_revenue_loop filter]. rewrite Hb. cbn [snd].
  unfold counts_in_week at 1. cbn [fst snd].
  destruct (_ && _); cbn [fold_left]; apply IH.
Qed.

(** X4.  On a booking file whose lines are read back as they were
    written, [calculate_daily_revenue] is the sum, in the order of the
    file, of the totals of the active bookings whose booking date begins
    with the date asked for, and [calculate_weekly_revenue] is the sum of
    the totals of the active bookings whose booking date, cut to ten
    characters, lies between the two dates of [get_week_range], ends
    included. *)
Theorem revenue_read_back (offset : Z) (fs : files) (w : ymd) (u : Booking)
    (bs : list Booking) (text date : string) :
  BOOKING_FILE fs = Some text -> booking_file_of (MAX_LEN * 3) bs text ->
  calculate_daily_revenue fs u date = sum_totals (filter (counts_on date) bs)
  /\ calculate_weekly_revenue offset fs w u date
     = sum_totals (filter (counts_in_week (get_week_range offset w date)) bs).
Proof.
  intros Hf Hb. split; [now apply (daily_revenue_read_back fs u bs text)|].
  destruct Hb as (-> & Hback & Hline). unfold calculate_weekly_revenue.
  destruct (get_week_range offset w date) as [start_date end_date].
  rewrite Hf. unfold write_bookings. rewrite fgets_written by assumption.
  now apply weekly_revenue_loop_read_back.
Qed.

(** The theorem at work: alice's booking of 2025-06-02 counts for the day
    and for the week, bob's canceled one of the day after does not. *)
Lemma revenue_read_back_witness :
  calculate_daily_revenue dated_files alice_booking "2025-06-02" = f200
  /\ calculate_weekly_revenue 0 dated_files march_10 alice_booking
       "2025-06-02" = f200.
Proof.
  assert (H : booking_file_of (MAX_LEN * 3) dated_bookings
                (write_bookings dated_bookings))
    by (split; [reflexivity|split; [closed_records|closed_lines]]).
  destruct (revenue_read_back 0 dated_files march_10 alice_booking
              dated_bookings (write_bookings dated_bookings) "2025-06-02"
              eq_refl H) as [Hd Hw].
  split; (etransitivity; [eassumption|vm_compute; reflexivity]).
Defined.

(** ** What a booking leaves in the files *)

(** X18.  Where the room file holds rooms that are read back as written,
    a confirmed booking has a selected room, there are at most 100 rooms,
    and the room file is left with the status of every room of the
    selected number set to [Booked] and nothing else changed; the profile
    file is untouched. *)
Theorem booking_marks_room_booked (fs : files) (ck : clock) (l : book_locals)
    (user : string) (selected : option Z) (checkin checkout : string)
    (id nights : Z) (total : C.float) (fs' : files) (rs : list Room)
    (rtext : string) :
  on_book_room_clicked fs ck l user selected checkin checkout
  = Status (BookingConfirmed id total nights) fs' ->
  ROOM_FILE fs = Some rtext -> room_file_of MAX_LEN rs rtext ->
  exists number,
    selected = Some number
    /\ ROOM_FILE fs' = Some (write_rooms (map (mark number "Booked") rs))
    /\ USER_PROFILE_FILE fs' = USER_PROFILE_FILE fs
    /\ (List.length rs <= 100)%nat.
Proof.
  unfold on_book_room_clicked.
  destruct (C.strlen user =? 0); [discriminate|].
  destruct selected as [number|]; [|discriminate].
  destruct (_ || _); [discriminate|].
  destruct (0 <=? _); [discriminate|].
  destruct (negb (is_date_in_future _ _)); [discriminate|].
  destruct (negb (is_room_available _ _ _ _ _)); [discriminate|].
  destruct (get_user_profile _ _ _) as [p|]; [|discriminate].
  destruct (_ || _); [discriminate|].
  cbv zeta. cbn [ROOM_FILE set_BOOKING_FILE].
  intros H Hr (-> & Rback & Rline). rewrite Hr in H.
  unfold write_rooms in H. rewrite fgets_written in H by assumption.
  rewrite length_map in H.
  destruct (Z.ltb_spec MAX_ROOMS (Z.of_nat (List.length rs))); [discriminate|].
  rewrite read_rooms_back in H by assumption.
  injection H as <- <- <- <-. exists number.
  cbn [ROOM_FILE USER_PROFILE_FILE set_ROOM_FILE set_BOOKING_FILE].
  unfold MAX_ROOMS in *. repeat split; try reflexivity. lia.
Qed.

(** The theorem at work: alice books room 101. *)
Lemma booking_marks_room_booked_witness :
  exists number,
    Some 101 = Some number
    /\ ROOM_FILE files_alice_booked
       = Some (write_rooms
                 (map (mark number "Booked") (seed_room_list "Available")))
    /\ USER_PROFILE_FILE files_alice_booked = USER_PROFILE_FILE fresh_files
    /\ (List.length (seed_room_list "Available") <= 100)%nat.
Proof.
  apply (booking_marks_room_booked fresh_files clock_1 locals_1 "alice"
           (Some 101) "2025-06-01" "2025-06-03" 858400 2 f200
           files_alice_booked (seed_room_list "Available") seed_rooms).
  - vm_compute. reflexivity.
  - reflexivity.
  - split; [vm_compute; reflexivity|]. split; [closed_records|closed_lines].
Defined.

(** X19.  Without a room file [on_book_room_clicked] never confirms: a
    request that is not refused ends with the message of the failed
    status update, yet its booking has been appended to the booking file
    by then, active and with a total of zero. *)
Theorem booking_without_room_file (fs : files) (ck : clock) (l : book_locals)
    (user : string) (selected : option Z) (checkin checkout : string)
    (msg : message) (fs' : files) :
  ROOM_FILE fs = None ->
  on_book_room_clicked fs ck l user selected checkin checkout = Status msg fs' ->
  (is_refusal msg = true /\ fs' = fs)
  \/ (msg = ErrorUpdatingRoomStatus
      /\ exists number,
           selected = Some number
           /\ fs'
              = set_BOOKING_FILE
                  (append_text (BOOKING_FILE fs)
                     (booking_line
                        {| booking_id := Z.rem (now ck) 1000000;
                           booked_room := number; username := user;
                           booking_date := timestamp ck;
                           check_in_date := parse_date (in_ymd l) checkin;
                           check_out_date := parse_date (out_ymd l) checkout;
                           total_price := C.fzero;
                           booking_status := "active" |})) fs).
Proof.
  intros Hr. unfold on_book_room_clicked.
  destruct (C.strlen user =? 0); [intros [= <- <-]; now left|].
  destruct selected as [number|]; [|intros [= <- <-]; now left].
  destruct (_ || _); [intros [= <- <-]; now left|].
  destruct (0 <=? _); [intros [= <- <-]; now left|].
  destruct (negb (is_date_in_future _ _)); [intros [= <- <-]; now left|].
  destruct (negb (is_room_available _ _ _ _ _)); [intros [= <- <-]; now left|].
  destruct (get_user_profile _ _ _) as [p|]; [|discriminate].
  destruct (_ || _); [intros [= <- <-]; now left|].
  cbv zeta. cbn [ROOM_FILE set_BOOKING_FILE]. rewrite Hr.
  intros [= <- <-]. right. split; [reflexivity|]. now exists number.
Qed.

(** The theorem at work: alice books room 101, and there is no room
    file. *)
Lemma booking_without_room_file_witness :
  on_book_room_clicked files_without_rooms clock_1 locals_1 "alice" (Some 101)
    "2025-06-01" "2025-06-03"
  = Status ErrorUpdatingRoomStatus files_without_rooms_booked
  /\ exists number,
       Some 101 = Some number
       /\ files_without_rooms_booked
          = set_BOOKING_FILE
              (append_text (BOOKING_FILE files_without_rooms)
                 (booking_line
                    {| booking_id := Z.rem (now clock_1) 1000000;
                       booked_room := number; username := "alice";
                       booking_date := timestamp clock_1;
                       check_in_date := parse_date (in_ymd locals_1) "2025-06-01";
                       check_out_date :=
                         parse_date (out_ymd locals_1) "2025-06-03";
                       total_price := C.fzero;
                       booking_status := "active" |}))
              files_without_rooms.
Proof.
  assert (E : on_book_room_clicked files_without_rooms clock_1 locals_1
                "alice" (Some 101) "2025-06-01" "2025-06-03"
              = Status ErrorUpdatingRoomStatus files_without_rooms_booked)
    by (vm_compute; reflexivity).
  split; [exact E|].
  destruct (booking_without_room_file files_without_rooms clock_1 locals_1
              "alice" (Some 101) "2025-06-01" "2025-06-03"
              ErrorUpdatingRoomStatus files_without_rooms_booked eq_refl E)
    as [[H _]|[_ H]]; [discriminate H|exact H].
Defined.

Lemma fmt_d_int_text (n : Z) : int_text (C.fmt_d n) n.
Proof.
  unfold C.fmt_d. destruct (Z.ltb_spec n 0).
  - destruct (dec_spec (- n)) as (Hd & Hne & Hv); [lia|].
    replace n with (- decimal (C.dec (- n))) at 2 by lia.
    now apply (int_minus "" (C.dec (- n))).
  - destruct (dec_spec n) as (Hd & Hne & Hv); [lia|].
    rewrite <- Hv at 2. now apply (int_plain "" (C.dec n)).
Qed.

Lemma fmt_0d_digits (w : nat) (n : Z) :
  0 <= n ->
  all_digits (C.fmt_0d w n) = true /\ C.fmt_0d w n <> ""
  /\ decimal (C.fmt_0d w n) = n.
Proof.
  intros Hn. unfold C.fmt_0d. destruct (Z.ltb_spec n 0); [lia|].
  destruct (dec_spec n Hn) as (Hd & Hne & Hv).
  destruct (zeros_spec (w - String.length (C.dec n)) (C.dec n)) as [Hz1 Hz2].
  rewrite Hz1, Hz2. repeat split; try assumption.
  destruct (C.zeros _); [assumption|discriminate].
Qed.

Lemma scan_word_digit (w : string) (c : ascii) (r : string) :
  C.isdigit c = true -> w = "infinity" \/ w = "inf" \/ w = "nan" ->
  C.scan_word w (String c r) = None.
Proof.
  intros Hc Hw. unfold C.scan_word.
  destruct c as [[] [] [] [] [] [] [] []]; try discriminate Hc;
    destruct Hw as [->|[->| ->]]; reflexivity.
Qed.

(** [%f] on digits that a [-] follows reads the digits. *)
Lemma scan_f_digits (ds rest : string) :
  all_digits ds = true -> ds <> "" ->
  C.scan_f (ds ++ String "-" rest)
  = Some (C.float_of_decimal false (decimal ds) 0, String "-" rest).
Proof.
  intros Hd Hne. destruct ds as [|c ds]; [congruence|].
  assert (Hc : C.isdigit c = true)
    by (cbn [all_digits] in Hd; now apply andb_true_iff in Hd).
  unfold C.scan_f. cbn [append]. rewrite skip_space_digit by assumption.
  assert (C.scan_unsigned_float false (String c (ds ++ String "-" rest))
          = Some (C.float_of_decimal false (decimal (String c ds)) 0,
                  String "-" rest)) as E.
  { unfold C.scan_unsigned_float. rewrite !scan_word_digit by auto.
    unfold C.scan_decimal.
    change (String c (ds ++ String "-" rest))
      with (String c ds ++ String "-" rest).
    rewrite scan_digits_app by (assumption || reflexivity).
    cbn [append C.starts_with_digit]. rewrite Hc. cbn [orb].
    reflexivity. }
  destruct (digit_not_sign c Hc) as [H1 H2].
  destruct c as [[] [] [] [] [] [] [] []]; try exact E; congruence.
Qed.

(** A line whose booking date holds the time of the day is read back
    short: the hour ends the booking date. *)
Lemma booking_line_misread (b u : Booking) (dh mi ss : string) (ci : ymd) :
  plain (username b) -> plain dh -> plain mi -> plain ss ->
  booking_date b = dh ++ ":" ++ mi ++ ":" ++ ss ->
  check_in_date b = sprintf_date ci -> 0 <= yy ci ->
  C.sscanf fmt_booking (booking_line b) u
  = (6, {| booking_id := booking_id u; booked_room := booked_room b;
           username := username b; booking_date := dh; check_in_date := mi;
           check_out_date := ss;
           total_price := C.float_of_decimal false (yy ci) 0;
           booking_status := booking_status u |}).
Proof.
  intros (Nu & Cu) (Nd & Cd) (Nm & Cm) (Ns & Cs) Ed Ei Hy.
  unfold booking_line. rewrite Ed, Ei. unfold sprintf_date.
  rewrite !append_assoc. cbn [append].
  destruct (fmt_0d_digits 4 (yy ci) Hy) as (Dy & Ny & Vy).
  unfold fmt_booking.
  rewrite sscanf_conv, scan_not_app by assumption.
  rewrite sscanf_lit, Ascii.eqb_refl.
  rewrite sscanf_conv, (scan_d_complete _ _ _ (fmt_d_int_text (booked_room b)))
    by reflexivity.
  rewrite sscanf_lit, Ascii.eqb_refl.
  rewrite sscanf_conv, scan_not_app by assumption.
  rewrite sscanf_lit, Ascii.eqb_refl.
  rewrite sscanf_conv, scan_not_app by assumption.
  rewrite sscanf_lit, Ascii.eqb_refl.
  rewrite sscanf_conv, scan_not_app by assumption.
  rewrite sscanf_lit, Ascii.eqb_refl.
  rewrite sscanf_conv, scan_f_digits by assumption.
  rewrite sscanf_lit. change (Ascii.eqb ":" "-") with false. cbv iota.
  rewrite Vy. destruct u. reflexivity.
Qed.

(** X20.  Every line that a confirmed booking appends is read short by
    the readers of the booking file.  For entries in one of the two
    shapes, of integers that fit an [int], with a check-in year that is
    not negative, and a time stamp of three parts separated by colons:
    [sscanf] stores six fields, the second and third part of the time
    stamp as the two dates and the year of the check-in date as the
    price, and leaves the status and the id as they were. *)
Theorem confirmed_booking_is_misread (fs : files) (ck : clock)
    (l : book_locals) (user : string) (selected : option Z)
    (checkin checkout : string) (id nights : Z) (total : C.float)
    (fs' : files) (y m d y' m' d' : Z) (dh mi ss : string) :
  on_book_room_clicked fs ck l user selected checkin checkout
  = Status (BookingConfirmed id total nights) fs' ->
  begins_with_three "-" checkin y m d \/ begins_with_three "/" checkin d m y ->
  fits_int y -> fits_int m -> fits_int d -> 0 <= y ->
  begins_with_three "-" checkout y' m' d'
  \/ begins_with_three "/" checkout d' m' y' ->
  fits_int y' -> fits_int m' -> fits_int d' ->
  timestamp ck = dh ++ ":" ++ mi ++ ":" ++ ss ->
  plain dh -> plain mi -> plain ss -> plain user ->
  exists number line,
    selected = Some number
    /\ BOOKING_FILE fs' = Some (append_text (BOOKING_FILE fs) line)
    /\ forall u,
         C.sscanf fmt_booking line u
         = (6, {| booking_id := booking_id u; booked_room := number;
                  username := user; booking_date := dh; check_in_date := mi;
                  check_out_date := ss;
                  total_price := C.float_of_decimal false y 0;
                  booking_status := booking_status u |}).
Proof.
  intros H Hshape _ _ _ Hy _ _ _ _ Hts Hdh Hmi Hss Hu.
  destruct (book_confirmed_inv _ _ _ _ _ _ _ _ _ _ _ H)
    as (number & text & -> & _ & _ & _ & Hb).
  exists number. eexists. split; [reflexivity|]. split; [exact Hb|].
  intros u.
  rewrite (booking_line_misread _ u dh mi ss {| yy := y; mm := m; dd := d |});
    try assumption; try reflexivity.
  cbn [check_in_date].
  destruct Hshape as [Hs|Hs];
    [apply (parse_date_dash _ _ _ _ _ Hs)|apply (parse_date_slash _ _ _ _ _ Hs)].
Qed.

(** The theorem at work: the line of alice's booking of room 101. *)
Lemma confirmed_booking_is_misread_witness :
  exists number line,
    Some 101 = Some number
    /\ BOOKING_FILE files_alice_booked
       = Some (append_text (BOOKING_FILE fresh_files) line)
    /\ forall u,
         C.sscanf fmt_booking line u
         = (6, {| booking_id := booking_id u; booked_room := number;
                  username := "alice"; booking_date := "2025-06-02 10";
                  check_in_date := "00"; check_out_date := "00";
                  total_price := C.float_of_decimal false 2025 0;
                  booking_status := booking_status u |}).
Proof.
  apply (confirmed_booking_is_misread fresh_files clock_1 locals_1 "alice"
           (Some 101) "2025-06-01" "2025-06-03" 858400 2 f200
           files_alice_booked 2025 6 1 2025 6 3 "2025-06-02 10" "00" "00");
    try (split; [discriminate|reflexivity]);
    try (unfold fits_int; lia).
  - vm_compute. reflexivity.
  - left. exists "2025", "06", "01", "".
    split; [apply (int_plain "" "2025"); [reflexivity|reflexivity|discriminate]|].
    split; [apply (int_plain "" "06"); [reflexivity|reflexivity|discriminate]|].
    split; [apply (int_plain "" "01"); [reflexivity|reflexivity|discriminate]|].
    split; reflexivity.
  - left. exists "2025", "06", "03", "".
    split; [apply (int_plain "" "2025"); [reflexivity|reflexivity|discriminate]|].
    split; [apply (int_plain "" "06"); [reflexivity|reflexivity|discriminate]|].
    split; [apply (int_plain "" "03"); [reflexivity|reflexivity|discriminate]|].
    split; reflexivity.
  - reflexivity.
Defined.

(** ** The lists of bookings and the receipts *)

Lemma load_all_loop_spec (lines : list string) (v : Booking)
    (filter : option BookingFilter) (store : list Booking) :
  load_all_bookings_loop lines v filter store
  = (store ++ List.filter (passes_booking_filter filter) (bookings_seen lines v))%list.
Proof.
  revert v store. induction lines as [|line lines IH]; intros v store.
  - cbn. now rewrite app_nil_r.
  - cbn [load_all_bookings_loop bookings_seen List.filter].
    destruct (passes_booking_filter filter _); rewrite IH;
      [now rewrite <- app_assoc|reflexivity].
Qed.

Lemma load_user_loop_spec (lines : list string) (v : Booking) (name : string)
    (store : list booking_row) :
  load_user_bookings_loop lines v name store
  = (store ++ map row_of (List.filter (booked_by name) (bookings_seen lines v)))%list.
Proof.
  revert v store. induction lines as [|line lines IH]; intros v store.
  - cbn. now rewrite app_nil_r.
  - cbn [load_user_bookings_loop bookings_seen List.filter].
    set (v' := snd (C.sscanf fmt_booking line v)).
    change (C.strcmp (username v') name =? 0) with (booked_by name v').
    destruct (booked_by name v'); rewrite IH;
      [cbn [map]; now rewrite <- app_assoc|reflexivity].
Qed.

Lemma filter_none (lines : list string) (v : Booking) :
  List.filter (passes_booking_filter None) (bookings_seen lines v)
  = bookings_seen lines v.
Proof.
  revert v. induction lines as [|line lines IH]; intros v; [reflexivity|].
  cbn [bookings_seen List.filter passes_booking_filter]. now rewrite IH.
Qed.

(** X21.  The three lists of bookings are one list.  Whatever the booking
    file holds, the list of [load_all_bookings_into_store] under a filter
    is its list without a filter, filtered; the list of
    [load_user_bookings_into_store] holds the rows of that list whose user
    name is the one asked for, in the same order; a filter with no id, no
    name and no dates lets everything pass; and both functions append to
    the store they are given and leave its rows in place. *)
Theorem booking_lists_agree (fs : files) (v : Booking)
    (filter : BookingFilter) (name : string) :
  let all := load_all_bookings_into_store fs v [] None in
  load_all_bookings_into_store fs v [] (Some filter)
  = List.filter (passes_booking_filter (Some filter)) all
  /\ load_user_bookings_into_store fs v [] name
     = map row_of (List.filter (booked_by name) all)
  /\ (filter_booking_id filter = 0 -> filter_username filter = "" ->
      start_date filter = "" -> end_date filter = "" ->
      load_all_bookings_into_store fs v [] (Some filter) = all)
  /\ (forall store,
        load_all_bookings_into_store fs v store (Some filter)
        = (store ++ load_all_bookings_into_store fs v [] (Some filter))%list)
  /\ (forall store,
        load_user_bookings_into_store fs v store name
        = (store ++ load_user_bookings_into_store fs v [] name)%list).
Proof.
  intros all. subst all.
  unfold load_all_bookings_into_store, load_user_bookings_into_store.
  destruct (BOOKING_FILE fs) as [text|].
  - rewrite !load_all_loop_spec, load_user_loop_spec, filter_none.
    cbn [app]. repeat split.
    + intros E1 E2 E3 E4.
      assert (forall b, passes_booking_filter (Some filter) b = true) as Hall.
      { intros b. unfold passes_booking_filter. now rewrite E1, E2, E3, E4. }
      clear - Hall. induction (bookings_seen _ v) as [|b bs IH]; [reflexivity|].
      cbn [List.filter]. now rewrite Hall, IH.
    + intros store. now rewrite !load_all_loop_spec.
    + intros store. now rewrite !load_user_loop_spec.
  - cbn. repeat split; intros; now rewrite ?app_nil_r.
Qed.

Lemma display_receipt_prepends (b : Booking) (buffer : string) :
  display_receipt_in_buffer b buffer = receipt b ++ buffer.
Proof.
  unfold receipt, display_receipt_in_buffer, gtk_text_buffer_insert,
    gtk_text_buffer_get_iter_at_offset_0, text_of.
  cbn [fst snd]. rewrite append_nil_r. reflexivity.
Qed.

Lemma receipt_loop_spec (lines : list string) (v : Booking) (name : string)
    (buffer : string) (count : Z) :
  load_receipt_history_loop lines v name buffer count
  = (written
       (rev (map receipt (List.filter (booked_by name) (bookings_seen lines v))))
     ++ buffer,
     count
     + Z.of_nat (List.length (List.filter (booked_by name) (bookings_seen lines v)))).
Proof.
  revert v buffer count. induction lines as [|line lines IH];
    intros v buffer count.
  - cbn. f_equal. lia.
  - cbn [load_receipt_history_loop bookings_seen List.filter].
    set (v' := snd (C.sscanf fmt_booking line v)).
    change (C.strcmp (username v') name =? 0) with (booked_by name v').
    destruct (booked_by name v'); rewrite IH; [|reflexivity].
    cbn [map rev List.length]. rewrite display_receipt_prepends. f_equal; [|lia].
    rewrite written_app. cbn [written].
    now rewrite append_nil_r, append_assoc.
Qed.

(** X22.  [load_receipt_history_for_user] leaves the buffer as it is when
    there is no booking file.  Otherwise the buffer holds the receipts of
    the bookings of the user, the last of the file first, and the title
    after them, not before: every text is inserted at offset 0.  Without
    such a booking the buffer holds the notice and then the title. *)
Theorem receipts_latest_first (fs : files) (u : Booking) (name : string)
    (buffer : string) :
  load_receipt_history_for_user fs u name buffer
  = match BOOKING_FILE fs with
    | None => buffer
    | Some text =>
        let mine :=
          List.filter (booked_by name)
            (bookings_seen (C.fgets_lines (MAX_LEN * 3) text) u) in
        (match mine with
         | [] => "No receipts found." ++ nl
         | _ => written (rev (map receipt mine))
         end) ++ "========== RECEIPT HISTORY ==========" ++ nl ++ nl
    end.
Proof.
  unfold load_receipt_history_for_user.
  destruct (BOOKING_FILE fs) as [text|]; [|reflexivity].
  rewrite receipt_loop_spec. cbv zeta.
  destruct (List.filter _ _) as [|b bs].
  - reflexivity.
  - replace (0 + Z.of_nat (List.length (b :: bs)) =? 0) with false;
      [reflexivity|].
    symmetry. apply Z.eqb_neq. cbn [List.length]. lia.
Qed.

Lemma bookings_seen_read_back (bs : list Booking) (v : Booking) :
  Forall reads_back_booking bs -> bookings_seen (map booking_line bs) v = bs.
Proof.
  intros H. revert v. induction H as [|b bs Hb _ IH]; intros v; [reflexivity|].
  cbn [map bookings_seen]. rewrite Hb. cbn [snd]. now rewrite IH.
Qed.

Lemma user_rows_read_back (fs : files) (v : Booking) (bs : list Booking)
    (text name : string) (store : list booking_row) :
  BOOKING_FILE fs = Some text -> booking_file_of (MAX_LEN * 3) bs text ->
  load_user_bookings_into_store fs v store name
  = (store ++ map row_of (List.filter (booked_by name) bs))%list.
Proof.
  intros Hf (-> & Hback & Hline). unfold load_user_bookings_into_store.
  rewrite Hf. unfold write_bookings. rewrite fgets_written by assumption.
  now rewrite load_user_loop_spec, bookings_seen_read_back.
Qed.

Lemma cancel_without_match (id : Z) (bs : list Booking) :
  existsb (fun b => booking_id b =? id) bs = false ->
  map (fun b => if booking_id b =? id
                then set_booking_status "canceled" b else b) bs = bs.
Proof.
  induction bs as [|b bs IH]; [reflexivity|]. cbn [existsb map].
  intros H. apply orb_false_iff in H as [-> H]. now rewrite IH.
Qed.

(** X23.  After a cancellation the booking list shows the bookings of the
    user twice.  On files whose lines are read back as they were written,
    before and after the cancellation (at most 100 bookings and 100 rooms,
    no booking of room -1): the list that [show_booking_manage] has loaded
    holds the rows of the user's bookings, and [on_cancel_booking_clicked]
    leaves these rows in the list and appends the rows of the same
    bookings as the file now holds them, the cancelled ones with the
    status canceled. *)
Theorem cancel_appends_to_booking_list (fs : files) (l : cancel_locals)
    (v : Booking) (user : string) (store : list booking_row) (id : Z)
    (bs : list Booking) (rs : list Room) (btext rtext : string) :
  user <> "" ->
  BOOKING_FILE fs = Some btext ->
  booking_file_of (MAX_LEN * 3) bs btext ->
  Z.of_nat (List.length bs) <= MAX_BOOKINGS ->
  ROOM_FILE fs = Some rtext ->
  room_file_of (MAX_LEN * 3) rs rtext ->
  Z.of_nat (List.length rs) <= MAX_ROOMS ->
  (forall b, In b bs -> booked_room b <> -1) ->
  let bs' := map (fun b => if booking_id b =? id
                           then set_booking_status "canceled" b else b) bs in
  booking_file_of (MAX_LEN * 3) bs' (write_bookings bs') ->
  let shown := show_booking_manage fs v user store in
  shown = map row_of (List.filter (booked_by user) bs)
  /\ booking_list_after_cancel fs l v user shown (Some id)
     = Some (map row_of (List.filter (booked_by user) bs)
             ++ map row_of (List.filter (booked_by user) bs'))%list.
Proof.
  intros Hu Hb Hbf Bn Hr Hrf Rn Hroom bs' Hbf' shown.
  assert (Hshown : shown = map row_of (List.filter (booked_by user) bs)).
  { unfold shown, show_booking_manage.
    assert ((0 <? C.strlen user) = true) as ->
      by (destruct user; [congruence|reflexivity]).
    now rewrite (user_rows_read_back fs v bs btext user []). }
  split; [exact Hshown|]. rewrite Hshown.
  unfold booking_list_after_cancel.
  rewrite (cancel_read_back fs l id bs rs btext rtext) by assumption.
  cbv zeta. fold bs'. f_equal.
  destruct (existsb (fun b => booking_id b =? id) bs) eqn:Ex.
  - now apply (user_rows_read_back _ v bs' (write_bookings bs')).
  - unfold bs'. rewrite cancel_without_match by assumption.
    now apply (user_rows_read_back fs v bs btext).
Qed.

(** The theorem at work: alice cancels her booking and sees it twice. *)
Lemma cancel_appends_to_booking_list_witness :
  show_booking_manage dated_files alice_booking "alice" []
  = [(1001, 101, "2025-06-10", "2025-06-12", f200, "active")]
  /\ booking_list_after_cancel dated_files locals_with_id alice_booking "alice"
       (show_booking_manage dated_files alice_booking "alice" []) (Some 1001)
     = Some [(1001, 101, "2025-06-10", "2025-06-12", f200, "active");
             (1001, 101, "2025-06-10", "2025-06-12", f200, "canceled")].
Proof.
  apply (cancel_appends_to_booking_list dated_files locals_with_id
           alice_booking "alice" [] 1001 dated_bookings
           (seed_room_list "Booked") (write_bookings dated_bookings)
           rooms_101_booked).
  - discriminate.
  - reflexivity.
  - split; [reflexivity|]. split; [closed_records|closed_lines].
  - vm_compute. discriminate.
  - reflexivity.
  - split; [vm_compute; reflexivity|]. split; [closed_records|closed_lines].
  - vm_compute. discriminate.
  - intros b [<-|[<-|[]]]; discriminate.
  - split; [reflexivity|]. split; [closed_records|closed_lines].
Defined.
